(** * cfm-prompts: the cryptogram key generator and the two validators

    A shallow embedding of [cryptogramKeys.py], [validate_games.py] and
    [validate_prompts.py].  Python functions become functions in a small
    state-and-exception monad; the process-wide random generator, the heap
    of list objects and standard output are fields of an explicit world. *)

From Stdlib Require Import ZArith List String Ascii Lia Permutation.
From stdpp Require Import base option list gmap sets strings.

Open Scope string_scope.
Open Scope nat_scope.

(** ** Outcomes of a Python computation *)

(** The exceptions that the three scripts can raise. [SystemError] stands
    for a dangling object reference, which no Python program produces. *)
Inductive exn : Type :=
  | KeyError | TypeError | IndexError | AttributeError
  | ValueError | OverflowError | OSError | UnicodeDecodeError
  | SystemExit | SystemError.

#[global] Instance exn_eq_dec : EqDecision exn.
Proof. solve_decision. Defined.

(** A computation returns a value, raises, or is still running when the
    step budget of an unbounded [while] loop is used up. *)
Inductive outcome (A : Type) : Type :=
  | Returned (a : A)
  | Raised (e : exn)
  | Diverged.
Arguments Returned {A} a.
Arguments Raised {A} e.
Arguments Diverged {A}.

(** State passing with exceptions: the state survives a raise. *)
Definition M (S A : Type) : Type := S -> outcome A * S.

Definition ret {S A} (a : A) : M S A := fun s => (Returned a, s).
Definition raise {S A} (e : exn) : M S A := fun s => (Raised e, s).
Definition diverge {S A} : M S A := fun s => (Diverged, s).
Definition bind {S A B} (m : M S A) (k : A -> M S B) : M S B :=
  fun s =>
    match m s with
    | (Returned a, s') => k a s'
    | (Raised e, s') => (Raised e, s')
    | (Diverged, s') => (Diverged, s')
    end.

(** A computation that is never cut short by a step budget. *)
Definition halts {S A} (m : M S A) : Prop :=
  forall s, fst (m s) <> Diverged.

(** A computation that returns from every state. *)
Definition returns {S A} (m : M S A) : Prop :=
  forall s, exists a s', m s = (Returned a, s').

Declare Scope py_scope.
Delimit Scope py_scope with py.
Notation "x <- m ;; k" := (bind m (fun x => k))
  (at level 100, m at next level, right associativity) : py_scope.
Notation "m ;;; k" := (bind m (fun _ => k))
  (at level 100, right associativity) : py_scope.
Open Scope py_scope.

(** Lifting of a pure fallible step. *)
Definition lift {S A} (o : outcome A) : M S A := fun s => (o, s).

(** [try: m except e: handler] *)
Definition try_except {S A} (m : M S A) (e : exn) (handler : M S A) : M S A :=
  fun s =>
    match m s with
    | (Raised e', s') =>
        if bool_decide (e' = e) then handler s' else (Raised e', s')
    | r => r
    end.

(** ** The random module *)

(** [random] is a process-wide generator.  Its state is kept abstract:
    [randbelow n] draws an integer in [0, n) and advances the state. *)
Class RandomSource (R : Type) : Type := {
  randbelow : nat -> R -> nat * R;
  randbelow_lt : forall n r, 0 < n -> fst (randbelow n r) < n
}.

(** [x[i], x[j] = x[j], x[i]]: both reads happen first, then [x[i]] and
    [x[j]] are written in that order; an index out of range raises. *)
Definition swap {A} (x : list A) (i j : nat) : outcome (list A) :=
  match x !! j, x !! i with
  | Some xj, Some xi => Returned (<[j:=xi]> (<[i:=xj]> x))
  | _, _ => Raised IndexError
  end.

(** The loop of [random.shuffle]:
    [for i in reversed(range(1, len(x))): j = randbelow(i + 1); swap]. *)
Fixpoint shuffle_from `{RandomSource R} {A} (i : nat) (x : list A) (r : R)
  : outcome (list A) * R :=
  match i with
  | 0 => (Returned x, r)
  | S i' =>
      let (j, r') := randbelow (S i) r in
      match swap x i j with
      | Returned x' => shuffle_from i' x' r'
      | Raised e => (Raised e, r')
      | Diverged => (Diverged, r')
      end
  end.

Definition shuffle `{RandomSource R} {A} (x : list A) (r : R)
  : outcome (list A) * R :=
  shuffle_from (length x - 1) x r.

(** ** cryptogramKeys.py *)

Module cryptogramKeys.

Definition loc := nat.

(** The state a call can see: the random generator, the list objects
    on the heap and what has been printed. *)
Record world (R : Type) : Type := World {
  rng : R;
  heap : gmap loc (list ascii);
  stdout : list string
}.
Arguments World {R} _ _ _.
Arguments rng {R} _.
Arguments heap {R} _.
Arguments stdout {R} _.

Section Generator.
Context `{RandomSource R}.

(** A new list object. *)
Definition alloc (x : list ascii) : M (world R) loc :=
  fun w =>
    let l := fresh (dom (heap w)) in
    (Returned l, World (rng w) (<[l:=x]> (heap w)) (stdout w)).

Definition load (l : loc) : M (world R) (list ascii) :=
  fun w =>
    match heap w !! l with
    | Some x => (Returned x, w)
    | None => (Raised SystemError, w)
    end.

(** [x.copy()] *)
Definition list_copy (l : loc) : M (world R) loc :=
  x <- load l ;; alloc x.

(** [x[i]] *)
Definition list_getitem (l : loc) (i : nat) : M (world R) ascii :=
  x <- load l ;;
  match x !! i with
  | Some c => ret c
  | None => raise IndexError
  end.

(** [random.shuffle(x)]: the list object is permuted in place. *)
Definition random_shuffle (l : loc) : M (world R) unit :=
  fun w =>
    match heap w !! l with
    | None => (Raised SystemError, w)
    | Some x =>
        match shuffle x (rng w) with
        | (Returned x', r') =>
            (Returned tt, World r' (<[l:=x']> (heap w)) (stdout w))
        | (Raised e, r') => (Raised e, World r' (heap w) (stdout w))
        | (Diverged, r') => (Diverged, World r' (heap w) (stdout w))
        end
    end.

(** [''.join(x)] *)
Definition join (l : loc) : M (world R) string :=
  x <- load l ;; ret (string_of_list_ascii x).

(** [print(s)] *)
Definition print (s : string) : M (world R) unit :=
  fun w => (Returned tt, World (rng w) (heap w) (stdout w ++ [s])).

(** [chr(i) for i in range(65, 91)] *)
Definition letters_value : list ascii := map ascii_of_nat (seq 65 26).

(** The scan for a letter in its original position:
    [for i in range(26): if shuffled[i] == letters[i]: valid = False; break] *)
Fixpoint scan (shuffled letters : loc) (range : list nat)
  : M (world R) bool :=
  match range with
  | [] => ret true
  | i :: range' =>
      a <- list_getitem shuffled i ;;
      b <- list_getitem letters i ;;
      if Ascii.eqb a b then ret false else scan shuffled letters range'
  end.

(** The body of [while True], with the number of trials bounded. *)
Fixpoint trials (fuel : nat) (letters : loc) : M (world R) string :=
  match fuel with
  | 0 => diverge
  | S fuel' =>
      shuffled <- list_copy letters ;;
      random_shuffle shuffled ;;;
      valid <- scan shuffled letters (seq 0 26) ;;
      if valid then join shuffled else trials fuel' letters
  end.

Definition generate_cryptogram_key (fuel : nat) : M (world R) string :=
  letters <- alloc letters_value ;;
  trials fuel letters.

(** The module-level loop:
    [for i in range(20): key = generate_cryptogram_key(); print(key)] *)
Fixpoint driver_loop (fuel : nat) (calls : nat) : M (world R) unit :=
  match calls with
  | 0 => ret tt
  | S calls' =>
      key <- generate_cryptogram_key fuel ;;
      print key ;;;
      driver_loop fuel calls'
  end.

Definition driver (fuel : nat) : M (world R) unit := driver_loop fuel 20.

End Generator.

(** *** Reference semantics of the generator

    What one call computes, as a function of the random state alone:
    used to state how the heap-level program behaves. *)

(** Whether list [x] holds, at index [i], the [i]-th letter. *)
Definition agree_at (x y : list ascii) (i : nat) : bool :=
  match x !! i, y !! i with
  | Some a, Some b => Ascii.eqb a b
  | _, _ => false
  end.

Definition fixed_point_free (x : list ascii) : bool :=
  forallb (fun i => negb (agree_at x letters_value i)) (seq 0 26).

Fixpoint pure_trials `{RandomSource R} (fuel : nat) (r : R)
  : outcome string * R :=
  match fuel with
  | 0 => (Diverged, r)
  | S fuel' =>
      match shuffle letters_value r with
      | (Returned x, r') =>
          if fixed_point_free x then (Returned (string_of_list_ascii x), r')
          else pure_trials fuel' r'
      | (Raised e, r') => (Raised e, r')
      | (Diverged, r') => (Diverged, r')
      end
  end.

(** The random state after [n] shuffles of the alphabet. *)
Fixpoint rng_after `{RandomSource R} (n : nat) (r : R) : R :=
  match n with
  | 0 => r
  | S n' => rng_after n' (snd (shuffle letters_value r))
  end.

(** The [n]-th shuffle drawn from state [r] has no fixed point. *)
Definition yields_at `{RandomSource R} (n : nat) (r : R) : Prop :=
  exists x r', shuffle letters_value (rng_after n r) = (Returned x, r')
               /\ fixed_point_free x = true.

(** The alphabet the scripts compare with. *)
Definition alphabet : string := "ABCDEFGHIJKLMNOPQRSTUVWXYZ".

(** A derangement key: 26 characters, all in A-Z, none repeated, none at
    its own place in the alphabet. *)
Definition derangement_key (key : string) : Prop :=
  String.length key = 26
  /\ (forall c, c ∈ list_ascii_of_string key -> 65 <= nat_of_ascii c <= 90)
  /\ NoDup (list_ascii_of_string key)
  /\ forall i, i < 26 -> String.get i key <> String.get i alphabet.

(** A source is fair when, from every state, some later shuffle of the
    alphabet has no fixed point. *)
Definition fair `{RandomSource R} : Prop := forall r : R, exists n, yields_at n r.

(** [calls fuel n w keys w']: [n] successive iterations of the driver
    loop from [w], each a call that returned the next key of [keys]
    followed by its [print], end in [w']. *)
Inductive calls `{RandomSource R} (fuel : nat)
  : nat -> world R -> list string -> world R -> Prop :=
  | calls_done w : calls fuel 0 w [] w
  | calls_next n w key w1 keys w2 :
      generate_cryptogram_key fuel w = (Returned key, w1) ->
      calls fuel n (snd (print key w1)) keys w2 ->
      calls fuel (S n) w (key :: keys) w2.

(** *** Concrete random sources *)

(** A source that replays a tape of raw draws (reduced modulo the
    bound) and draws 0 once the tape is used up. *)
Definition tape_randbelow (n : nat) (t : list nat) : nat * list nat :=
  match t with
  | [] => (0, [])
  | x :: t' => (x mod n, t')
  end.

Lemma tape_randbelow_lt n (t : list nat) :
  0 < n -> fst (tape_randbelow n t) < n.
Proof.
  intros Hn. destruct t as [|x t]; simpl; [exact Hn|].
  apply Nat.mod_upper_bound. lia.
Qed.

Definition tape_source : RandomSource (list nat) :=
  {| randbelow := tape_randbelow; randbelow_lt := tape_randbelow_lt |}.

(** The source that always draws 0. *)
Definition zero_source : RandomSource unit :=
  {| randbelow := fun _ r => (0, r); randbelow_lt := fun n r Hn => Hn |}.

End cryptogramKeys.

(** ** Python values read from a JSON file *)

(** What [json.load] returns.  Characters are those of [ascii], read as
    the code points U+0000 to U+00FF; a number keeps its literal, since
    the scripts never compute with one. *)
#[warnings="-register-all"]
Inductive json : Type :=
  | JNull
  | JBool (b : bool)
  | JNumber (literal : string)
  | JStr (s : string)
  | JArr (items : list json)
  | JObj (members : list (string * json)).

(** A printed line: the literal pieces of the f-string and the values
    interpolated into it, in order. *)
Inductive frag : Type :=
  | Lit (s : string)
  | Int (n : nat)
  | Val (v : json).
Definition text : Type := list frag.

(** Standard output of a validator run. *)
Definition console : Type := list text.

Definition echo (t : text) : M console unit :=
  fun out => (Returned tt, (out ++ [t])%list).

(** Sequencing of steps that only return or raise. *)
Definition obind {A B} (o : outcome A) (k : A -> outcome B) : outcome B :=
  match o with
  | Returned a => k a
  | Raised e => Raised e
  | Diverged => Diverged
  end.
Notation "x <~ o ;; k" := (obind o (fun x => k))
  (at level 100, o at next level, right associativity) : py_scope.

Module py.

(** The member of a dict for a key; as in [json.load], the last of
    several members with one key is the one kept. *)
Fixpoint dict_get (key : string) (members : list (string * json))
  : option json :=
  match members with
  | [] => None
  | (k, v) :: rest =>
      match dict_get key rest with
      | Some v' => Some v'
      | None => if String.eqb key k then Some v else None
      end
  end.

Fixpoint dict_len (members : list (string * json)) : nat :=
  match members with
  | [] => 0
  | (k, v) :: rest =>
      match dict_get k rest with
      | Some _ => dict_len rest
      | None => S (dict_len rest)
      end
  end.

(** [needle in hay] for two strings. *)
Fixpoint str_contains (needle hay : string) : bool :=
  String.prefix needle hay
  || match hay with
     | EmptyString => false
     | String _ hay' => str_contains needle hay'
     end.

(** [v == s] for a string [s]. *)
Definition eq_str (v : json) (s : string) : bool :=
  match v with
  | JStr s' => String.eqb s' s
  | _ => false
  end.

(** [key in container] *)
Definition contains (key : string) (container : json) : outcome bool :=
  match container with
  | JObj members => Returned (bool_decide (is_Some (dict_get key members)))
  | JArr items => Returned (existsb (fun v => eq_str v key) items)
  | JStr s => Returned (str_contains key s)
  | _ => Raised TypeError
  end.

(** [container[key]] for a string key. *)
Definition getitem (container : json) (key : string) : outcome json :=
  match container with
  | JObj members =>
      match dict_get key members with
      | Some v => Returned v
      | None => Raised KeyError
      end
  | _ => Raised TypeError
  end.

(** [container[i]] for an integer index. *)
Definition getindex (container : json) (i : nat) : outcome json :=
  match container with
  | JArr items =>
      match items !! i with
      | Some v => Returned v
      | None => Raised IndexError
      end
  | JStr s =>
      match String.get i s with
      | Some c => Returned (JStr (String c EmptyString))
      | None => Raised IndexError
      end
  | JObj _ => Raised KeyError
  | _ => Raised TypeError
  end.

(** [s[i]] for a string constant. *)
Definition str_index (s : string) (i : nat) : outcome string :=
  match String.get i s with
  | Some c => Returned (String c EmptyString)
  | None => Raised IndexError
  end.

Fixpoint drop_while (p : ascii -> bool) (cs : list ascii) : list ascii :=
  match cs with
  | [] => []
  | c :: cs' => if p c then drop_while p cs' else cs
  end.

(** [len(v)] *)
Definition len (v : json) : outcome nat :=
  match v with
  | JObj members => Returned (dict_len members)
  | JArr items => Returned (length items)
  | JStr s => Returned (String.length s)
  | _ => Raised TypeError
  end.

(** [v in s] for a set of strings: only hashable values can be asked. *)
Definition in_set (v : json) (s : gset string) : outcome bool :=
  match v with
  | JStr x => Returned (bool_decide (x ∈ s))
  | JArr _ | JObj _ => Raised TypeError
  | _ => Returned false
  end.

(** *** Character classes of [str] and [re] on U+0000 to U+00FF *)

Definition between (lo hi : nat) (c : ascii) : bool :=
  (lo <=? nat_of_ascii c) && (nat_of_ascii c <=? hi).

Definition is_digit (c : ascii) : bool := between 48 57 c.

(** [[a-zA-Z]] *)
Definition is_ascii_letter (c : ascii) : bool :=
  between 65 90 c || between 97 122 c.

(** [str.isupper] and [str.islower] of one character. *)
Definition char_isupper (c : ascii) : bool :=
  between 65 90 c || between 192 214 c || between 216 222 c.
Definition char_islower (c : ascii) : bool :=
  between 97 122 c || between 170 170 c || between 181 181 c
  || between 186 186 c || between 223 246 c || between 248 255 c.

(** [\w] *)
Definition is_word_char (c : ascii) : bool :=
  between 48 57 c || between 65 90 c || between 95 95 c
  || between 97 122 c || between 170 170 c || between 178 179 c
  || between 181 181 c || between 185 186 c || between 188 190 c
  || between 192 214 c || between 216 246 c || between 248 255 c.

(** [s.isupper()]: no lowercase character and at least one uppercase. *)
Definition str_isupper (s : string) : bool :=
  let cs := list_ascii_of_string s in
  forallb (fun c => negb (char_islower c)) cs && existsb char_isupper cs.

Definition isupper (v : json) : outcome bool :=
  match v with
  | JStr s => Returned (str_isupper s)
  | JNumber _ | JBool _ | JNull | JArr _ | JObj _ => Raised AttributeError
  end.

(** A pattern applied to a value: [re] raises [TypeError] unless the
    value is a string. *)
Definition on_str {A} (f : string -> A) (v : json) : outcome A :=
  match v with
  | JStr s => Returned (f s)
  | _ => Raised TypeError
  end.

(** [$] matches at the end and before a newline that ends the string. *)
Definition at_dollar (rest : list ascii) : bool :=
  match rest with
  | [] => true
  | [c] => Ascii.eqb c "010"%char
  | _ => false
  end.

(** [re.findall(r'\w+', s)]: the maximal runs of word characters. *)
Fixpoint word_runs (cs : list ascii) (run : list ascii) : list string :=
  match cs with
  | [] => match run with [] => [] | _ => [string_of_list_ascii (rev run)] end
  | c :: cs' =>
      if is_word_char c then word_runs cs' (c :: run)
      else match run with
           | [] => word_runs cs' []
           | _ => string_of_list_ascii (rev run) :: word_runs cs' []
           end
  end.
Definition findall_words (s : string) : list string :=
  word_runs (list_ascii_of_string s) [].

End py.

(** ** datetime *)

Module datetime.
#[local] Open Scope Z_scope.

(** A [datetime] at midnight, which is all the scripts build. *)
Record date : Type := Date { year : Z; month : Z; day : Z }.

Definition is_leap (y : Z) : bool :=
  (y mod 4 =? 0) && (negb (y mod 100 =? 0) || (y mod 400 =? 0)).

Definition days_in_month (y m : Z) : Z :=
  match m with
  | 1 | 3 | 5 | 7 | 8 | 10 | 12 => 31
  | 4 | 6 | 9 | 11 => 30
  | 2 => if is_leap y then 29 else 28
  | _ => 0
  end.

(** The dates that [datetime] can hold: years 1 to 9999. *)
Definition valid (d : date) : bool :=
  (1 <=? year d) && (year d <=? 9999)
  && (1 <=? month d) && (month d <=? 12)
  && (1 <=? day d) && (day d <=? days_in_month (year d) (month d)).

(** [a <= b] *)
Definition le (a b : date) : bool :=
  (year a <? year b)
  || ((year a =? year b)
      && ((month a <? month b)
          || ((month a =? month b) && (day a <=? day b)))).

(** [d + timedelta(days=1)]: past 9999-12-31 it raises. *)
Definition add_one_day (d : date) : outcome date :=
  if day d <? days_in_month (year d) (month d)
  then Returned (Date (year d) (month d) (day d + 1))
  else if month d <? 12 then Returned (Date (year d) (month d + 1) 1)
  else if year d <? 9999 then Returned (Date (year d + 1) 1 1)
  else Raised OverflowError.

(** [toordinal]: the day number, 0001-01-01 being day 1. *)
Definition days_before_year (y : Z) : Z :=
  (y - 1) * 365 + (y - 1) / 4 - (y - 1) / 100 + (y - 1) / 400.

Definition days_before_month (y m : Z) : Z :=
  match m with
  | 1 => 0 | 2 => 31 | 3 => 59 | 4 => 90 | 5 => 120 | 6 => 151
  | 7 => 181 | 8 => 212 | 9 => 243 | 10 => 273 | 11 => 304 | 12 => 334
  | _ => 0
  end + (if (2 <? m) && is_leap y then 1 else 0).

Definition toordinal (d : date) : Z :=
  days_before_year (year d) + days_before_month (year d) (month d) + day d.

(** *** strptime(s, "%Y-%m-%d") *)

Definition digit_value (c : ascii) : Z := Z.of_nat (nat_of_ascii c) - 48.

Definition in_range (lo hi : ascii) (c : ascii) : bool :=
  py.between (nat_of_ascii lo) (nat_of_ascii hi) c.

(** [%Y]: exactly four digits. *)
Definition parse_year (cs : list ascii) : option (Z * list ascii) :=
  match cs with
  | a :: b :: c :: d :: rest =>
      if py.is_digit a && py.is_digit b && py.is_digit c && py.is_digit d
      then Some (((digit_value a * 10 + digit_value b) * 10
                  + digit_value c) * 10 + digit_value d, rest)
      else None
  | _ => None
  end.

(** [%m] is [1[0-2]|0[1-9]|[1-9]], tried in this order. *)
Definition parse_month (cs : list ascii) : option (Z * list ascii) :=
  match cs with
  | a :: rest =>
      match rest with
      | b :: rest' =>
          if Ascii.eqb a "1" && in_range "0" "2" b
          then Some (10 + digit_value b, rest')
          else if Ascii.eqb a "0" && in_range "1" "9" b
          then Some (digit_value b, rest')
          else if in_range "1" "9" a then Some (digit_value a, rest)
          else None
      | [] => if in_range "1" "9" a then Some (digit_value a, rest) else None
      end
  | [] => None
  end.

(** [%d] is [3[01]|[12]\d|0[1-9]|[1-9]| [1-9]], tried in this order. *)
Definition parse_day (cs : list ascii) : option (Z * list ascii) :=
  match cs with
  | a :: rest =>
      match rest with
      | b :: rest' =>
          if Ascii.eqb a "3" && in_range "0" "1" b
          then Some (30 + digit_value b, rest')
          else if in_range "1" "2" a && py.is_digit b
          then Some (digit_value a * 10 + digit_value b, rest')
          else if Ascii.eqb a "0" && in_range "1" "9" b
          then Some (digit_value b, rest')
          else if in_range "1" "9" a then Some (digit_value a, rest)
          else if Ascii.eqb a " " && in_range "1" "9" b
          then Some (digit_value b, rest')
          else None
      | [] => if in_range "1" "9" a then Some (digit_value a, rest) else None
      end
  | [] => None
  end.

Definition expect (c : ascii) (cs : list ascii) : option (list ascii) :=
  match cs with
  | a :: rest => if Ascii.eqb a c then Some rest else None
  | [] => None
  end.

(** The text must match the pattern as a whole and name a date that
    exists; anything else is a [ValueError]. *)
Definition parse_date (s : string) : option date :=
  '(y, cs1) ← parse_year (list_ascii_of_string s);
  cs2 ← expect "-" cs1;
  '(m, cs3) ← parse_month cs2;
  cs4 ← expect "-" cs3;
  '(d, cs5) ← parse_day cs4;
  match cs5 with
  | [] => if valid (Date y m d) then Some (Date y m d) else None
  | _ => None
  end.

Definition strptime (v : json) : outcome date :=
  match v with
  | JStr s =>
      match parse_date s with
      | Some d => Returned d
      | None => Raised ValueError
      end
  | _ => Raised TypeError
  end.

(** *** strftime("%Y-%m-%d") *)

Definition digit (n : Z) : ascii := ascii_of_nat (Z.to_nat (48 + n mod 10)).

Definition pad2 (n : Z) : list ascii := [digit (n / 10); digit n].
Definition pad4 (n : Z) : list ascii :=
  [digit (n / 1000); digit (n / 100); digit (n / 10); digit n].

(** Years are written with four digits.  (C libraries differ on years
    below 1000; the dates the validators ask for are all later.) *)
Definition strftime (d : date) : string :=
  string_of_list_ascii
    (pad4 (year d) ++ "-"%char :: pad2 (month d) ++ "-"%char :: pad2 (day d))%list.

(** *** The date loop of both validators *)

(** [while current_date <= end_date: body; current_date += timedelta(days=1)].
    Every path through the body ends with the increment, the two
    [continue] branches of validate_games.py included. *)
Fixpoint each_day {A} (fuel : nat) (body : date -> A -> M console A)
    (current_date end_date : date) (a : A) : M console A :=
  if le current_date end_date then
    match fuel with
    | O => diverge
    | S fuel' =>
        a' <- body current_date a ;;
        next <- lift (add_one_day current_date) ;;
        each_day fuel' body next end_date a'
    end
  else ret a.

(** The number of days from [a] to [b], both included: enough steps
    for the loop from [a] to [b]. *)
Definition days_between (a b : date) : nat :=
  Z.to_nat (toordinal b - toordinal a + 1).

(** The dates the loop goes through, in order. *)
Fixpoint days (fuel : nat) (current_date end_date : date) : list date :=
  if le current_date end_date then
    match fuel with
    | O => []
    | S fuel' =>
        current_date ::
        match add_one_day current_date with
        | Returned next => days fuel' next end_date
        | _ => []
        end
    end
  else [].

(** The body run on a list of dates. *)
Fixpoint fold_days {A} (body : date -> A -> M console A)
    (ds : list date) (a : A) : M console A :=
  match ds with
  | [] => ret a
  | d :: ds' => a' <- body d a ;; fold_days body ds' a'
  end.

(** The last date that [datetime] can hold. *)
Definition max_date : date := Date 9999 12 31.

End datetime.

(** ** The files the validators read *)

(** What [open(name)] followed by [json.load] meets. *)
Inductive file : Type :=
  | NoSuchFile                (* FileNotFoundError *)
  | Unreadable                (* another OSError: a directory, no permission *)
  | NotText                   (* bytes that are not UTF-8 *)
  | NotJson                   (* text that is not a JSON document *)
  | Json (data : json).

Definition filesystem : Type := string -> file.

(** ** argparse *)

(** The parser of both validators declares the positionals [file] and
    [endDate].  With any other number of arguments it prints a usage
    error and exits.  An argument that begins with a dash is an option to
    argparse; these parsers declare none but [-h], and such command lines
    are modelled as exiting. *)
Record namespace : Type := Namespace { arg_file : string; arg_endDate : string }.

Definition plain (token : string) : bool := negb (String.prefix "-" token).

Definition parse_args (argv : list string) : outcome namespace :=
  match argv with
  | [f; e] => if plain f && plain e then Returned (Namespace f e)
              else Raised SystemExit
  | _ => Raised SystemExit
  end.

(** What [main] makes of a run of [validate_json]: the value returned
    is dropped, everything else is passed on. *)
Definition discard (r : outcome bool * console) : outcome unit * console :=
  match r with
  | (Returned _, out) => (Returned tt, out)
  | (Raised e, out) => (Raised e, out)
  | (Diverged, out) => (Diverged, out)
  end.

(** ** validate_games.py *)

Module validate_games.

Definition dquote : ascii := ascii_of_nat 34.

(** [re.match(r'^[a-zA-Z]+$', s)] *)
Definition only_letters (s : string) : bool :=
  let cs := list_ascii_of_string s in
  let rest := py.drop_while py.is_ascii_letter cs in
  negb (length rest =? length cs) && py.at_dollar rest.

Definition is_valid_lingo_solution (solution : json) (all_solutions : gset string)
  : outcome (bool * option text) :=
  n <~ py.len solution ;;
  if negb (n =? 5) then
    Returned (false, Some [Lit "Lingo solution '"; Val solution;
                           Lit "' is not exactly 5 characters."])
  else
    m <~ py.on_str only_letters solution ;;
    if negb m then
      Returned (false, Some [Lit "Lingo solution '"; Val solution;
                             Lit "' contains invalid characters (only letters allowed)."])
    else
      seen <~ py.in_set solution all_solutions ;;
      if seen then
        Returned (false, Some [Lit "Lingo solution '"; Val solution;
                               Lit "' is not unique."])
      else Returned (true, None).

(** The string of a backslash, a quote, a backslash and a quote. *)
Definition escaped_quotes : string :=
  String "\" (String dquote (String "\" (String dquote EmptyString))).

Definition is_valid_scryptogram_target (target : json) (all_targets : gset string)
  : outcome (bool * option text) :=
  n <~ py.len target ;;
  if n <=? 25 then
    Returned (false, Some [Lit "Scryptogram target is too short: "; Int n;
                           Lit " characters (must be > 25)."])
  else
    words <~ py.on_str py.findall_words target ;;
    match List.find (fun word => 12 <? String.length word) words with
    | Some word =>
        Returned (false, Some [Lit "Scryptogram target contains a word longer than 12 characters: '";
                               Lit word; Lit "'."])
    | None =>
        seen <~ py.in_set target all_targets ;;
        if seen then Returned (false, Some [Lit "Scryptogram target is not unique."])
        else
          quoted <~ py.contains escaped_quotes target ;;
          if quoted then
            Returned (false, Some [Lit "Scryptogram target contains consecutive escaped quotes."])
          else Returned (true, None)
    end.

Definition is_valid_scryptogram_hint (hint : json) : outcome (bool * option text) :=
  n <~ py.len hint ;;
  if n <=? 6 then
    Returned (false, Some [Lit "Scryptogram hint is too short: "; Int n;
                           Lit " characters (must be > 6)."])
  else
    colon <~ py.contains ":" hint ;;
    if negb colon then
      Returned (false, Some [Lit "Scryptogram hint does not contain a ':' character."])
    else Returned (true, None).

Definition alphabet : string := "ABCDEFGHIJKLMNOPQRSTUVWXYZ".

(** [for i in range(26): if cipher[i] == alphabet[i]: return False, ...] *)
Fixpoint original_position (cipher : json) (range : list nat)
  : outcome (bool * option text) :=
  match range with
  | [] => Returned (true, None)
  | i :: range' =>
      c <~ py.getindex cipher i ;;
      a <~ py.str_index alphabet i ;;
      if py.eq_str c a then
        Returned (false, Some [Lit "Scryptogram cipher has '"; Val c;
                               Lit "' in its original position "; Int (i + 1);
                               Lit "."])
      else original_position cipher range'
  end.

Definition is_valid_scryptogram_cipher (cipher : json) : outcome (bool * option text) :=
  n <~ py.len cipher ;;
  if negb (n =? 26) then
    Returned (false, Some [Lit "Scryptogram cipher is not exactly 26 characters: ";
                           Int n; Lit "."])
  else
    upper <~ py.isupper cipher ;;
    if negb upper then
      Returned (false, Some [Lit "Scryptogram cipher is not all uppercase: '";
                             Val cipher; Lit "'."])
    else original_position cipher (seq 0 26).

(** The variables that the date loop updates. *)
Record tally : Type := Tally {
  all_lingo_solutions : gset string;
  all_scryptogram_targets : gset string;
  valid : bool
}.

Definition invalidate (t : tally) : tally :=
  Tally (all_lingo_solutions t) (all_scryptogram_targets t) false.

(** An interpolated message: [None] prints as the word. *)
Definition shown (msg : option text) : text :=
  match msg with
  | Some t => t
  | None => [Lit "None"]
  end.

(** [s.add(v)] *)
Definition set_add (v : json) (s : gset string) : outcome (gset string) :=
  match v with
  | JStr x => Returned ({[x]} ∪ s)
  | _ => Raised TypeError
  end.

(** ['config' not in game[0] or 'solution' not in game[0]['config']] *)
Definition lingo_config_missing (game : json) : outcome bool :=
  g0 <~ py.getindex game 0 ;;
  has <~ py.contains "config" g0 ;;
  if negb has then Returned true
  else
    g0' <~ py.getindex game 0 ;;
    config <~ py.getitem g0' "config" ;;
    has' <~ py.contains "solution" config ;;
    Returned (negb has').

(** The first element of the day's list. *)
Definition check_lingo (game : json) (date_str : string) (t : tally)
  : M console tally :=
  g0 <- lift (py.getindex game 0) ;;
  type <- lift (py.getitem g0 "type") ;;
  if negb (py.eq_str type "lingo") then
    echo [Lit "Error: First game for "; Lit date_str;
          Lit " is not of type 'lingo'"] ;;;
    ret (invalidate t)
  else
    missing <- lift (lingo_config_missing game) ;;
    if missing then
      echo [Lit "Error: Lingo game for "; Lit date_str;
            Lit " is missing config or solution"] ;;;
      ret (invalidate t)
    else
      solution <- lift (g0 <~ py.getindex game 0 ;;
                        config <~ py.getitem g0 "config" ;;
                        py.getitem config "solution") ;;
      r <- lift (is_valid_lingo_solution solution (all_lingo_solutions t)) ;;
      if negb (fst r) then
        echo ([Lit "Error on "; Lit date_str; Lit ": "] ++ shown (snd r))%list ;;;
        ret (invalidate t)
      else
        s <- lift (set_add solution (all_lingo_solutions t)) ;;
        ret (Tally s (all_scryptogram_targets t) (valid t)).

(** [any(key not in game[1]['config'] for key in keys)] *)
Fixpoint any_key_missing (game : json) (keys : list string) : outcome bool :=
  match keys with
  | [] => Returned false
  | key :: keys' =>
      g1 <~ py.getindex game 1 ;;
      config <~ py.getitem g1 "config" ;;
      has <~ py.contains key config ;;
      if negb has then Returned true else any_key_missing game keys'
  end.

Definition scryptogram_config_missing (game : json) : outcome bool :=
  g1 <~ py.getindex game 1 ;;
  has <~ py.contains "config" g1 ;;
  if negb has then Returned true
  else any_key_missing game ["target"; "hint"; "cipher"].

(** The second element of the day's list. *)
Definition check_scryptogram (game : json) (date_str : string) (t : tally)
  : M console tally :=
  g1 <- lift (py.getindex game 1) ;;
  type <- lift (py.getitem g1 "type") ;;
  if negb (py.eq_str type "scryptogram") then
    echo [Lit "Error: Second game for "; Lit date_str;
          Lit " is not of type 'scryptogram'"] ;;;
    ret (invalidate t)
  else
    missing <- lift (scryptogram_config_missing game) ;;
    if missing then
      echo [Lit "Error: Scryptogram game for "; Lit date_str;
            Lit " is missing config, target, hint, or cipher"] ;;;
      ret (invalidate t)
    else
      config <- lift (g1 <~ py.getindex game 1 ;; py.getitem g1 "config") ;;
      target <- lift (py.getitem config "target") ;;
      rt <- lift (is_valid_scryptogram_target target (all_scryptogram_targets t)) ;;
      t1 <- (if negb (fst rt) then
               echo ([Lit "Error on "; Lit date_str; Lit ": "] ++ shown (snd rt))%list ;;;
               ret (invalidate t)
             else
               target' <- lift (py.getitem config "target") ;;
               s <- lift (set_add target' (all_scryptogram_targets t)) ;;
               ret (Tally (all_lingo_solutions t) s (valid t))) ;;
      hint <- lift (py.getitem config "hint") ;;
      rh <- lift (is_valid_scryptogram_hint hint) ;;
      t2 <- (if negb (fst rh) then
               echo ([Lit "Error on "; Lit date_str; Lit ": "] ++ shown (snd rh))%list ;;;
               ret (invalidate t1)
             else ret t1) ;;
      cipher <- lift (py.getitem config "cipher") ;;
      rc <- lift (is_valid_scryptogram_cipher cipher) ;;
      if negb (fst rc) then
        echo ([Lit "Error on "; Lit date_str; Lit ": "] ++ shown (snd rc))%list ;;;
        ret (invalidate t2)
      else ret t2.

(** The body of the date loop, up to the increment of the date. *)
Definition check_date (data : json) (date_str : string) (t : tally)
  : M console tally :=
  games <- lift (py.getitem data "games") ;;
  present <- lift (py.contains date_str games) ;;
  if negb present then
    echo [Lit "Error: Missing game for date "; Lit date_str] ;;;
    ret (invalidate t)
  else
    game <- lift (games' <~ py.getitem data "games" ;; py.getitem games' date_str) ;;
    n <- lift (py.len game) ;;
    if n <? 2 then
      echo [Lit "Error: Game for "; Lit date_str;
            Lit " doesn't have at least 2 elements"] ;;;
      ret (invalidate t)
    else
      t1 <- check_lingo game date_str t ;;
      check_scryptogram game date_str t1.

Definition validate_json (fs : filesystem) (end_date_str : string)
  : M console bool :=
  end_date <- lift (datetime.strptime (JStr end_date_str)) ;;
  start_date <- lift (datetime.strptime (JStr "2025-03-05")) ;;
  match fs "prompts.json" with
  | NoSuchFile =>
      echo [Lit "Error: File prompts.json not found."] ;;; ret false
  | NotJson =>
      echo [Lit "Error: prompts.json is not a valid JSON file."] ;;; ret false
  | Unreadable => raise OSError
  | NotText => raise UnicodeDecodeError
  | Json data =>
      has <- lift (py.contains "games" data) ;;
      if negb has then
        echo [Lit "Error: JSON file does not contain a 'games' object."] ;;;
        ret false
      else
        t <- datetime.each_day (datetime.days_between start_date end_date)
               (fun current_date => check_date data (datetime.strftime current_date))
               start_date end_date (Tally ∅ ∅ true) ;;
        (if valid t then
           echo [Lit "Validation successful for all games from ";
                 Lit (datetime.strftime start_date); Lit " to ";
                 Lit (datetime.strftime end_date); Lit "."]
         else echo [Lit "Validation failed. Please fix the issues above."]) ;;;
        ret (valid t)
  end.

(** [main] discards what [validate_json] returns. *)
Definition main (fs : filesystem) (argv : list string) : M console unit :=
  args <- lift (parse_args argv) ;;
  validate_json fs (arg_endDate args) ;;;
  ret tt.

(** *** The shape of document that the code is written for

    The games member is an object of lists; in a list with two or more
    elements the first two are objects with a type member; a config
    member is an object, and the members that the checks read from it
    are strings. *)

Definition str_or_absent (members : list (string * json)) (key : string) : bool :=
  match py.dict_get key members with
  | Some (JStr _) | None => true
  | Some _ => false
  end.

Definition shaped_game (keys : list string) (g : json) : bool :=
  match g with
  | JObj members =>
      bool_decide (is_Some (py.dict_get "type" members))
      && match py.dict_get "config" members with
         | Some (JObj config) => forallb (str_or_absent config) keys
         | Some _ => false
         | None => true
         end
  | _ => false
  end.

Definition shaped_day (game : json) : bool :=
  match game with
  | JArr (g0 :: g1 :: _) =>
      shaped_game ["solution"] g0 && shaped_game ["target"; "hint"; "cipher"] g1
  | JArr _ => true
  | _ => false
  end.

Definition shaped (data : json) : bool :=
  match data with
  | JObj members =>
      match py.dict_get "games" members with
      | Some (JObj games) => forallb (fun entry => shaped_day (snd entry)) games
      | Some _ => false
      | None => true
      end
  | _ => false
  end.

(** *** What the checks ask of the entry of one date

    The per-item checks without the loop, the printing and the two
    sets: [day_entry data date_str] is the solution and the target of
    the date when its entry is there, has the two games in order and
    each check other than uniqueness answers True. *)

(** The date that ["2025-03-05"] parses to. *)
Definition first_date : datetime.date := datetime.Date 2025 3 5.

(** The last line that [validate_json] prints after the loop. *)
Definition report (t : tally) (end_date : datetime.date) : text :=
  if valid t then
    [Lit "Validation successful for all games from ";
     Lit (datetime.strftime first_date); Lit " to ";
     Lit (datetime.strftime end_date); Lit "."]
  else [Lit "Validation failed. Please fix the issues above."].

Definition passes (r : outcome (bool * option text)) : bool :=
  match r with
  | Returned (true, _) => true
  | _ => false
  end.

Definition lingo_solution (game : json) : option string :=
  match game with
  | JArr (JObj g0 :: _) =>
      match py.dict_get "type" g0, py.dict_get "config" g0 with
      | Some type, Some (JObj config) =>
          match py.dict_get "solution" config with
          | Some (JStr solution) =>
              if py.eq_str type "lingo"
                 && passes (is_valid_lingo_solution (JStr solution) ∅)
              then Some solution else None
          | _ => None
          end
      | _, _ => None
      end
  | _ => None
  end.

Definition scryptogram_target (game : json) : option string :=
  match game with
  | JArr (_ :: JObj g1 :: _) =>
      match py.dict_get "type" g1, py.dict_get "config" g1 with
      | Some type, Some (JObj config) =>
          match py.dict_get "target" config, py.dict_get "hint" config,
                py.dict_get "cipher" config with
          | Some (JStr target), Some hint, Some cipher =>
              if py.eq_str type "scryptogram"
                 && passes (is_valid_scryptogram_target (JStr target) ∅)
                 && passes (is_valid_scryptogram_hint hint)
                 && passes (is_valid_scryptogram_cipher cipher)
              then Some target else None
          | _, _, _ => None
          end
      | _, _ => None
      end
  | _ => None
  end.

Definition day_entry (data : json) (date_str : string) : option (string * string) :=
  match data with
  | JObj members =>
      match py.dict_get "games" members with
      | Some (JObj games) =>
          match py.dict_get date_str games with
          | Some game =>
              match lingo_solution game, scryptogram_target game with
              | Some solution, Some target => Some (solution, target)
              | _, _ => None
              end
          | None => None
          end
      | _ => None
      end
  | _ => None
  end.

(** All checks pass on a list of dates: every date has a good entry,
    and no solution and no target is used twice. *)
Definition all_checks_pass (data : json) (dates : list datetime.date) : Prop :=
  exists entries : list (string * string),
    Forall2 (fun d e => day_entry data (datetime.strftime d) = Some e)
      dates entries
    /\ NoDup (map fst entries) /\ NoDup (map snd entries).

End validate_games.

(** ** validate_prompts.py *)

Module validate_prompts.

(** A pattern that is a fixed sequence of character classes. *)
Fixpoint match_classes (classes : list (ascii -> bool)) (cs : list ascii)
  : option (list ascii) :=
  match classes with
  | [] => Some cs
  | p :: classes' =>
      match cs with
      | c :: cs' => if p c then match_classes classes' cs' else None
      | [] => None
      end
  end.

Definition literal (s : string) : list (ascii -> bool) :=
  map Ascii.eqb (list_ascii_of_string s).

(** [re.match(r"^Prompt for \d{4}-\d{2}-\d{2}$", s)] *)
Definition prompt_for_date (s : string) : bool :=
  match match_classes
          (literal "Prompt for " ++ repeat py.is_digit 4 ++ literal "-"
           ++ repeat py.is_digit 2 ++ literal "-" ++ repeat py.is_digit 2)
          (list_ascii_of_string s) with
  | Some rest => py.at_dollar rest
  | None => false
  end.

(** The lines [if key not in prompt_obj: print(...); return False],
    in the order of the source. *)
Definition required_keys : list (string * string) :=
  [("Lesson", "] is missing a Lesson title");
   ("WeekDay", "] is missing a WeekDay");
   ("WeekNum", "] is missing a WeekNum");
   ("WeekLabel", "] is missing a WeekLabel");
   ("Month", "] is missing a Month");
   ("Link", "] is missing a Link");
   ("Lesson", "] is missing a Lesson");
   ("Prompt", "] is missing a Prompt");
   ("PromptLink", "] is missing a PromptLink")].

Fixpoint check_keys (prompt_obj prompt_date : json) (keys : list (string * string))
  : M console bool :=
  match keys with
  | [] => ret true
  | (key, complaint) :: keys' =>
      has <- lift (py.contains key prompt_obj) ;;
      if negb has then
        echo [Lit "["; Val prompt_date; Lit complaint] ;;; ret false
      else check_keys prompt_obj prompt_date keys'
  end.

Definition check_prompt_format (prompt_obj : json) : M console bool :=
  has <- lift (py.contains "Prompt" prompt_obj) ;;
  if negb has then ret true
  else
    prompt_text <- lift (py.getitem prompt_obj "Prompt") ;;
    prompt_date <- lift (py.getitem prompt_obj "Date") ;;
    forbidden <- lift (py.on_str prompt_for_date prompt_text) ;;
    if forbidden then
      echo [Lit "Error: Invalid prompt format: '"; Val prompt_text; Lit "'"] ;;;
      ret false
    else check_keys prompt_obj prompt_date required_keys.

(** [re.search(r"https?://(?:www\.)?youtube\.com/", s)] and the same for
    [youtu\.be]: the pattern has no repetition, so it finds a match
    exactly when one of its four spellings occurs in [s]. *)
Definition youtube_patterns : list (list string) :=
  [["http://youtube.com/"; "https://youtube.com/";
    "http://www.youtube.com/"; "https://www.youtube.com/"];
   ["http://youtu.be/"; "https://youtu.be/";
    "http://www.youtu.be/"; "https://www.youtu.be/"]].

Definition search (pattern : list string) (s : string) : bool :=
  existsb (fun spelling => py.str_contains spelling s) pattern.

(** [for pattern in youtube_patterns: if re.search(pattern, link): return True] *)
Fixpoint any_pattern (patterns : list (list string)) (prompt_link : json)
  : outcome bool :=
  match patterns with
  | [] => Returned false
  | pattern :: patterns' =>
      found <~ py.on_str (search pattern) prompt_link ;;
      if found then Returned true else any_pattern patterns' prompt_link
  end.

Definition check_youtube_link (prompt_obj : json) : M console bool :=
  has_date <- lift (py.contains "Date" prompt_obj) ;;
  if negb has_date then ret true
  else
    prompt_date <- lift (py.getitem prompt_obj "Date") ;;
    has_link <- lift (py.contains "PromptLink" prompt_obj) ;;
    if negb has_link then
      echo [Lit "["; Val prompt_date; Lit "] is missing YouTube link"] ;;;
      ret false
    else
      prompt_link <- lift (py.getitem prompt_obj "PromptLink") ;;
      found <- lift (any_pattern youtube_patterns prompt_link) ;;
      if found then ret true
      else
        echo [Lit "["; Val prompt_date;
              Lit "] has PromptLink but it's not a YouTube link: '";
              Val prompt_link; Lit "'"] ;;;
        ret false.

(** [re.search(r'\"+\"+', s)]: two double quotes in a row. *)
Definition two_quotes : string :=
  String validate_games.dquote (String validate_games.dquote EmptyString).

Definition check_escaped_quotes (prompt_obj : json) : M console bool :=
  has_prompt <- lift (py.contains "Prompt" prompt_obj) ;;
  has_date <- (if negb has_prompt then ret false
               else lift (py.contains "Date" prompt_obj)) ;;
  if negb has_date then ret true
  else
    prompt_text <- lift (py.getitem prompt_obj "Prompt") ;;
    prompt_date <- lift (py.getitem prompt_obj "Date") ;;
    found <- lift (py.on_str (py.str_contains two_quotes) prompt_text) ;;
    if found then
      echo [Lit "["; Val prompt_date;
            Lit "] Prompt contains consecutive escaped double quotes"] ;;;
      ret false
    else ret true.

(** The loop over [data['prompts']].  The [try] block is the parse of
    the date, the [add] and the three checks; [except ValueError]
    goes on with the next prompt and keeps what [add] has done. *)
Fixpoint each_prompt (prompts : list json)
    (start_date end_date : datetime.date) (json_dates : gset string)
  : M console (gset string) :=
  match prompts with
  | [] => ret json_dates
  | prompt :: prompts' =>
      has <- lift (py.contains "Date" prompt) ;;
      if has then
        parsed <- try_except
                    (d <- lift (v <~ py.getitem prompt "Date" ;;
                                datetime.strptime v) ;;
                     ret (Some d))
                    ValueError (ret None) ;;
        match parsed with
        | None => each_prompt prompts' start_date end_date json_dates
        | Some prompt_date =>
            let json_dates' := {[datetime.strftime prompt_date]} ∪ json_dates in
            (if datetime.le prompt_date end_date
                && datetime.le start_date prompt_date then
               try_except
                 (check_prompt_format prompt ;;;
                  check_youtube_link prompt ;;;
                  check_escaped_quotes prompt ;;;
                  ret tt)
                 ValueError (ret tt)
             else ret tt) ;;;
            each_prompt prompts' start_date end_date json_dates'
        end
      else each_prompt prompts' start_date end_date json_dates
  end.

(** The body of [while current_date <= end_date], up to the increment:
    a date absent from [json_dates] is appended to [missing_dates]. *)
Definition note_missing (json_dates : gset string)
    (current_date : datetime.date) (missing_dates : list string)
  : M console (list string) :=
  let date_str := datetime.strftime current_date in
  if bool_decide (date_str ∈ json_dates) then ret missing_dates
  else ret (missing_dates ++ [date_str])%list.

(** [for date in missing_dates: print(f"  - {date}")] *)
Fixpoint list_dates (missing_dates : list string) : M console unit :=
  match missing_dates with
  | [] => ret tt
  | date :: rest => echo [Lit "  - "; Lit date] ;;; list_dates rest
  end.

Definition validate_json (fs : filesystem) (end_date_str : string)
  : M console bool :=
  end_date <- lift (datetime.strptime (JStr end_date_str)) ;;
  start_date <- lift (datetime.strptime (JStr "2025-03-03")) ;;
  match fs "prompts.json" with
  | NoSuchFile =>
      echo [Lit "Error: File prompts.json not found."] ;;; ret false
  | NotJson =>
      echo [Lit "Error: prompts.json is not a valid JSON file."] ;;; ret false
  | Unreadable => raise OSError
  | NotText => raise UnicodeDecodeError
  | Json data =>
      has <- lift (py.contains "prompts" data) ;;
      prompts <- (if negb has then ret JNull
                  else lift (py.getitem data "prompts")) ;;
      match prompts with
      | JArr items =>
          json_dates <- each_prompt items start_date end_date ∅ ;;
          missing_dates <- datetime.each_day
                             (datetime.days_between start_date end_date)
                             (note_missing json_dates)
                             start_date end_date [] ;;
          match missing_dates with
          | [] =>
              echo [Lit "Success: All required dates are present in the prompts array."] ;;;
              ret true
          | _ =>
              echo [Lit "Error: Missing prompts for the following dates:"] ;;;
              list_dates missing_dates ;;;
              ret false
          end
      | _ =>
          echo [Lit "Error: JSON file does not contain a 'prompts' array."] ;;;
          ret false
      end
  end.

Definition main (fs : filesystem) (argv : list string) : M console unit :=
  args <- lift (parse_args argv) ;;
  validate_json fs (arg_endDate args) ;;;
  ret tt.

(** The date that ["2025-03-03"] parses to. *)
Definition first_date : datetime.date := datetime.Date 2025 3 3.

(** The date a prompt is for: its Date member, when that is a string
    that parses. *)
Definition prompt_day (prompt : json) : option datetime.date :=
  match prompt with
  | JObj members =>
      match py.dict_get "Date" members with
      | Some (JStr s) => datetime.parse_date s
      | _ => None
      end
  | _ => None
  end.

(** The shape of document that the code is written for: the prompts
    member, when it is a list, holds objects whose Date, Prompt and
    PromptLink members are strings. *)
Definition shaped_prompt (prompt : json) : bool :=
  match prompt with
  | JObj members =>
      forallb (validate_games.str_or_absent members)
        ["Date"; "Prompt"; "PromptLink"]
  | _ => false
  end.

Definition shaped (data : json) : bool :=
  match data with
  | JObj members =>
      match py.dict_get "prompts" members with
      | Some (JArr items) => forallb shaped_prompt items
      | _ => true
      end
  | _ => false
  end.

(** The dates of a list that [json_dates] does not hold. *)
Definition missing_from (json_dates : gset string) (dates : list datetime.date)
  : list string :=
  List.filter (fun s => negb (bool_decide (s ∈ json_dates)))
    (map datetime.strftime dates).

End validate_prompts.

(** ** Sample files *)

Module samples.

(** A directory that holds prompts.json only. *)
Definition only (f : file) : filesystem :=
  fun name => if String.eqb name "prompts.json" then f else NoSuchFile.

Definition lingo (solution : string) : json :=
  JObj [("type", JStr "lingo"); ("config", JObj [("solution", JStr solution)])].

Definition scryptogram (target hint cipher : string) : json :=
  JObj [("type", JStr "scryptogram");
        ("config", JObj [("target", JStr target); ("hint", JStr hint);
                         ("cipher", JStr cipher)])].

(** Good games for 5 and 6 March 2025. *)
Definition two_days : json :=
  JObj [("games", JObj [
    ("2025-03-05",
     JArr [lingo "apple";
           scryptogram "The quick brown fox jumps over the lazy dog"
             "Author: nobody" "BCDEFGHIJKLMNOPQRSTUVWXYZA"]);
    ("2025-03-06",
     JArr [lingo "grape";
           scryptogram "A journey of a thousand miles begins with one step"
             "Saying: old" "BCBCBCBCBCBCBCBCBCBCBCBCBC"])])].

(** The same with an entry for 4 March that is not a list of games. *)
Definition two_days_and_earlier : json :=
  JObj [("games", JObj [
    ("2025-03-04", JNull);
    ("2025-03-05",
     JArr [lingo "apple";
           scryptogram "The quick brown fox jumps over the lazy dog"
             "Author: nobody" "BCDEFGHIJKLMNOPQRSTUVWXYZA"]);
    ("2025-03-06",
     JArr [lingo "grape";
           scryptogram "A journey of a thousand miles begins with one step"
             "Saying: old" "BCBCBCBCBCBCBCBCBCBCBCBCBC"])])].

(** A first game without a type member, and games that are numbers. *)
Definition no_type : json :=
  JObj [("games", JObj [
    ("2025-03-05", JArr [JObj [("config", JObj [("solution", JStr "apple")])];
                         JNull])])].

Definition number_games : json :=
  JObj [("games", JObj [("2025-03-05", JArr [JNumber "1"; JNumber "2"])])].

Definition prompt (date link : string) : json :=
  JObj [("Date", JStr date); ("Prompt", JStr "Tell a story");
        ("PromptLink", JStr link); ("Lesson", JStr "Lesson 1");
        ("WeekDay", JStr "Monday"); ("WeekNum", JNumber "10");
        ("WeekLabel", JStr "Week 10"); ("Month", JStr "March");
        ("Link", JStr "https://example.org/lesson")].

Definition good_prompts : json :=
  JObj [("prompts", JArr [prompt "2025-03-03" "https://www.youtube.com/watch?v=1";
                          prompt "2025-03-04" "https://youtu.be/2"])].

(** A prompt in the forbidden format without a link, and one whose
    text has two double quotes in a row. *)
Definition forbidden_prompt : json :=
  JObj [("Date", JStr "2025-03-03"); ("Prompt", JStr "Prompt for 2025-03-03")].

Definition quoted_prompt : json :=
  JObj [("Date", JStr "2025-03-04");
        ("Prompt", JStr ("Say " ++ validate_prompts.two_quotes ++ "hello"));
        ("PromptLink", JStr "https://example.org/video")].

Definition bad_prompts : json :=
  JObj [("prompts", JArr [forbidden_prompt; quoted_prompt])].

(** A prompt that is a number. *)
Definition number_prompts : json := JObj [("prompts", JArr [JNumber "7"])].

End samples.

(** ** What the checks look for in a text *)

Module patterns.

(** [needle] occurs somewhere in [hay]. *)
Definition occurs (needle hay : string) : Prop :=
  exists before after, hay = before ++ needle ++ after.

(** Some [n] characters in a row of [cs] are all word characters. *)
Definition word_run (n : nat) (cs : list ascii) : Prop :=
  exists before run after,
    cs = (before ++ run ++ after)%list /\ length run = n
    /\ Forall (fun c => py.is_word_char c = true) run.

(** Every character of [s] is one of a-z and A-Z. *)
Definition letters (s : string) : Prop :=
  Forall (fun c => py.is_ascii_letter c = true) (list_ascii_of_string s).

Definition newline : string := String "010"%char EmptyString.

(** A printed line that begins with the word Error. *)
Definition error_line (line : text) : bool :=
  match line with
  | Lit s :: _ => String.prefix "Error" s
  | _ => false
  end.

End patterns.

(** ** Kinds of JSON value *)

(** None, a boolean or a number: a value that has no length. *)
Definition scalar (v : json) : bool :=
  match v with
  | JNull | JBool _ | JNumber _ => true
  | _ => false
  end.

(** A list or a dict. *)
Definition collection (v : json) : bool :=
  match v with
  | JArr _ | JObj _ => true
  | _ => false
  end.

(** ** What a step of the games loop prints *)

(** The lines that a step printed, with the flag before and after it:
    every line reports an error, and the flag is as it was when nothing
    was printed and cleared otherwise. *)
Definition reported (before after : bool) (lines : list text) : Prop :=
  Forall (fun line => patterns.error_line line = true) lines
  /\ ((lines = [] /\ after = before) \/ (lines <> [] /\ after = false)).

(** Two entries of the games object with the same first two games: the
    same entry, or two lists that differ after their second item. *)
Definition same_first_two (entry entry' : option json) : Prop :=
  entry = entry'
  \/ exists g0 g1 rest rest',
       entry = Some (JArr (g0 :: g1 :: rest))
       /\ entry' = Some (JArr (g0 :: g1 :: rest')).

#[global] Instance date_eq_dec : EqDecision datetime.date.
Proof. solve_decision. Defined.

(** ** validate_prompts.py: reference notions *)

Module prompts_ref.

(** The seven members that [check_prompt_format] asks for besides the
    prompt itself, each with the end of its complaint. *)
Definition asked_members : list (string * string) :=
  [("Lesson", "] is missing a Lesson title");
   ("WeekDay", "] is missing a WeekDay");
   ("WeekNum", "] is missing a WeekNum");
   ("WeekLabel", "] is missing a WeekLabel");
   ("Month", "] is missing a Month");
   ("Link", "] is missing a Link");
   ("PromptLink", "] is missing a PromptLink")].

(** The first of them that a dict lacks. *)
Definition first_missing (members : list (string * json)) : option (string * string) :=
  List.find (fun asked => negb (bool_decide (is_Some (py.dict_get (fst asked) members))))
    asked_members.

(** The beginning of a YouTube address. *)
Definition youtube_address (scheme www host : string) : string :=
  scheme ++ "://" ++ www ++ host ++ "/".

(** A prompt whose date lies in the range. *)
Definition in_range (start_date end_date : datetime.date) (prompt : json) : bool :=
  match validate_prompts.prompt_day prompt with
  | Some d => datetime.le d end_date && datetime.le start_date d
  | None => false
  end.

(** Whether some prompt of the list is for the date. *)
Definition dated (items : list json) (d : datetime.date) : bool :=
  existsb (fun prompt => bool_decide (validate_prompts.prompt_day prompt = Some d))
    items.

(** The dates of the range that no prompt of the list is for, in the
    order of the calendar, as the validator writes them. *)
Definition missing_dates (items : list json) (end_date : datetime.date)
  : list string :=
  map datetime.strftime
    (List.filter (fun d => negb (dated items d))
       (datetime.days
          (datetime.days_between validate_prompts.first_date end_date)
          validate_prompts.first_date end_date)).

(** The lines that end a run of the prompts validator. *)
Definition verdict_lines (missing : list string) : list text :=
  match missing with
  | [] => [[Lit "Success: All required dates are present in the prompts array."]]
  | _ =>
      [Lit "Error: Missing prompts for the following dates:"]
      :: map (fun date => [Lit "  - "; Lit date]) missing
  end.

End prompts_ref.

(** A computation that adds at most [n] lines to what is printed and
    changes nothing of what was there. *)
Definition adds (n : nat) {A} (m : M console A) : Prop :=
  forall out r out', m out = (r, out') ->
    exists lines, out' = (out ++ lines)%list /\ length lines <= n.

(** ** More sample values *)

Module examples.

(** A prompt with a text and a date that lacks its week number. *)
Definition no_week_prompt : list (string * json) :=
  [("Date", JStr "2025-03-03"); ("Prompt", JStr "Tell a story");
   ("PromptLink", JStr "https://youtu.be/2"); ("Lesson", JStr "Lesson 1");
   ("WeekDay", JStr "Monday"); ("WeekLabel", JStr "Week 10");
   ("Month", JStr "March"); ("Link", JStr "https://example.org/lesson")].

(** A prompt without a date. *)
Definition undated_prompt : list (string * json) :=
  [("Prompt", JStr "Tell a story")].

(** The games of 5 March 2025 of the sample, alone and followed by a
    third game. *)
Definition one_day : json :=
  JObj [("games", JObj [
    ("2025-03-05",
     JArr [samples.lingo "apple";
           samples.scryptogram "The quick brown fox jumps over the lazy dog"
             "Author: nobody" "BCDEFGHIJKLMNOPQRSTUVWXYZA"])])].

Definition one_day_three_games : json :=
  JObj [("games", JObj [
    ("2025-03-05",
     JArr [samples.lingo "apple";
           samples.scryptogram "The quick brown fox jumps over the lazy dog"
             "Author: nobody" "BCDEFGHIJKLMNOPQRSTUVWXYZA";
           JNumber "3"])])].

(** Games for 5 and 6 March 2025 with the same lingo solution. *)
Definition repeated_games : list (string * json) :=
  [("2025-03-05",
    JArr [samples.lingo "apple";
          samples.scryptogram "The quick brown fox jumps over the lazy dog"
            "Author: nobody" "BCDEFGHIJKLMNOPQRSTUVWXYZA"]);
   ("2025-03-06",
    JArr [samples.lingo "apple";
          samples.scryptogram "A journey of a thousand miles begins with one step"
            "Saying: old" "BCBCBCBCBCBCBCBCBCBCBCBCBC"])].

(** The dates of the sample of good prompts in another order, one of
    them twice, one written without zeros, with a prompt without a date
    in between. *)
Definition other_prompts : list json :=
  [samples.prompt "2025-03-04" "https://youtu.be/2"; JObj undated_prompt;
   samples.prompt "2025-3-3" "https://www.youtube.com/watch?v=1";
   samples.prompt "2025-03-04" "https://youtu.be/2"].

End examples.

(** ** cryptogramKeys.py: the draws of one shuffle *)

Module draws.

(** The bounds of the 25 draws of a shuffle of 26 items, in the order
    in which they are made: below 26, below 25, and so on down to
    below 2. *)
Definition bounds (n : nat) : list nat := rev (seq 2 n).

(** A tape of draws that are all within their bounds. *)
Definition within (n : nat) (tape : list nat) : Prop :=
  Forall2 (fun draw bound => draw < bound) tape (bounds n).

End draws.

(** ** validate_games.py: a solution used on a date *)

(** The date has an entry of two games or more whose first game is a
    lingo game with the solution [s], which passes the check of its
    length and its letters. *)
Definition solution_on (games : list (string * json)) (date_str s : string) : Prop :=
  exists g0 g1 rest,
    py.dict_get date_str games = Some (JArr (g0 :: g1 :: rest))
    /\ validate_games.lingo_solution (JArr (g0 :: g1 :: rest)) = Some s.

(** * Properties *)

(** ** The monad *)

Lemma bind_Returned {S A B} (m : M S A) (k : A -> M S B) s a s' :
  m s = (Returned a, s') -> bind m k s = k a s'.
Proof. intros E. unfold bind. now rewrite E. Qed.

Lemma bind_Raised {S A B} (m : M S A) (k : A -> M S B) s e s' :
  m s = (Raised e, s') -> bind m k s = (Raised e, s').
Proof. intros E. unfold bind. now rewrite E. Qed.

Lemma bind_Diverged {S A B} (m : M S A) (k : A -> M S B) s s' :
  m s = (Diverged, s') -> bind m k s = (Diverged, s').
Proof. intros E. unfold bind. now rewrite E. Qed.

(** ** random.shuffle *)

Section Shuffle.
Context `{RandomSource R} {A : Type}.

Lemma swap_in_range (x : list A) i j :
  i < length x -> j < length x ->
  exists x', swap x i j = Returned x' /\ x' ≡ₚ x /\ length x' = length x.
Proof.
  intros Hi Hj.
  destruct (lookup_lt_is_Some_2 x i Hi) as [xi Ei].
  destruct (lookup_lt_is_Some_2 x j Hj) as [xj Ej].
  exists (<[j:=xi]> (<[i:=xj]> x)). unfold swap. rewrite Ei, Ej.
  split; [reflexivity|]. split.
  - now apply Permutation_insert_swap.
  - now rewrite !length_insert.
Qed.

Lemma shuffle_from_total i : forall (x : list A) (r : R),
  i < length x \/ i = 0 ->
  exists x' r', shuffle_from i x r = (Returned x', r')
                /\ x' ≡ₚ x /\ length x' = length x.
Proof.
  induction i as [|i IH]; intros x r Hi.
  - exists x, r. simpl. auto.
  - assert (Hlt : S i < length x) by lia.
    simpl. pose proof (randbelow_lt (S (S i)) r ltac:(lia)) as Hj.
    destruct (randbelow (S (S i)) r) as [j r1]. simpl in Hj.
    destruct (swap_in_range x (S i) j Hlt ltac:(lia)) as (x1 & E1 & P1 & L1).
    rewrite E1.
    destruct (IH x1 r1 ltac:(lia)) as (x2 & r2 & E2 & P2 & L2).
    exists x2, r2. rewrite E2. split; [reflexivity|]. split.
    + now rewrite P2.
    + congruence.
Qed.

Lemma shuffle_total (x : list A) (r : R) :
  exists x' r', shuffle x r = (Returned x', r')
                /\ x' ≡ₚ x /\ length x' = length x.
Proof.
  unfold shuffle. apply shuffle_from_total.
  destruct x; simpl; [right; reflexivity | left; lia].
Qed.
End Shuffle.

(** ** cryptogramKeys.py: the heap-level program against its reference *)

Module cryptogramKeys_facts.
Import cryptogramKeys.

Section Generator.
Context `{RandomSource R}.
Implicit Types (w : world R) (l : loc) (x y : list ascii).

Lemma fresh_loc_unused w : heap w !! fresh (dom (heap w)) = None.
Proof. apply not_elem_of_dom, is_fresh. Qed.

Lemma list_getitem_in_range w l x i c :
  heap w !! l = Some x -> x !! i = Some c ->
  list_getitem l i w = (Returned c, w).
Proof.
  intros Hl Hi. unfold list_getitem, bind, load. now rewrite Hl, Hi.
Qed.

Lemma scan_spec w shuffled letters x y range :
  heap w !! shuffled = Some x -> heap w !! letters = Some y ->
  Forall (fun i => i < length x /\ i < length y) range ->
  scan shuffled letters range w
  = (Returned (forallb (fun i => negb (agree_at x y i)) range), w).
Proof.
  intros Hx Hy. induction 1 as [|i range [Hix Hiy] _ IH]; [reflexivity|].
  destruct (lookup_lt_is_Some_2 x i Hix) as [a Ea].
  destruct (lookup_lt_is_Some_2 y i Hiy) as [b Eb].
  cbn [scan forallb].
  rewrite (bind_Returned _ _ _ _ _ (list_getitem_in_range w _ x i a Hx Ea)).
  rewrite (bind_Returned _ _ _ _ _ (list_getitem_in_range w _ y i b Hy Eb)).
  unfold agree_at at 1. rewrite Ea, Eb.
  destruct (Ascii.eqb a b); [reflexivity | apply IH].
Qed.

Lemma letters_value_length : length letters_value = 26.
Proof. reflexivity. Qed.

(** The heap-level loop computes [pure_trials] on the random state,
    leaves every object it was given as it was, and prints nothing. *)
Lemma trials_refines fuel : forall w letters,
  heap w !! letters = Some letters_value ->
  exists h', heap w ⊆ h'
    /\ trials fuel letters w
       = (fst (pure_trials fuel (rng w)),
          World (snd (pure_trials fuel (rng w))) h' (stdout w)).
Proof.
  induction fuel as [|fuel IH]; intros w letters Hl.
  - exists (heap w). split; [reflexivity|]. now destruct w.
  - set (l := fresh (dom (heap w))).
    assert (Hfresh : heap w !! l = None) by apply fresh_loc_unused.
    assert (Hne : l <> letters) by congruence.
    destruct (shuffle_total letters_value (rng w))
      as (x & r' & Es & Px & Lx).
    set (w1 := World (rng w) (<[l:=letters_value]> (heap w)) (stdout w)).
    set (w2 := World r' (<[l:=x]> (heap w)) (stdout w)).
    assert (E1 : list_copy letters w = (Returned l, w1)).
    { unfold list_copy, bind, load. now rewrite Hl. }
    assert (E2 : random_shuffle l w1 = (Returned tt, w2)).
    { unfold random_shuffle, w1, w2. cbn [heap rng stdout].
      rewrite lookup_insert_eq, Es. now rewrite insert_insert_eq. }
    assert (Hx2 : heap w2 !! l = Some x) by apply lookup_insert_eq.
    assert (Hl2 : heap w2 !! letters = Some letters_value).
    { unfold w2. cbn [heap]. now rewrite lookup_insert_ne. }
    assert (Hsub : heap w ⊆ heap w2).
    { unfold w2. cbn [heap]. now apply insert_subseteq. }
    assert (E3 : scan l letters (seq 0 26) w2
                 = (Returned (fixed_point_free x), w2)).
    { apply scan_spec; [exact Hx2 | exact Hl2 |].
      apply Forall_forall. intros i Hi. apply elem_of_seq in Hi.
      rewrite Lx, letters_value_length. lia. }
    assert (Estep : trials (S fuel) letters w
                    = if fixed_point_free x
                      then (Returned (string_of_list_ascii x), w2)
                      else trials fuel letters w2).
    { cbn [trials].
      rewrite (bind_Returned _ _ _ _ _ E1), (bind_Returned _ _ _ _ _ E2),
        (bind_Returned _ _ _ _ _ E3).
      destruct (fixed_point_free x); [|reflexivity].
      unfold join, bind, load. now rewrite Hx2. }
    rewrite Estep. cbn [pure_trials]. rewrite Es.
    destruct (fixed_point_free x).
    + exists (heap w2). split; [exact Hsub | reflexivity].
    + destruct (IH w2 letters Hl2) as (h' & Hh' & E).
      exists h'. split; [now transitivity (heap w2)|].
      exact E.
Qed.

Lemma generate_refines fuel w :
  exists h', heap w ⊆ h'
    /\ generate_cryptogram_key fuel w
       = (fst (pure_trials fuel (rng w)),
          World (snd (pure_trials fuel (rng w))) h' (stdout w)).
Proof.
  unfold generate_cryptogram_key, bind, alloc.
  set (l := fresh (dom (heap w))).
  set (w1 := World (rng w) (<[l:=letters_value]> (heap w)) (stdout w)).
  destruct (trials_refines fuel w1 l) as (h' & Hh' & E).
  { apply lookup_insert_eq. }
  exists h'. split; [|exact E].
  transitivity (heap w1); [|exact Hh'].
  apply insert_subseteq, fresh_loc_unused.
Qed.

End Generator.
End cryptogramKeys_facts.

(** ** cryptogramKeys.py: what a call returns *)

Module cryptogramKeys_props.
Import cryptogramKeys cryptogramKeys_facts.

Lemma letters_value_alphabet : letters_value = list_ascii_of_string alphabet.
Proof. reflexivity. Qed.

Lemma get_string_of_list_ascii (x : list ascii) i :
  String.get i (string_of_list_ascii x) = x !! i.
Proof.
  revert i. induction x as [|c x IH]; intros [|i]; simpl; auto.
Qed.

Lemma length_string_of_list_ascii (x : list ascii) :
  String.length (string_of_list_ascii x) = length x.
Proof. induction x; simpl; congruence. Qed.

Lemma fixed_point_free_spec (x : list ascii) :
  length x = 26 ->
  fixed_point_free x = true ->
  forall i, i < 26 -> x !! i <> letters_value !! i.
Proof.
  intros Lx Hf i Hi E. unfold fixed_point_free in Hf.
  rewrite forallb_forall in Hf.
  specialize (Hf i ltac:(apply in_seq; lia)).
  unfold agree_at in Hf. rewrite E in Hf.
  destruct (lookup_lt_is_Some_2 letters_value i ltac:(simpl; lia)) as [b Eb].
  rewrite Eb, Ascii.eqb_refl in Hf. discriminate.
Qed.

Lemma shuffled_alphabet_key (x : list ascii) :
  x ≡ₚ letters_value -> fixed_point_free x = true ->
  derangement_key (string_of_list_ascii x).
Proof.
  intros Px Hf. assert (Lx : length x = 26) by now rewrite Px.
  unfold derangement_key.
  rewrite length_string_of_list_ascii, list_ascii_of_string_of_list_ascii.
  split; [exact Lx|]. split; [|split].
  - intros c Hc. rewrite Px in Hc. revert c Hc. apply Forall_forall.
    unfold letters_value. apply Forall_forall. intros c Hc.
    apply list_elem_of_fmap in Hc as (n & -> & Hn).
    apply elem_of_seq in Hn.
    rewrite nat_ascii_embedding; lia.
  - rewrite Px. unfold letters_value.
    apply NoDup_fmap_2_strong; [|apply NoDup_seq].
    intros a b Ha Hb E. apply elem_of_seq in Ha, Hb.
    rewrite <- (nat_ascii_embedding a), <- (nat_ascii_embedding b) by lia.
    now rewrite E.
  - intros i Hi. rewrite get_string_of_list_ascii.
    replace (String.get i alphabet) with (letters_value !! i).
    + now apply fixed_point_free_spec.
    + rewrite letters_value_alphabet, <- get_string_of_list_ascii.
      now rewrite string_of_list_ascii_of_string.
Qed.

Section Reference.
Context `{RandomSource R}.
Implicit Types (r : R) (w : world R).

Lemma pure_trials_not_Raised fuel : forall r e r',
  pure_trials fuel r <> (Raised e, r').
Proof.
  induction fuel as [|fuel IH]; intros r e r'; [discriminate|].
  cbn [pure_trials].
  destruct (shuffle_total letters_value r) as (x & r1 & -> & _).
  destruct (fixed_point_free x); [discriminate | apply IH].
Qed.

(** A returned key is the first shuffle without a fixed point. *)
Lemma pure_trials_Returned fuel : forall r key r',
  pure_trials fuel r = (Returned key, r') ->
  exists n x, n < fuel
    /\ (forall m, m < n -> ~ yields_at m r)
    /\ shuffle letters_value (rng_after n r) = (Returned x, r')
    /\ x ≡ₚ letters_value
    /\ fixed_point_free x = true
    /\ key = string_of_list_ascii x.
Proof.
  induction fuel as [|fuel IH]; intros r key r'; [discriminate|].
  cbn [pure_trials].
  destruct (shuffle_total letters_value r) as (x & r1 & Es & Px & _).
  rewrite Es. destruct (fixed_point_free x) eqn:Hf.
  - intros [= <- <-]. exists 0, x. cbn [rng_after].
    repeat split; auto; [lia | intros m Hm; lia].
  - intros E. destruct (IH _ _ _ E) as (n & y & Hn & Hmin & Ey & Py & Fy & ->).
    exists (S n), y. cbn [rng_after]. rewrite Es. cbn [snd].
    repeat split; auto; [lia|].
    intros [|m] Hm (z & r2 & Ez & Fz).
    + cbn [rng_after] in Ez. congruence.
    + cbn [rng_after] in Ez. rewrite Es in Ez. cbn [snd] in Ez.
      apply (Hmin m ltac:(lia)). now exists z, r2.
Qed.

Lemma pure_trials_yields n : forall r fuel,
  yields_at n r -> n < fuel ->
  exists key r', pure_trials fuel r = (Returned key, r').
Proof.
  induction n as [|n IH]; intros r [|fuel] Hy Hlt; try lia;
    cbn [pure_trials];
    destruct (shuffle_total letters_value r) as (x & r1 & Es & _);
    rewrite Es; destruct (fixed_point_free x) eqn:Hf; eauto.
  - destruct Hy as (z & r2 & Ez & Fz). cbn [rng_after] in Ez. congruence.
  - apply IH; [|lia]. destruct Hy as (z & r2 & Ez & Fz).
    cbn [rng_after] in Ez. rewrite Es in Ez. now exists z, r2.
Qed.

Lemma pure_trials_mono fuel : forall r key r',
  pure_trials fuel r = (Returned key, r') ->
  forall fuel', fuel <= fuel' -> pure_trials fuel' r = (Returned key, r').
Proof.
  induction fuel as [|fuel IH]; intros r key r'; [discriminate|].
  intros E [|fuel'] Hle; [lia|]. cbn [pure_trials] in *.
  destruct (shuffle letters_value r) as [[x| |] r1]; try discriminate.
  destruct (fixed_point_free x); [exact E|].
  apply (IH _ _ _ E). lia.
Qed.

Lemma trials_mono fuel : forall w letters key w',
  trials fuel letters w = (Returned key, w') ->
  forall fuel', fuel <= fuel' ->
  trials fuel' letters w = (Returned key, w').
Proof.
  induction fuel as [|fuel IH]; intros w letters key w'; [discriminate|].
  intros E [|fuel'] Hle; [lia|]. cbn [trials] in *. unfold bind in *.
  destruct (list_copy letters w) as [[l| |] w1]; try discriminate.
  destruct (random_shuffle l w1) as [[[]| |] w2]; try discriminate.
  destruct (scan l letters (seq 0 26) w2) as [[[|]| |] w3];
    try discriminate; [exact E|].
  apply (IH _ _ _ _ E). lia.
Qed.

Lemma generate_mono fuel w key w' :
  generate_cryptogram_key fuel w = (Returned key, w') ->
  forall fuel', fuel <= fuel' ->
  generate_cryptogram_key fuel' w = (Returned key, w').
Proof.
  unfold generate_cryptogram_key, bind.
  destruct (alloc letters_value w) as [[l| |] w1]; try discriminate.
  apply trials_mono.
Qed.

End Reference.
End cryptogramKeys_props.

Module cryptogramKeys_calls.
Import cryptogramKeys cryptogramKeys_facts cryptogramKeys_props.

Section Calls.
Context `{RandomSource R}.
Implicit Types (r : R) (w : world R).

(** One call: nothing printed, no existing object touched, and the
    result is the reference computation on the random state. *)
Lemma generate_frame fuel w res w' :
  generate_cryptogram_key fuel w = (res, w') ->
  stdout w' = stdout w /\ heap w ⊆ heap w'
  /\ pure_trials fuel (rng w) = (res, rng w').
Proof.
  intros E. destruct (generate_refines fuel w) as (h' & Hh' & E').
  rewrite E' in E. injection E as <- <-. cbn [stdout heap rng].
  repeat split; auto. now destruct (pure_trials fuel (rng w)).
Qed.

Lemma generate_not_Raised fuel w e w' :
  generate_cryptogram_key fuel w <> (Raised e, w').
Proof.
  intros E. apply generate_frame in E as (_ & _ & E).
  now apply pure_trials_not_Raised in E.
Qed.

Lemma generate_Returned_key fuel w key w' :
  generate_cryptogram_key fuel w = (Returned key, w') ->
  derangement_key key.
Proof.
  intros E. apply generate_frame in E as (_ & _ & E).
  apply pure_trials_Returned in E as (n & x & _ & _ & _ & Px & Fx & ->).
  now apply shuffled_alphabet_key.
Qed.

Lemma generate_yields n w :
  yields_at n (rng w) ->
  exists key w', forall fuel, n < fuel ->
    generate_cryptogram_key fuel w = (Returned key, w').
Proof.
  intros Hy.
  destruct (pure_trials_yields n (rng w) (S n) Hy ltac:(lia))
    as (key & r' & Ep).
  destruct (generate_refines (S n) w) as (h' & _ & E).
  rewrite Ep in E. cbn [fst snd] in E.
  eexists key, _. intros fuel Hlt.
  apply (generate_mono _ _ _ _ E). lia.
Qed.

Lemma driver_loop_calls fuel n : forall w w',
  driver_loop fuel n w = (Returned tt, w') ->
  exists keys, calls fuel n w keys w' /\ length keys = n
    /\ stdout w' = (stdout w ++ keys)%list /\ Forall derangement_key keys.
Proof.
  induction n as [|n IH]; intros w w'.
  - intros [= <-]. exists []. rewrite app_nil_r.
    repeat split; auto. constructor.
  - cbn [driver_loop]. unfold bind at 1.
    destruct (generate_cryptogram_key fuel w) as [[key| |] w1] eqn:Eg;
      try discriminate.
    unfold bind. change (print key w1) with (Returned tt, snd (print key w1)).
    intros E. destruct (IH _ _ E) as (keys & Hc & Hl & Ho & Hk).
    exists (key :: keys).
    pose proof (generate_frame _ _ _ _ Eg) as (Hout & _ & _).
    split; [econstructor; eauto|]. split; [simpl; congruence|]. split.
    + rewrite Ho. cbn [print snd stdout]. rewrite Hout.
      now rewrite <- app_assoc.
    + constructor; [|exact Hk]. eapply generate_Returned_key; eauto.
Qed.

Lemma driver_loop_not_Raised fuel n : forall w e w',
  driver_loop fuel n w <> (Raised e, w').
Proof.
  induction n as [|n IH]; intros w e w'; [discriminate|].
  cbn [driver_loop]. unfold bind at 1.
  destruct (generate_cryptogram_key fuel w) as [[key|e1|] w1] eqn:Eg;
    try discriminate.
  - unfold bind. change (print key w1) with (Returned tt, snd (print key w1)).
    apply IH.
  - now apply generate_not_Raised in Eg.
Qed.

Lemma driver_loop_fair n : fair -> forall w,
  exists fuel0 w', forall fuel, fuel0 <= fuel ->
    driver_loop fuel n w = (Returned tt, w').
Proof.
  intros Hfair. induction n as [|n IH]; intros w.
  - exists 0, w. reflexivity.
  - destruct (Hfair (rng w)) as (k & Hy).
    destruct (generate_yields k w Hy) as (key & w1 & Eg).
    destruct (IH (snd (print key w1))) as (fuel1 & w2 & El).
    exists (Nat.max (S k) fuel1), w2. intros fuel Hle.
    cbn [driver_loop]. unfold bind at 1. rewrite Eg by lia.
    unfold bind. change (print key w1) with (Returned tt, snd (print key w1)).
    apply El. lia.
Qed.

End Calls.
End cryptogramKeys_calls.

(** ** cryptogramKeys.py: the generator's contract *)

Module cryptogramKeys_contract.
Import cryptogramKeys cryptogramKeys_facts cryptogramKeys_props
       cryptogramKeys_calls.

(** C1: every string returned by [generate_cryptogram_key] has length
    26, consists only of the uppercase letters A-Z with no repeated
    character, and at every index i from 0 to 25 its character differs
    from the i-th letter of the alphabet. *)
Theorem generate_cryptogram_key_derangement
    `{RandomSource R} (fuel : nat) (w w' : world R) (key : string) :
  generate_cryptogram_key fuel w = (Returned key, w') ->
  String.length key = 26
  /\ (forall c, c ∈ list_ascii_of_string key -> 65 <= nat_of_ascii c <= 90)
  /\ NoDup (list_ascii_of_string key)
  /\ forall i, i < 26 ->
       String.get i key <> String.get i "ABCDEFGHIJKLMNOPQRSTUVWXYZ".
Proof.
  intros E.
  (* the heap-level call computes the reference loop on the random state *)
  destruct (generate_refines fuel w) as (h' & _ & E').
  rewrite E' in E. injection E as Ekey _.
  destruct (pure_trials fuel (rng w)) as [res r'] eqn:Ep.
  cbn [fst] in Ekey. subst res.
  (* which returns a shuffle of the alphabet that passed the scan *)
  apply pure_trials_Returned in Ep as (n & x & _ & _ & _ & Px & Fx & ->).
  assert (Lx : length x = 26) by now rewrite Px.
  rewrite length_string_of_list_ascii, list_ascii_of_string_of_list_ascii.
  split; [exact Lx|]. split; [|split].
  - intros c Hc. rewrite Px in Hc.
    apply list_elem_of_fmap in Hc as (k & -> & Hk).
    apply elem_of_seq in Hk. rewrite nat_ascii_embedding; lia.
  - rewrite Px. apply NoDup_fmap_2_strong; [|apply NoDup_seq].
    intros a b Ha Hb Eab. apply elem_of_seq in Ha, Hb.
    rewrite <- (nat_ascii_embedding a), <- (nat_ascii_embedding b) by lia.
    now rewrite Eab.
  - intros i Hi. rewrite get_string_of_list_ascii.
    change (String.get i "ABCDEFGHIJKLMNOPQRSTUVWXYZ")
      with (String.get i (string_of_list_ascii letters_value)).
    rewrite get_string_of_list_ascii.
    now apply fixed_point_free_spec.
Qed.

(** The tape makes the first shuffle the identity, which is rejected;
    the second trial returns the alphabet rotated by one place. *)
Lemma generate_cryptogram_key_derangement_witness :
  derangement_key "BCDEFGHIJKLMNOPQRSTUVWXYZA".
Proof.
  pose (w := World (R:=list nat)
               [25;24;23;22;21;20;19;18;17;16;15;14;13;12;11;10;9;8;7;6;5;4;3;2;1]
               ∅ []).
  apply (@generate_cryptogram_key_derangement _ tape_source 2 w
           (snd (@generate_cryptogram_key _ tape_source 2 w))).
  vm_compute. reflexivity.
Defined.

(** C2: the generator never raises, and whenever the random source
    eventually yields a shuffle without a fixed point the loop returns;
    a rejected shuffle only causes another trial, so the value returned
    is the first shuffle without a fixed point. *)
Theorem generate_cryptogram_key_returns `{RandomSource R} (w : world R) :
  (forall fuel e w', generate_cryptogram_key fuel w <> (Raised e, w'))
  /\ (forall n, yields_at n (rng w) ->
        exists key w', forall fuel, n < fuel ->
          generate_cryptogram_key fuel w = (Returned key, w'))
  /\ (forall fuel key w',
        generate_cryptogram_key fuel w = (Returned key, w') ->
        exists n x,
          (forall m, m < n -> ~ yields_at m (rng w))
          /\ shuffle letters_value (rng_after n (rng w)) = (Returned x, rng w')
          /\ fixed_point_free x = true
          /\ key = string_of_list_ascii x).
Proof.
  split; [|split].
  - intros fuel e w'. apply generate_not_Raised.
  - intros n. apply generate_yields.
  - intros fuel key w' E. apply generate_frame in E as (_ & _ & E).
    apply pure_trials_Returned in E as (n & x & _ & Hmin & Es & _ & Fx & ->).
    now exists n, x.
Qed.

(** On the tape above the second shuffle (index 1) is the first one
    accepted: every budget of at least two trials returns its key. *)
Lemma generate_cryptogram_key_returns_witness :
  exists key w', forall fuel, 1 < fuel ->
    @generate_cryptogram_key _ tape_source fuel
      (World [25;24;23;22;21;20;19;18;17;16;15;14;13;12;11;10;9;8;7;6;5;4;3;2;1]
         ∅ [])
    = (Returned key, w').
Proof.
  apply (proj1 (proj2 (@generate_cryptogram_key_returns _ tape_source _)) 1).
  eexists _, _. split; vm_compute; reflexivity.
Defined.

(** C6: a call changes nothing that a later call can observe except the
    random state: nothing is printed, every list object that existed
    before the call is unchanged, and the outcome and the new random
    state are the same from any two worlds with the same random state. *)
Theorem generate_cryptogram_key_frame
    `{RandomSource R} (fuel : nat) (w w' : world R) (res : outcome string) :
  generate_cryptogram_key fuel w = (res, w') ->
  stdout w' = stdout w
  /\ (forall l x, heap w !! l = Some x -> heap w' !! l = Some x)
  /\ forall v : world R, rng v = rng w ->
       exists v', generate_cryptogram_key fuel v = (res, v')
                  /\ rng v' = rng w'.
Proof.
  intros E. apply generate_frame in E as (Hout & Hheap & Ep).
  split; [exact Hout|]. split.
  - intros l x Hl. eapply lookup_weaken; eauto.
  - intros v Hv. destruct (generate_refines fuel v) as (h' & _ & Ev).
    rewrite Hv, Ep in Ev. eexists. split; [exact Ev | reflexivity].
Qed.

(** A call made in a world that already holds a list object and some
    output leaves both as they were. *)
Lemma generate_cryptogram_key_frame_witness :
  let w := World (R:=list nat) [3;1;4;1;5;9;2;6] {[ 7 := ["x"%char] ]} ["earlier"] in
  let w' := snd (@generate_cryptogram_key _ tape_source 4 w) in
  stdout w' = ["earlier"]
  /\ (forall l x, heap w !! l = Some x -> heap w' !! l = Some x)
  /\ forall v : world (list nat), rng v = [3;1;4;1;5;9;2;6] ->
       exists v', @generate_cryptogram_key _ tape_source 4 v
                  = (fst (@generate_cryptogram_key _ tape_source 4 w), v')
                  /\ rng v' = rng w'.
Proof.
  intros w w'.
  apply (@generate_cryptogram_key_frame _ tape_source 4 w w'
           (fst (@generate_cryptogram_key _ tape_source 4 w))).
  subst w'. now destruct (@generate_cryptogram_key _ tape_source 4 w).
Defined.

(** C5: the driver takes no input, calls the generator 20 times and
    prints the 20 returned keys, one line each, in call order, repeated
    keys included; it never raises, and with a fair random source it
    returns. *)
Theorem driver_prints_twenty_keys `{RandomSource R} (w : world R) :
  (forall fuel w', driver fuel w = (Returned tt, w') ->
     exists keys, calls fuel 20 w keys w'
       /\ length keys = 20
       /\ stdout w' = (stdout w ++ keys)%list
       /\ Forall derangement_key keys)
  /\ (forall fuel e w', driver fuel w <> (Raised e, w'))
  /\ (fair -> exists fuel0 w', forall fuel, fuel0 <= fuel ->
        driver fuel w = (Returned tt, w')).
Proof.
  split; [|split].
  - intros fuel w'. apply driver_loop_calls.
  - intros fuel e w'. apply driver_loop_not_Raised.
  - intros Hfair. now apply driver_loop_fair.
Qed.

(** With the source that always draws 0 every call returns the same
    key, and the driver prints it 20 times. *)
Lemma driver_prints_twenty_keys_witness :
  let w := World (R:=unit) tt ∅ [] in
  @fair _ zero_source
  /\ stdout (snd (@driver _ zero_source 1 w))
     = repeat "BCDEFGHIJKLMNOPQRSTUVWXYZA" 20
  /\ exists keys, calls (H:=zero_source) 1 20 w keys (snd (@driver _ zero_source 1 w))
       /\ length keys = 20
       /\ stdout (snd (@driver _ zero_source 1 w)) = (stdout w ++ keys)%list
       /\ Forall derangement_key keys.
Proof.
  intros w. split; [|split].
  - intros []. exists 0. eexists _, _. split; vm_compute; reflexivity.
  - vm_compute. reflexivity.
  - apply (proj1 (@driver_prints_twenty_keys _ zero_source w) 1).
    vm_compute. reflexivity.
Defined.

End cryptogramKeys_contract.

(** ** validate_games.py: the cipher check *)

Module cipher_facts.
Import validate_games.

Lemma getindex_str s i c :
  String.get i s = Some c ->
  py.getindex (JStr s) i = Returned (JStr (String c EmptyString)).
Proof. intros E. simpl. now rewrite E. Qed.

Lemma get_in_range s i : i < String.length s -> exists c, String.get i s = Some c.
Proof.
  revert i. induction s as [|a s IH]; intros i Hi; simpl in *; [lia|].
  destruct i as [|i]; [eauto|]. apply IH. lia.
Qed.

Lemma eq_str_char (a b : ascii) :
  py.eq_str (JStr (String a EmptyString)) (String b EmptyString) = Ascii.eqb a b.
Proof.
  simpl. destruct (Ascii.eqb a b); reflexivity.
Qed.

(** The scan of a 26-character string answers [True] exactly when no
    index of the range holds the alphabet's letter; it never raises. *)
Lemma original_position_str s range :
  String.length s = 26 -> Forall (fun i => i < 26) range ->
  (original_position (JStr s) range = Returned (true, None)
   /\ forall i, i ∈ range -> String.get i s <> String.get i alphabet)
  \/ (exists msg, original_position (JStr s) range = Returned (false, Some msg))
     /\ exists i, i ∈ range /\ String.get i s = String.get i alphabet.
Proof.
  intros Ls. induction 1 as [|i range Hi _ IH].
  - left. split; [reflexivity|]. intros i Hi. inversion Hi.
  - destruct (get_in_range s i ltac:(lia)) as [c Ec].
    destruct (get_in_range alphabet i ltac:(simpl; lia)) as [a Ea].
    cbn [original_position]. rewrite (getindex_str _ _ _ Ec).
    unfold py.str_index. rewrite Ea. cbn [obind]. rewrite eq_str_char.
    destruct (Ascii.eqb_spec c a) as [->|Hne].
    + right. split; [eauto|]. exists i. split; [left|congruence].
    + destruct IH as [[E Hall]|[E (j & Hj & Ej)]].
      * left. split; [exact E|]. intros j Hj.
        apply elem_of_cons in Hj as [->|Hj]; [congruence | now apply Hall].
      * right. split; [exact E|]. exists j. split; [now right | exact Ej].
Qed.

Lemma cipher_accepted_iff s :
  is_valid_scryptogram_cipher (JStr s) = Returned (true, None)
  <-> String.length s = 26
      /\ py.str_isupper s = true
      /\ forall i, i < 26 -> String.get i s <> String.get i alphabet.
Proof.
  unfold is_valid_scryptogram_cipher. cbn [py.len py.isupper obind].
  destruct (Nat.eqb_spec (String.length s) 26) as [Ls|Ls]; cbn [negb].
  2:{ split; [discriminate | intros (? & _); contradiction]. }
  destruct (py.str_isupper s); cbn [negb].
  2:{ split; [discriminate | intros (_ & ? & _); discriminate]. }
  assert (Hr : Forall (fun i => i < 26) (seq 0 26)).
  { apply Forall_forall. intros i Hi. apply elem_of_seq in Hi. lia. }
  destruct (original_position_str s (seq 0 26) Ls Hr)
    as [[E Hall]|[[msg E] (j & Hj & Ej)]]; rewrite E.
  - split; [|reflexivity]. intros _. repeat split; auto.
    intros i Hi. apply Hall, elem_of_seq. lia.
  - split; [discriminate|]. intros (_ & _ & Hall).
    apply elem_of_seq in Hj. exfalso. apply (Hall j); [lia | exact Ej].
Qed.

(** A string validated as a cipher never makes the check raise. *)
Lemma cipher_str_returns s :
  exists r, is_valid_scryptogram_cipher (JStr s) = Returned r.
Proof.
  unfold is_valid_scryptogram_cipher. cbn [py.len py.isupper obind].
  destruct (Nat.eqb_spec (String.length s) 26) as [Ls|Ls]; cbn [negb]; [|eauto].
  destruct (py.str_isupper s); cbn [negb]; [|eauto].
  assert (Hr : Forall (fun i => i < 26) (seq 0 26)).
  { apply Forall_forall. intros i Hi. apply elem_of_seq in Hi. lia. }
  destruct (original_position_str s (seq 0 26) Ls Hr)
    as [[E _]|[[msg E] _]]; rewrite E; eauto.
Qed.

Lemma upper_letter_classes c :
  65 <= nat_of_ascii c <= 90 ->
  py.char_isupper c = true /\ py.char_islower c = false.
Proof.
  intros Hc. unfold py.char_isupper, py.char_islower, py.between.
  split.
  - apply orb_true_iff. left. apply orb_true_iff. left.
    apply andb_true_iff. split; apply Nat.leb_le; lia.
  - repeat (apply orb_false_iff; split);
      apply andb_false_iff;
      first [ left; apply Nat.leb_gt; lia | right; apply Nat.leb_gt; lia ].
Qed.

Lemma derangement_key_isupper key :
  cryptogramKeys.derangement_key key -> py.str_isupper key = true.
Proof.
  intros (Lk & Hup & _ & _). unfold py.str_isupper.
  apply andb_true_iff. split.
  - apply forallb_forall. intros c Hc. apply list_elem_of_In in Hc.
    now rewrite (proj2 (upper_letter_classes c (Hup c Hc))).
  - destruct key as [|c key]; [discriminate|]. cbn [list_ascii_of_string existsb].
    rewrite (proj1 (upper_letter_classes c (Hup c ltac:(left)))). reflexivity.
Qed.

End cipher_facts.

Module cipher_contract.
Import validate_games cipher_facts.

(** C8: every string that [generate_cryptogram_key] returns is accepted
    by [is_valid_scryptogram_cipher], which answers (True, None). *)
Theorem generated_key_is_valid_cipher
    `{RandomSource R} (fuel : nat) (w w' : cryptogramKeys.world R) (key : string) :
  cryptogramKeys.generate_cryptogram_key fuel w = (Returned key, w') ->
  is_valid_scryptogram_cipher (JStr key) = Returned (true, None).
Proof.
  intros E. apply cryptogramKeys_calls.generate_Returned_key in E.
  apply cipher_accepted_iff.
  pose proof (derangement_key_isupper key E) as Hup.
  destruct E as (Lk & _ & _ & Hfix). auto.
Qed.

Lemma generated_key_is_valid_cipher_witness :
  is_valid_scryptogram_cipher (JStr "POWSLMXAKTQNHUIRZVGCJFYEBD")
  = Returned (true, None).
Proof.
  pose (w := cryptogramKeys.World (R:=list nat)
               [3;1;4;1;5;9;2;6;5;3;5;8;9;7;9;3;2;3;8;4;6;2;6;4;3] ∅ []).
  apply (@generated_key_is_valid_cipher _ cryptogramKeys.tape_source 1 w
           (snd (@cryptogramKeys.generate_cryptogram_key _
                   cryptogramKeys.tape_source 1 w))).
  vm_compute. reflexivity.
Defined.

(** C9: the cipher check accepts exactly the strings of 26 characters
    that are all uppercase (in the sense of [str.isupper]) and have no
    character at its own place in the alphabet; it does not ask for a
    permutation: BC repeated 13 times is accepted although it repeats
    characters and is no rearrangement of the alphabet. *)
Theorem cipher_need_not_be_permutation :
  (forall s : string,
     is_valid_scryptogram_cipher (JStr s) = Returned (true, None)
     <-> String.length s = 26
         /\ py.str_isupper s = true
         /\ forall i, i < 26 -> String.get i s <> String.get i alphabet)
  /\ is_valid_scryptogram_cipher (JStr "BCBCBCBCBCBCBCBCBCBCBCBCBC")
     = Returned (true, None)
  /\ ~ NoDup (list_ascii_of_string "BCBCBCBCBCBCBCBCBCBCBCBCBC")
  /\ ~ list_ascii_of_string "BCBCBCBCBCBCBCBCBCBCBCBCBC"
       ≡ₚ list_ascii_of_string alphabet.
Proof.
  split; [exact cipher_accepted_iff|]. split; [reflexivity|]. split.
  - intros Hn. simpl in Hn. apply NoDup_cons in Hn as [_ Hn].
    apply NoDup_cons in Hn as [_ Hn]. apply NoDup_cons in Hn as [Hn _].
    apply Hn. right. left.
  - intros Hp.
    assert (Hin : "A"%char ∈ list_ascii_of_string "BCBCBCBCBCBCBCBCBCBCBCBCBC").
    { rewrite Hp. left. }
    simpl in Hin. repeat (apply elem_of_cons in Hin as [Hin|Hin]; [discriminate|]).
    inversion Hin.
Qed.

(** The forward direction at BC repeated 13 times. *)
Lemma cipher_need_not_be_permutation_witness :
  String.length "BCBCBCBCBCBCBCBCBCBCBCBCBC" = 26
  /\ py.str_isupper "BCBCBCBCBCBCBCBCBCBCBCBCBC" = true
  /\ forall i, i < 26 ->
       String.get i "BCBCBCBCBCBCBCBCBCBCBCBCBC" <> String.get i alphabet.
Proof.
  apply (proj1 (proj1 cipher_need_not_be_permutation
                  "BCBCBCBCBCBCBCBCBCBCBCBCBC")).
  vm_compute. reflexivity.
Defined.

End cipher_contract.

(** ** The command line of the validators *)

Module cli_facts.

Lemma parse_args_two file e :
  plain file = true -> plain e = true ->
  parse_args [file; e] = Returned (Namespace file e).
Proof. intros Hf He. unfold parse_args. now rewrite Hf, He. Qed.

Lemma parse_args_Returned argv args :
  parse_args argv = Returned args ->
  argv = [arg_file args; arg_endDate args].
Proof.
  destruct argv as [|f [|e [|x argv]]]; try discriminate.
  unfold parse_args. destruct (plain f && plain e); [|discriminate].
  now intros [= <-].
Qed.

Lemma games_main_two fs file e out :
  plain file = true -> plain e = true ->
  validate_games.main fs [file; e] out
  = discard (validate_games.validate_json fs e out).
Proof.
  intros Hf He. unfold validate_games.main, bind at 1, lift.
  rewrite (parse_args_two _ _ Hf He). cbn [arg_endDate].
  unfold bind, discard, ret.
  now destruct (validate_games.validate_json fs e out) as [[b| |] out'].
Qed.

Lemma prompts_main_two fs file e out :
  plain file = true -> plain e = true ->
  validate_prompts.main fs [file; e] out
  = discard (validate_prompts.validate_json fs e out).
Proof.
  intros Hf He. unfold validate_prompts.main, bind at 1, lift.
  rewrite (parse_args_two _ _ Hf He). cbn [arg_endDate].
  unfold bind, discard, ret.
  now destruct (validate_prompts.validate_json fs e out) as [[b| |] out'].
Qed.

(** Only the file named prompts.json is read. *)
Lemma games_reads_prompts_json fs fs' e :
  fs "prompts.json" = fs' "prompts.json" ->
  validate_games.validate_json fs e = validate_games.validate_json fs' e.
Proof. intros E. unfold validate_games.validate_json. now rewrite E. Qed.

Lemma prompts_reads_prompts_json fs fs' e :
  fs "prompts.json" = fs' "prompts.json" ->
  validate_prompts.validate_json fs e = validate_prompts.validate_json fs' e.
Proof. intros E. unfold validate_prompts.validate_json. now rewrite E. Qed.

End cli_facts.

(** ** datetime: the calendar *)

Module datetime_facts.
Import datetime.
#[local] Open Scope Z_scope.

Lemma valid_spec d :
  valid d = true <->
  1 <= year d <= 9999 /\ 1 <= month d <= 12
  /\ 1 <= day d <= days_in_month (year d) (month d).
Proof.
  unfold valid. rewrite !andb_true_iff, !Z.leb_le. tauto.
Qed.

Lemma month_cases m :
  1 <= m <= 12 ->
  m = 1 \/ m = 2 \/ m = 3 \/ m = 4 \/ m = 5 \/ m = 6
  \/ m = 7 \/ m = 8 \/ m = 9 \/ m = 10 \/ m = 11 \/ m = 12.
Proof. lia. Qed.

Ltac by_month H :=
  let E := fresh "E" in
  destruct (month_cases _ H) as [E|[E|[E|[E|[E|[E|[E|[E|[E|[E|[E|E]]]]]]]]]]];
  rewrite E in *.

Lemma days_in_month_bounds y m :
  1 <= m <= 12 -> 28 <= days_in_month y m <= 31.
Proof.
  intros Hm. by_month Hm; cbn [days_in_month]; try lia.
  destruct (is_leap y); lia.
Qed.

Lemma le_spec a b :
  le a b = true <->
  year a < year b
  \/ (year a = year b
      /\ (month a < month b \/ (month a = month b /\ day a <= day b))).
Proof.
  unfold le.
  rewrite !orb_true_iff, !andb_true_iff, !orb_true_iff, !andb_true_iff,
    !Z.ltb_lt, !Z.eqb_eq, Z.leb_le. tauto.
Qed.

Lemma le_refl a : le a a = true.
Proof. apply le_spec. lia. Qed.

Lemma le_antisym a b : le a b = true -> le b a = true -> a = b.
Proof.
  rewrite !le_spec. destruct a as [ya ma da], b as [yb mb db]. cbn.
  intros H1 H2. f_equal; lia.
Qed.

Lemma le_trans a b c : le a b = true -> le b c = true -> le a c = true.
Proof. rewrite !le_spec. lia. Qed.


Lemma add_one_day_spec d :
  valid d = true ->
  (d = Date 9999 12 31 /\ add_one_day d = Raised OverflowError)
  \/ exists d', add_one_day d = Returned d' /\ valid d' = true
       /\ le d d' = true /\ d' <> d
       /\ forall x, valid x = true -> le d x = true -> x <> d -> le d' x = true.
Proof.
  intros Hv. apply valid_spec in Hv as (Hy & Hm & Hd).
  destruct d as [y m dd]. cbn [year month day] in *.
  unfold add_one_day. cbn [year month day].
  pose proof (days_in_month_bounds y m Hm) as Hb.
  destruct (Z.ltb_spec dd (days_in_month y m)) as [Hlt|Hge].
  { right. eexists. split; [reflexivity|]. split; [|split; [|split]].
    - apply valid_spec. cbn. lia.
    - apply le_spec. cbn. lia.
    - intros [=]. lia.
    - intros x Hx Hle Hne. apply le_spec in Hle. apply le_spec. cbn in *.
      destruct x as [yx mx dx]. cbn in *.
      assert (dx <> dd \/ mx <> m \/ yx <> y)
        by (destruct (Z.eq_dec dx dd), (Z.eq_dec mx m), (Z.eq_dec yx y);
            subst; try tauto; lia).
      lia. }
  destruct (Z.ltb_spec m 12) as [Hm12|Hm12].
  { right. eexists. split; [reflexivity|]. split; [|split; [|split]].
    - apply valid_spec. cbn.
      pose proof (days_in_month_bounds y (m + 1) ltac:(lia)). lia.
    - apply le_spec. cbn. lia.
    - intros [=]. lia.
    - intros x Hx Hle Hne. apply le_spec in Hle. apply le_spec.
      apply valid_spec in Hx as (Hyx & Hmx & Hdx).
      destruct x as [yx mx dx]. cbn in *.
      destruct (Z.eq_dec yx y) as [->|]; [|lia].
      destruct (Z.eq_dec mx m) as [->|]; [|lia].
      assert (dx <> dd) by congruence. lia. }
  destruct (Z.ltb_spec y 9999) as [Hy9|Hy9].
  { right. eexists. split; [reflexivity|]. split; [|split; [|split]].
    - apply valid_spec. cbn. lia.
    - apply le_spec. cbn. lia.
    - intros [=]. lia.
    - intros x Hx Hle Hne. apply le_spec in Hle. apply le_spec.
      apply valid_spec in Hx as (Hyx & Hmx & Hdx).
      destruct x as [yx mx dx]. cbn in *.
      destruct (Z.eq_dec yx y) as [->|]; [|lia].
      assert (m = 12) by lia. subst m.
      destruct (Z.eq_dec mx 12) as [->|]; [|lia].
      assert (dx <> dd) by congruence. lia. }
  left. assert (y = 9999) by lia. assert (m = 12) by lia. subst.
  cbn [days_in_month] in *. split; [f_equal; lia | reflexivity].
Qed.

(** The day number grows by one. *)
Lemma is_leap_spec y :
  is_leap y = true <-> y mod 4 = 0 /\ (y mod 100 <> 0 \/ y mod 400 = 0).
Proof.
  unfold is_leap.
  rewrite andb_true_iff, orb_true_iff, negb_true_iff, !Z.eqb_eq, Z.eqb_neq.
  tauto.
Qed.

Lemma days_before_next_year y :
  1 <= y ->
  days_before_year (y + 1)
  = days_before_year y + 365 + (if is_leap y then 1 else 0).
Proof.
  intros Hy. unfold days_before_year.
  replace (y + 1 - 1) with y by lia.
  pose proof (is_leap_spec y) as Hl.
  destruct (is_leap y).
  - destruct (proj1 Hl eq_refl) as (H4 & H100).
    assert (y / 4 = (y - 1) / 4 + 1) by (Z.to_euclidean_division_equations; lia).
    destruct H100 as [H100|H400].
    + assert (y / 100 = (y - 1) / 100) by (Z.to_euclidean_division_equations; lia).
      assert (y / 400 = (y - 1) / 400) by (Z.to_euclidean_division_equations; lia).
      lia.
    + assert (y / 100 = (y - 1) / 100 + 1) by (Z.to_euclidean_division_equations; lia).
      assert (y / 400 = (y - 1) / 400 + 1) by (Z.to_euclidean_division_equations; lia).
      lia.
  - assert (Hn : ~ (y mod 4 = 0 /\ (y mod 100 <> 0 \/ y mod 400 = 0)))
      by (intros Hc; apply Hl in Hc; discriminate).
    destruct (Z.eq_dec (y mod 4) 0) as [H4|H4].
    + assert (H100 : y mod 100 = 0) by (destruct (Z.eq_dec (y mod 100) 0); tauto).
      assert (H400 : y mod 400 <> 0) by tauto.
      assert (y / 4 = (y - 1) / 4 + 1) by (Z.to_euclidean_division_equations; lia).
      assert (y / 100 = (y - 1) / 100 + 1) by (Z.to_euclidean_division_equations; lia).
      assert (y / 400 = (y - 1) / 400) by (Z.to_euclidean_division_equations; lia).
      lia.
    + assert (y / 4 = (y - 1) / 4) by (Z.to_euclidean_division_equations; lia).
      assert (y / 100 = (y - 1) / 100) by (Z.to_euclidean_division_equations; lia).
      assert (y / 400 = (y - 1) / 400) by (Z.to_euclidean_division_equations; lia).
      lia.
Qed.

Lemma days_before_next_month y m :
  1 <= m < 12 ->
  days_before_month y (m + 1) = days_before_month y m + days_in_month y m.
Proof.
  intros Hm. assert (Hm' : 1 <= m <= 12) by lia.
  by_month Hm'; try lia; unfold days_before_month, days_in_month;
    destruct (is_leap y); reflexivity.
Qed.

Lemma toordinal_add_one_day d d' :
  valid d = true -> add_one_day d = Returned d' ->
  toordinal d' = toordinal d + 1.
Proof.
  intros Hv. apply valid_spec in Hv as (Hy & Hm & Hd).
  destruct d as [y m dd]. cbn [year month day] in *.
  unfold add_one_day, toordinal. cbn [year month day].
  destruct (Z.ltb_spec dd (days_in_month y m)) as [Hlt|Hge].
  { intros [= <-]. cbn. lia. }
  destruct (Z.ltb_spec m 12) as [Hm12|Hm12].
  { intros [= <-]. cbn [year month day].
    rewrite (days_before_next_month y m) by lia. lia. }
  destruct (Z.ltb_spec y 9999) as [Hy9|Hy9]; [|discriminate].
  intros [= <-]. cbn [year month day].
  assert (m = 12) by lia. subst m.
  change (days_in_month y 12) with 31 in *.
  assert (dd = 31) by lia. subst dd.
  rewrite days_before_next_year by lia.
  unfold days_before_month.
  change (2 <? 1) with false. change (2 <? 12) with true.
  cbn [andb]. destruct (is_leap y); lia.
Qed.

End datetime_facts.

(** ** datetime: the date loop *)

Module each_day_facts.
Import datetime datetime_facts.
#[local] Open Scope Z_scope.

Lemma days_before_year_mono a b :
  1 <= a <= b -> days_before_year a <= days_before_year b.
Proof.
  intros H. unfold days_before_year. Z.to_euclidean_division_equations. lia.
Qed.

Lemma days_before_month_mono y m m' :
  1 <= m -> m < m' -> m' <= 12 ->
  days_before_month y m + days_in_month y m <= days_before_month y m'.
Proof.
  intros H1 H2 H3.
  assert (Hm : 1 <= m <= 12) by lia. assert (Hm' : 1 <= m' <= 12) by lia.
  by_month Hm; by_month Hm'; try lia;
    unfold days_before_month, days_in_month;
    destruct (is_leap y); apply Z.leb_le; reflexivity.
Qed.

Lemma day_of_year_bound y m :
  1 <= m <= 12 ->
  0 <= days_before_month y m
  /\ days_before_month y m + days_in_month y m
     <= 365 + (if is_leap y then 1 else 0).
Proof.
  intros Hm.
  by_month Hm; unfold days_before_month, days_in_month;
    destruct (is_leap y); split; apply Z.leb_le; reflexivity.
Qed.

Lemma le_toordinal a b :
  valid a = true -> valid b = true -> le a b = true ->
  toordinal a <= toordinal b.
Proof.
  intros Ha Hb Hle.
  apply valid_spec in Ha as (Hya & Hma & Hda).
  apply valid_spec in Hb as (Hyb & Hmb & Hdb).
  apply le_spec in Hle. unfold toordinal.
  destruct a as [ya ma da], b as [yb mb db]. cbn [year month day] in *.
  pose proof (day_of_year_bound ya ma Hma) as [Ha0 Ha1].
  pose proof (day_of_year_bound yb mb Hmb) as [Hb0 Hb1].
  destruct Hle as [Hy|[-> [Hm|[-> Hd]]]].
  - pose proof (days_before_next_year ya ltac:(lia)) as Hn.
    pose proof (days_before_year_mono (ya + 1) yb ltac:(lia)). lia.
  - pose proof (days_before_month_mono yb ma mb ltac:(lia) Hm ltac:(lia)). lia.
  - lia.
Qed.

Section Loop.
Context {A : Type} (body : date -> A -> M console A) (end_date : date).

Lemma days_sound fuel : forall cur d,
  valid cur = true -> d ∈ days fuel cur end_date ->
  valid d = true /\ le cur d = true /\ le d end_date = true.
Proof.
  induction fuel as [|fuel IH]; intros cur d Hv; cbn [days];
    destruct (le cur end_date) eqn:Hle; try (intros Hd; now inversion Hd).
  intros Hd. apply elem_of_cons in Hd as [->|Hd].
  { auto using le_refl. }
  destruct (add_one_day_spec cur Hv) as [[_ E]|(next & E & Hvn & Hcn & _)];
    rewrite E in Hd; [inversion Hd|].
  destruct (IH next d Hvn Hd) as (Hvd & Hnd & Hde).
  eauto using le_trans.
Qed.

(** A loop that returns has run the body on every date from the
    current one to the end date. *)
Lemma each_day_Returned fuel : forall cur a out a' out',
  valid cur = true ->
  each_day fuel body cur end_date a out = (Returned a', out') ->
  fold_days body (days fuel cur end_date) a out = (Returned a', out')
  /\ forall d, valid d = true -> le cur d = true -> le d end_date = true ->
       d ∈ days fuel cur end_date.
Proof.
  induction fuel as [|fuel IH]; intros cur a out a' out' Hv;
    cbn [each_day days]; destruct (le cur end_date) eqn:Hle;
    try discriminate.
  - intros E. split; [exact E|]. intros d _ H1 H2.
    rewrite (le_trans _ _ _ H1 H2) in Hle. discriminate.
  - unfold bind at 1. cbn [fold_days]. unfold bind at 2.
    destruct (body cur a out) as [[a1| |] out1]; try discriminate.
    unfold bind at 1, lift.
    destruct (add_one_day_spec cur Hv)
      as [[_ E]|(next & E & Hvn & Hcn & Hne & Hnext)];
      rewrite E; [discriminate|].
    intros El. destruct (IH _ _ _ _ _ Hvn El) as (Ef & Hall).
    split; [exact Ef|]. intros d Hvd H1 H2.
    destruct (le d cur) eqn:Hdc.
    + rewrite (le_antisym _ _ Hdc H1). left.
    + right. apply Hall; auto. apply Hnext; auto.
      intros ->. now rewrite le_refl in Hdc.
  - intros E. split; [exact E|]. intros d _ H1 H2.
    rewrite (le_trans _ _ _ H1 H2) in Hle. discriminate.
Qed.

(** With an end date before the last one and enough steps, a loop
    whose body always returns also returns. *)
Lemma each_day_total fuel : forall cur a out,
  valid cur = true -> valid end_date = true -> end_date <> max_date ->
  (days_between cur end_date <= fuel)%nat ->
  (forall d a out, d ∈ days fuel cur end_date ->
     exists a' out', body d a out = (Returned a', out')) ->
  exists a' out', each_day fuel body cur end_date a out = (Returned a', out').
Proof.
  induction fuel as [|fuel IH]; intros cur a out Hv Hve Hmax Hfuel Hbody;
    cbn [each_day]; destruct (le cur end_date) eqn:Hle;
    try (eexists _, _; reflexivity).
  - pose proof (le_toordinal _ _ Hv Hve Hle). unfold days_between in Hfuel. lia.
  - assert (Hin : cur ∈ days (S fuel) cur end_date).
    { cbn [days]. rewrite Hle. left. }
    destruct (Hbody cur a out Hin) as (a1 & out1 & E1).
    unfold bind at 1. rewrite E1. unfold bind at 1, lift.
    destruct (add_one_day_spec cur Hv)
      as [[-> _]|(next & E & Hvn & Hcn & Hne & Hnext)].
    { exfalso. apply Hmax. apply le_antisym; [|exact Hle].
      apply valid_spec in Hve. apply le_spec. unfold max_date. cbn in *.
      pose proof (days_in_month_bounds (year end_date) (month end_date)
                    ltac:(lia)). lia. }
    rewrite E. apply IH; auto.
    + pose proof (toordinal_add_one_day _ _ Hv E).
      pose proof (le_toordinal _ _ Hv Hve Hle).
      unfold days_between in *. lia.
    + intros d a2 out2 Hd. apply Hbody. cbn [days]. rewrite Hle, E.
      now right.
Qed.

(** The step budget is never what stops the loop: with the steps
    that the validators allow, the loop is still running only when its
    body is. *)
Lemma each_day_enough fuel : forall cur a out out',
  valid cur = true -> valid end_date = true ->
  (days_between cur end_date <= fuel)%nat ->
  each_day fuel body cur end_date a out = (Diverged, out') ->
  exists d a1 out1 out2, body d a1 out1 = (Diverged, out2).
Proof.
  induction fuel as [|fuel IH]; intros cur a out out' Hv Hve Hfuel;
    cbn [each_day]; destruct (le cur end_date) eqn:Hle; try discriminate.
  - pose proof (le_toordinal _ _ Hv Hve Hle). unfold days_between in Hfuel. lia.
  - unfold bind at 1.
    destruct (body cur a out) as [[a1| |] out1] eqn:Eb; try discriminate.
    2:{ intros _. eauto. }
    unfold bind, lift.
    destruct (add_one_day_spec cur Hv)
      as [[_ E]|(next & E & Hvn & _)]; rewrite E; [discriminate|].
    apply IH; auto.
    pose proof (toordinal_add_one_day _ _ Hv E).
    pose proof (le_toordinal _ _ Hv Hve Hle).
    unfold days_between in *. lia.
Qed.

End Loop.
End each_day_facts.

(** ** Stepping through a computation *)

Lemma bind_inv {S A B} (m : M S A) (k : A -> M S B) s b s' :
  bind m k s = (Returned b, s') ->
  exists a s1, m s = (Returned a, s1) /\ k a s1 = (Returned b, s').
Proof.
  unfold bind. destruct (m s) as [[a| |] s1]; try discriminate. eauto.
Qed.

Lemma lift_inv {S A} (o : outcome A) (s : S) a s1 :
  lift o s = (Returned a, s1) -> o = Returned a /\ s1 = s.
Proof. unfold lift. now intros [= -> ->]. Qed.

Lemma obind_inv {A B} (o : outcome A) (k : A -> outcome B) b :
  obind o k = Returned b -> exists a, o = Returned a /\ k a = Returned b.
Proof. destruct o as [a| |]; try discriminate. simpl. eauto. Qed.

Lemma echo_Returned (line : text) out r out' :
  echo line out = (Returned r, out') -> out' = (out ++ [line])%list.
Proof. now intros [= _ <-]. Qed.

Lemma ret_inv {S A} (a : A) (s : S) a' s' :
  ret a s = (Returned a', s') -> a' = a /\ s' = s.
Proof. unfold ret. now intros [= -> ->]. Qed.

(** Splits a hypothesis on a sequence of steps that returned: [a] names
    the value of the first step and [E] its equation. *)
Ltac step_named H a E :=
  let s := fresh "out_after" in
  let Hs := fresh "Hout_after" in
  match type of H with
  | bind (lift _) _ _ = (Returned _, _) =>
      apply bind_inv in H as (a & s & E & H);
      apply lift_inv in E as [E Hs]; subst s
  | bind (echo _) _ _ = (Returned _, _) =>
      apply bind_inv in H as (a & s & E & H);
      apply echo_Returned in E; subst s
  | bind _ _ _ = (Returned _, _) =>
      apply bind_inv in H as (a & s & E & H)
  | obind _ _ = Returned _ =>
      apply obind_inv in H as (a & E & H)
  end.
Tactic Notation "step" hyp(H) "as" ident(a) ident(E) := step_named H a E.

(** The same for a first step that may change the state, named [s]. *)
Tactic Notation "step" hyp(H) "as" ident(a) ident(E) "in" ident(s) :=
  apply bind_inv in H as (a & s & E & H).

(** The end of a sequence: [ret a s = (Returned a', s')]. *)
Ltac finish H :=
  apply ret_inv in H as [? ?]; subst.

(** ** Python values *)

Module py_facts.

Lemma getitem_Returned c k v :
  py.getitem c k = Returned v <->
  exists m, c = JObj m /\ py.dict_get k m = Some v.
Proof.
  split.
  - destruct c as [| | | | |m]; try discriminate. simpl.
    destruct (py.dict_get k m) eqn:E; [|discriminate].
    intros [= ->]. eauto.
  - intros (m & -> & E). simpl. now rewrite E.
Qed.

Lemma contains_obj k m :
  py.contains k (JObj m) = Returned (bool_decide (is_Some (py.dict_get k m))).
Proof. reflexivity. Qed.

Lemma contains_obj_true k m :
  py.contains k (JObj m) = Returned true -> is_Some (py.dict_get k m).
Proof. intros [= E]. now apply bool_decide_eq_true in E. Qed.

Lemma contains_obj_false k m :
  py.contains k (JObj m) = Returned false -> py.dict_get k m = None.
Proof.
  intros [= E]. apply bool_decide_eq_false in E.
  destruct (py.dict_get k m); [|reflexivity]. exfalso. apply E. eauto.
Qed.

Lemma eq_str_true v s : py.eq_str v s = true <-> v = JStr s.
Proof.
  split.
  - destruct v; try discriminate. simpl. intros E.
    apply String.eqb_eq in E. now subst.
  - intros ->. apply String.eqb_refl.
Qed.

Lemma dict_get_In k m v : py.dict_get k m = Some v -> In (k, v) m.
Proof.
  induction m as [|[k' v'] m IH]; [discriminate|]. cbn [py.dict_get].
  destruct (py.dict_get k m) as [v1|].
  - intros [= ->]. right. now apply IH.
  - destruct (String.eqb_spec k k') as [->|]; [|discriminate].
    intros [= ->]. now left.
Qed.

End py_facts.

(** ** validate_games.py: the checks of one date *)

Module validate_games_facts.
Import validate_games py_facts.

Implicit Types (t : tally) (out : console) (S : gset string).

Lemma passes_Returned (r : bool * option text) : passes (Returned r) = fst r.
Proof. now destruct r as [[|] m]. Qed.

Lemma lingo_str_passes s S :
  passes (is_valid_lingo_solution (JStr s) S)
  = (String.length s =? 5) && only_letters s && negb (bool_decide (s ∈ S)).
Proof.
  unfold is_valid_lingo_solution. cbn [py.len py.on_str py.in_set obind].
  destruct (String.length s =? 5); [|reflexivity].
  destruct (only_letters s); [|reflexivity].
  now destruct (bool_decide (s ∈ S)).
Qed.

Lemma lingo_passes_str v S :
  passes (is_valid_lingo_solution v S) = true -> exists s, v = JStr s.
Proof.
  destruct v; try discriminate; eauto;
    unfold is_valid_lingo_solution; cbn [py.len py.on_str obind];
    match goal with |- context [negb ?b] => destruct b end; discriminate.
Qed.

Lemma target_str_passes s S :
  passes (is_valid_scryptogram_target (JStr s) S)
  = (25 <? String.length s)
    && negb (existsb (fun word => 12 <? String.length word) (py.findall_words s))
    && negb (bool_decide (s ∈ S))
    && negb (py.str_contains escaped_quotes s).
Proof.
  unfold is_valid_scryptogram_target.
  cbn [py.len py.on_str py.in_set py.contains obind].
  rewrite Nat.ltb_antisym.
  destruct (String.length s <=? 25); [reflexivity|]. cbn [negb andb].
  destruct (List.find _ (py.findall_words s)) as [word|] eqn:Ef.
  - apply find_some in Ef as [Hin Hw].
    replace (existsb _ _) with true; [reflexivity|].
    symmetry. apply existsb_exists. eauto.
  - replace (existsb _ _) with false.
    + destruct (bool_decide (s ∈ S)); [reflexivity|].
      now destruct (py.str_contains escaped_quotes s).
    + symmetry. apply not_true_is_false. intros Hex.
      apply existsb_exists in Hex as (word & Hin & Hw).
      rewrite (find_none _ _ Ef word Hin) in Hw. discriminate.
Qed.

Lemma target_passes_str v S :
  passes (is_valid_scryptogram_target v S) = true -> exists s, v = JStr s.
Proof.
  destruct v; try discriminate; eauto;
    unfold is_valid_scryptogram_target; cbn [py.len py.on_str obind];
    match goal with |- context [?a <=? 25] => destruct (a <=? 25) end;
    discriminate.
Qed.

(** A check with a set answers True exactly when the value is a string
    outside the set and the check with the empty set answers True. *)
Lemma lingo_solution_unique v S :
  passes (is_valid_lingo_solution v S) = true <->
  exists s, v = JStr s /\ (s ∉ S)
            /\ passes (is_valid_lingo_solution (JStr s) ∅) = true.
Proof.
  split.
  - intros Hp. destruct (lingo_passes_str _ _ Hp) as [s ->]. exists s.
    rewrite lingo_str_passes in *.
    apply andb_true_iff in Hp as [Hp Hs]. rewrite Hp.
    apply negb_true_iff, bool_decide_eq_false in Hs.
    repeat split; auto.
  - intros (s & -> & Hs & Hp). rewrite lingo_str_passes in *.
    apply andb_true_iff in Hp as [Hp _]. rewrite Hp.
    now rewrite bool_decide_eq_false_2.
Qed.

Lemma scryptogram_target_unique v S :
  passes (is_valid_scryptogram_target v S) = true <->
  exists s, v = JStr s /\ (s ∉ S)
            /\ passes (is_valid_scryptogram_target (JStr s) ∅) = true.
Proof.
  split.
  - intros Hp. destruct (target_passes_str _ _ Hp) as [s ->]. exists s.
    rewrite target_str_passes in *.
    apply andb_true_iff in Hp as [Hp Hq]. apply andb_true_iff in Hp as [Hp Hs].
    rewrite Hp, Hq. apply negb_true_iff, bool_decide_eq_false in Hs.
    repeat split; auto.
  - intros (s & -> & Hs & Hp). rewrite target_str_passes in *.
    apply andb_true_iff in Hp as [Hp Hq]. apply andb_true_iff in Hp as [Hp _].
    rewrite Hp, Hq. now rewrite bool_decide_eq_false_2.
Qed.


Lemma getindex_obj game i m :
  py.getindex game i = Returned (JObj m) ->
  exists items, game = JArr items /\ items !! i = Some (JObj m).
Proof.
  destruct game as [| | |s|items|]; try discriminate; simpl.
  - destruct (String.get i s); discriminate.
  - destruct (items !! i) eqn:E; [|discriminate]. intros [= ->]. eauto.
Qed.

(** The lingo part: the flag is cleared unless the first game is a
    good lingo game with a new solution, which is then recorded. *)
Lemma check_lingo_spec game ds t out t1 out1 :
  check_lingo game ds t out = (Returned t1, out1) ->
  match lingo_solution game with
  | Some s =>
      if bool_decide (s ∈ all_lingo_solutions t) then t1 = invalidate t
      else t1 = Tally ({[s]} ∪ all_lingo_solutions t)
                  (all_scryptogram_targets t) (valid t)
           /\ out1 = out
  | None => t1 = invalidate t
  end.
Proof.
  unfold check_lingo. intros H.
  step H as g0 Eg0. step H as type Ety.
  apply getitem_Returned in Ety as (m0 & -> & Ety).
  apply getindex_obj in Eg0 as (items & -> & Eg0).
  destruct items as [|g0 rest]; [discriminate|]. injection Eg0 as ->.
  cbn [lingo_solution]. rewrite Ety.
  destruct (py.eq_str type "lingo") eqn:Elingo; cbn [negb] in H.
  2:{ step H as u Eu. finish H.
      destruct (py.dict_get "config" m0) as [[| | | | |c]|]; try reflexivity.
      destruct (py.dict_get "solution" c) as [[]|]; reflexivity. }
  step H as missing Em. unfold lingo_config_missing in Em.
  cbn [py.getindex lookup list_lookup obind] in Em.
  rewrite contains_obj in Em. cbn [obind] in Em.
  destruct (py.dict_get "config" m0) as [c0|] eqn:Ec.
  2:{ rewrite bool_decide_eq_false_2 in Em by (intros [? ?]; discriminate).
      cbn [negb] in Em. injection Em as <-. step H as u Eu. now finish H. }
  rewrite bool_decide_eq_true_2 in Em by eauto. cbn [negb] in Em.
  cbn [py.getitem] in Em. rewrite Ec in Em. cbn [obind] in Em.
  step Em as has Ehas. injection Em as <-.
  destruct has; cbn [negb] in H.
  2:{ step H as u Eu. finish H.
      destruct c0 as [| | | | |c]; try reflexivity.
      apply contains_obj_false in Ehas. now rewrite Ehas. }
  step H as solution Es.
  cbn [py.getindex lookup list_lookup obind py.getitem] in Es.
  rewrite Ec in Es. cbn [obind] in Es.
  apply getitem_Returned in Es as (c & -> & Esol). rewrite Esol. cbn [andb].
  step H as r Er.
  assert (Hp : fst r = passes (is_valid_lingo_solution solution (all_lingo_solutions t)))
    by (rewrite Er; symmetry; apply passes_Returned).
  destruct (fst r) eqn:Hf; cbn [negb] in H.
  - symmetry in Hp. apply lingo_solution_unique in Hp as (s & -> & Hs & Hp).
    rewrite Hp. rewrite bool_decide_eq_false_2 by exact Hs.
    step H as S' ES'. injection ES' as <-. now finish H.
  - step H as u Eu. finish H.
    destruct solution as [| | |s| |]; try reflexivity.
    destruct (passes (is_valid_lingo_solution (JStr s) ∅)) eqn:Hq;
      [|reflexivity].
    destruct (bool_decide_reflect (s ∈ all_lingo_solutions t)); [reflexivity|].
    exfalso. assert (passes (is_valid_lingo_solution (JStr s) (all_lingo_solutions t)) = true)
      by (apply lingo_solution_unique; eauto).
    congruence.
Qed.

Lemma any_key_missing_obj g0 m1 rest c keys :
  py.dict_get "config" m1 = Some (JObj c) ->
  any_key_missing (JArr (g0 :: JObj m1 :: rest)) keys
  = Returned (existsb (fun k => negb (bool_decide (is_Some (py.dict_get k c)))) keys).
Proof.
  intros Ec. induction keys as [|k keys IH]; [reflexivity|].
  cbn [any_key_missing py.getindex lookup list_lookup obind py.getitem existsb].
  rewrite Ec. cbn [obind]. rewrite contains_obj. cbn [obind].
  destruct (bool_decide (is_Some (py.dict_get k c))); [exact IH | reflexivity].
Qed.

(** The flag is only ever cleared. *)
Lemma invalidate_valid t : valid (invalidate t) = false.
Proof. reflexivity. Qed.

(** The scryptogram part: the flag is cleared unless the second game is
    a good scryptogram game with a new target, which is then recorded. *)
Lemma check_scryptogram_spec game ds t out t2 out2 :
  check_scryptogram game ds t out = (Returned t2, out2) ->
  all_lingo_solutions t2 = all_lingo_solutions t
  /\ (valid t = false -> valid t2 = false)
  /\ match scryptogram_target game with
     | Some tg =>
         if bool_decide (tg ∈ all_scryptogram_targets t) then valid t2 = false
         else t2 = Tally (all_lingo_solutions t)
                     ({[tg]} ∪ all_scryptogram_targets t) (valid t)
              /\ out2 = out
     | None => valid t2 = false
     end.
Proof.
  unfold check_scryptogram. intros H.
  step H as g1 Eg1. step H as type Ety.
  apply getitem_Returned in Ety as (m1 & -> & Ety).
  apply getindex_obj in Eg1 as (items & -> & Eg1).
  destruct items as [|g0 [|g1 rest]]; try discriminate. injection Eg1 as ->.
  cbn [scryptogram_target]. rewrite Ety.
  destruct (py.eq_str type "scryptogram") eqn:Etype; cbn [negb] in H.
  2:{ step H as u Eu. finish H. repeat split; auto.
      destruct (py.dict_get "config" m1) as [[| | | | |c]|]; try reflexivity.
      destruct (py.dict_get "target" c) as [[]|], (py.dict_get "hint" c),
        (py.dict_get "cipher" c); reflexivity. }
  step H as missing Em. unfold scryptogram_config_missing in Em.
  cbn [py.getindex lookup list_lookup obind] in Em.
  rewrite contains_obj in Em. cbn [obind] in Em.
  destruct (py.dict_get "config" m1) as [c1|] eqn:Ec.
  2:{ rewrite bool_decide_eq_false_2 in Em by (intros [? ?]; discriminate).
      cbn [negb] in Em. injection Em as <-. step H as u Eu. now finish H. }
  rewrite bool_decide_eq_true_2 in Em by eauto. cbn [negb] in Em.
  destruct missing.
  { step H as u Eu. finish H. repeat split; auto.
    destruct c1 as [| | | | |c]; try reflexivity.
    rewrite (any_key_missing_obj _ _ _ _ _ Ec) in Em. injection Em as Em.
    cbn [existsb] in Em. rewrite orb_false_r in Em.
    destruct (py.dict_get "target" c) as [tg|]; [|reflexivity].
    destruct (py.dict_get "hint" c) as [hint|];
      [|destruct tg; reflexivity].
    destruct (py.dict_get "cipher" c) as [cipher|];
      [|destruct tg; reflexivity].
    rewrite !bool_decide_eq_true_2 in Em by eauto. discriminate. }
  step H as config Econf.
  cbn [py.getindex lookup list_lookup obind py.getitem] in Econf.
  rewrite Ec in Econf. injection Econf as <-.
  step H as target Etg. apply getitem_Returned in Etg as (c & -> & Etg).
  rewrite Etg. cbn [andb].
  step H as rt Ert. step H as t1 Et1.
  step H as hint Eh. apply getitem_Returned in Eh as (c' & [= <-] & Eh).
  rewrite Eh.
  step H as rh Erh. step H as t2' Et2.
  step H as cipher Eci. apply getitem_Returned in Eci as (c' & [= <-] & Eci).
  rewrite Eci.
  step H as rc Erc.
  assert (Hpt : fst rt = passes (is_valid_scryptogram_target target (all_scryptogram_targets t)))
    by (rewrite Ert; symmetry; apply passes_Returned).
  assert (Hph : fst rh = passes (is_valid_scryptogram_hint hint))
    by (rewrite Erh; symmetry; apply passes_Returned).
  assert (Hpc : fst rc = passes (is_valid_scryptogram_cipher cipher))
    by (rewrite Erc; symmetry; apply passes_Returned).
  rewrite <- Hph, <- Hpc.
  (* the target *)
  assert (Ht1 : all_lingo_solutions t1 = all_lingo_solutions t
                /\ (valid t = false -> valid t1 = false)
                /\ ((fst rt = false /\ valid t1 = false)
                    \/ (exists tg, target = JStr tg
                          /\ (tg ∉ all_scryptogram_targets t)
                          /\ passes (is_valid_scryptogram_target (JStr tg) ∅) = true
                          /\ t1 = Tally (all_lingo_solutions t)
                                    ({[tg]} ∪ all_scryptogram_targets t) (valid t)
                          /\ out_after = out))).
  { destruct (fst rt) eqn:Hf; cbn [negb] in Et1.
    - symmetry in Hpt.
      apply scryptogram_target_unique in Hpt as (tg & -> & Hn & Hp).
      step Et1 as tg' Etg'. apply getitem_Returned in Etg' as (c' & [= <-] & Etg').
      rewrite Etg in Etg'. injection Etg' as <-.
      step Et1 as S' ES'. injection ES' as <-. finish Et1.
      repeat split; auto. right. exists tg. repeat split; auto.
    - step Et1 as u Eu. finish Et1. repeat split; auto. }
  destruct Ht1 as (Hs1 & Hv1 & Ht1).
  (* the hint *)
  assert (Ht2 : all_lingo_solutions t2' = all_lingo_solutions t1
                /\ (valid t1 = false -> valid t2' = false)
                /\ ((fst rh = false /\ valid t2' = false)
                    \/ (fst rh = true /\ t2' = t1 /\ out_after0 = out_after))).
  { destruct (fst rh); cbn [negb] in Et2.
    - finish Et2. repeat split; auto.
    - step Et2 as u Eu. finish Et2. repeat split; auto. }
  destruct Ht2 as (Hs2 & Hv2 & Ht2).
  (* the cipher *)
  assert (Ht3 : all_lingo_solutions t2 = all_lingo_solutions t2'
                /\ (valid t2' = false -> valid t2 = false)
                /\ ((fst rc = false /\ valid t2 = false)
                    \/ (fst rc = true /\ t2 = t2' /\ out2 = out_after0))).
  { destruct (fst rc); cbn [negb] in H.
    - finish H. repeat split; auto.
    - step H as u Eu. finish H. repeat split; auto. }
  destruct Ht3 as (Hs3 & Hv3 & Ht3).
  split; [congruence|]. split; [auto|].
  destruct target as [| | |tg| |];
    try solve [destruct Ht1 as [[_ Hf]|(tg' & [=] & _)]; auto].
  destruct (passes (is_valid_scryptogram_target (JStr tg) ∅)) eqn:Hq; cbn [andb].
  2:{ destruct Ht1 as [[_ Hf]|(tg' & [= <-] & _ & Hp & _)]; [auto | congruence]. }
  destruct Ht2 as [[-> Hf2]|(-> & -> & ->)]; cbn [andb]; [auto|].
  destruct Ht3 as [[-> Hf3]|(-> & -> & ->)]; cbn [andb]; [auto|].
  destruct Ht1 as [[Hrt Hf]|(tg' & [= <-] & Hn & _ & -> & ->)].
  - destruct (bool_decide_reflect (tg ∈ all_scryptogram_targets t)) as [|Hn];
      auto.
    exfalso. rewrite Hpt in Hrt.
    assert (passes (is_valid_scryptogram_target (JStr tg)
                      (all_scryptogram_targets t)) = true)
      by (apply scryptogram_target_unique; eauto).
    congruence.
  - rewrite bool_decide_eq_false_2 by exact Hn. auto.
Qed.

Lemma check_lingo_flag game ds t out t1 out1 :
  check_lingo game ds t out = (Returned t1, out1) ->
  all_scryptogram_targets t1 = all_scryptogram_targets t
  /\ (valid t = false -> valid t1 = false).
Proof.
  intros H. apply check_lingo_spec in H.
  destruct (lingo_solution game) as [s|]; [|now subst].
  destruct (bool_decide (s ∈ all_lingo_solutions t)); [now subst|].
  destruct H as [-> _]. auto.
Qed.

(** One date: the flag is cleared unless the date has a good entry with
    a new solution and a new target, which are then recorded; nothing
    is printed for such a date. *)
Lemma check_date_spec data ds t out t' out' :
  check_date data ds t out = (Returned t', out') ->
  (valid t = false -> valid t' = false)
  /\ match day_entry data ds with
     | Some (s, tg) =>
         if bool_decide (s ∈ all_lingo_solutions t)
            || bool_decide (tg ∈ all_scryptogram_targets t)
         then valid t' = false
         else t' = Tally ({[s]} ∪ all_lingo_solutions t)
                     ({[tg]} ∪ all_scryptogram_targets t) (valid t)
              /\ out' = out
     | None => valid t' = false
     end.
Proof.
  unfold check_date. intros H.
  step H as games Eg. apply getitem_Returned in Eg as (members & -> & Eg).
  cbn [day_entry]. rewrite Eg.
  step H as present Ep. destruct present; cbn [negb] in H.
  2:{ step H as u Eu. finish H. split; [auto|].
      destruct games as [| | | | |g]; try reflexivity.
      apply contains_obj_false in Ep. now rewrite Ep. }
  step H as game Egame. cbn [py.getitem obind] in Egame. rewrite Eg in Egame.
  cbn [obind] in Egame.
  apply getitem_Returned in Egame as (g & -> & Egame). rewrite Egame.
  step H as n En. destruct (n <? 2) eqn:E2.
  { step H as u Eu. finish H. split; [auto|].
    apply Nat.ltb_lt in E2.
    destruct game as [| | | |items|]; try reflexivity.
    injection En as <-.
    destruct items as [|a [|b r]]; cbn [length] in E2; try lia.
    - reflexivity.
    - cbn [scryptogram_target]. now destruct (lingo_solution (JArr [a])). }
  step H as t1 Et1.
  pose proof (check_lingo_flag _ _ _ _ _ _ Et1) as (Htg1 & Hv1).
  apply check_lingo_spec in Et1.
  apply check_scryptogram_spec in H as (Hs2 & Hv2 & H).
  split; [auto|].
  destruct (lingo_solution game) as [s|].
  2:{ subst t1. destruct (scryptogram_target game); auto. }
  destruct (scryptogram_target game) as [tg|]; [|exact H].
  rewrite Htg1 in H.
  destruct (bool_decide (s ∈ all_lingo_solutions t)); cbn [orb].
  { subst t1. auto. }
  destruct Et1 as [-> ->].
  destruct (bool_decide (tg ∈ all_scryptogram_targets t)); [exact H|].
  exact H.
Qed.

(** The loop over the dates: the flag is still set at the end exactly
    when it was set at the start and every date had a good entry, with
    solutions and targets all new and all different. *)
Lemma fold_days_spec data dates : forall t out t' out',
  datetime.fold_days (fun d => check_date data (datetime.strftime d))
    dates t out = (Returned t', out') ->
  (valid t = false -> valid t' = false)
  /\ (valid t' = true <->
      valid t = true
      /\ exists entries,
           Forall2 (fun d e => day_entry data (datetime.strftime d) = Some e)
             dates entries
           /\ NoDup (map fst entries) /\ NoDup (map snd entries)
           /\ forall e, In e entries ->
                (fst e ∉ all_lingo_solutions t)
                /\ (snd e ∉ all_scryptogram_targets t)).
Proof.
  induction dates as [|d dates IH]; intros t out t' out' H.
  - cbn [datetime.fold_days] in H. finish H. split; [auto|]. split.
    + intros Hv. split; [exact Hv|]. exists []. repeat split; try constructor.
      all: inversion H.
    + tauto.
  - cbn [datetime.fold_days] in H. step H as t1 E1.
    apply check_date_spec in E1 as (Hv1 & E1).
    apply IH in H as (Hv2 & H). split; [auto|]. rewrite H. clear H IH.
    destruct (day_entry data (datetime.strftime d)) as [[s tg]|] eqn:Ed.
    2:{ split.
        - intros [Hc _]. congruence.
        - intros (_ & entries & HF & _). inversion HF; subst. congruence. }
    destruct (bool_decide_reflect (s ∈ all_lingo_solutions t)) as [Hs|Hs];
      cbn [orb] in E1.
    { split.
      - intros [Hc _]. congruence.
      - intros (_ & entries & HF & _ & _ & Hnew). inversion HF; subst.
        assert (y = (s, tg)) by congruence. subst y.
        destruct (Hnew (s, tg) ltac:(now left)) as [Hc _]. contradiction. }
    destruct (bool_decide_reflect (tg ∈ all_scryptogram_targets t)) as [Ht|Ht].
    { split.
      - intros [Hc _]. congruence.
      - intros (_ & entries & HF & _ & _ & Hnew). inversion HF; subst.
        assert (y = (s, tg)) by congruence. subst y.
        destruct (Hnew (s, tg) ltac:(now left)) as [_ Hc]. contradiction. }
    destruct E1 as [-> ->]. cbn [valid all_lingo_solutions all_scryptogram_targets].
    split.
    + intros (Hv & entries & HF & Hn1 & Hn2 & Hnew). split; [exact Hv|].
      exists ((s, tg) :: entries). split; [now constructor|].
      cbn [map fst snd]. split; [|split].
      * apply NoDup_cons. split; [|exact Hn1]. intros Hin.
        apply list_elem_of_In, in_map_iff in Hin as (e & <- & Hin).
        destruct (Hnew e Hin) as [Hc _]. apply Hc, elem_of_union. left.
        now apply elem_of_singleton.
      * apply NoDup_cons. split; [|exact Hn2]. intros Hin.
        apply list_elem_of_In, in_map_iff in Hin as (e & <- & Hin).
        destruct (Hnew e Hin) as [_ Hc]. apply Hc, elem_of_union. left.
        now apply elem_of_singleton.
      * intros e [<-|Hin]; [auto|].
        destruct (Hnew e Hin) as [Hc1 Hc2].
        split; intros Hc; [apply Hc1 | apply Hc2]; apply elem_of_union; now right.
    + intros (Hv & entries & HF & Hn1 & Hn2 & Hnew). split; [exact Hv|].
      inversion HF as [|? y ? entries' Hy HF']; subst.
      assert (y = (s, tg)) by congruence. subst y.
      cbn [map fst snd] in Hn1, Hn2.
      apply NoDup_cons in Hn1 as [Hs1 Hn1]. apply NoDup_cons in Hn2 as [Ht1 Hn2].
      exists entries'. split; [exact HF'|]. split; [exact Hn1|].
      split; [exact Hn2|]. intros e Hin.
      destruct (Hnew e ltac:(now right)) as [Hc1 Hc2].
      split; intros Hc; apply elem_of_union in Hc as [Hc|Hc]; auto;
        apply elem_of_singleton in Hc.
      * apply Hs1. rewrite <- Hc. now apply list_elem_of_In, in_map.
      * apply Ht1. rewrite <- Hc. now apply list_elem_of_In, in_map.
Qed.

End validate_games_facts.

(** ** validate_games.py: validate_json *)

Module validate_games_json.
Import validate_games py_facts validate_games_facts.

Lemma strptime_str e d :
  datetime.strptime (JStr e) = Returned d <-> datetime.parse_date e = Some d.
Proof.
  cbn [datetime.strptime]. destruct (datetime.parse_date e).
  - split; intros [= ->]; reflexivity.
  - split; discriminate.
Qed.

Lemma parse_date_valid e d :
  datetime.parse_date e = Some d -> datetime.valid d = true.
Proof.
  unfold datetime.parse_date.
  destruct (datetime.parse_year _) as [[y cs1]|]; cbn [mbind option_bind];
    [|discriminate].
  destruct (datetime.expect _ cs1) as [cs2|]; cbn [mbind option_bind];
    [|discriminate].
  destruct (datetime.parse_month cs2) as [[m cs3]|]; cbn [mbind option_bind];
    [|discriminate].
  destruct (datetime.expect _ cs3) as [cs4|]; cbn [mbind option_bind];
    [|discriminate].
  destruct (datetime.parse_day cs4) as [[dd cs5]|]; cbn [mbind option_bind];
    [|discriminate].
  destruct cs5; [|discriminate].
  destruct (datetime.valid _) eqn:Ev; [|discriminate].
  now intros [= <-].
Qed.

Lemma games_first_date_parsed :
  datetime.strptime (JStr "2025-03-05") = Returned first_date.
Proof. reflexivity. Qed.

Lemma games_first_date_valid : datetime.valid first_date = true.
Proof. reflexivity. Qed.

(** The run of [validate_json], step by step. *)
Lemma games_validate_json_Returned fs e out b out' :
  validate_json fs e out = (Returned b, out') ->
  exists end_date,
    datetime.parse_date e = Some end_date
    /\ match fs "prompts.json" with
       | NoSuchFile =>
           b = false
           /\ out' = (out ++ [[Lit "Error: File prompts.json not found."]])%list
       | NotJson =>
           b = false
           /\ out' = (out ++ [[Lit "Error: prompts.json is not a valid JSON file."]])%list
       | Json data =>
           (py.contains "games" data = Returned false /\ b = false
            /\ out' = (out ++ [[Lit "Error: JSON file does not contain a 'games' object."]])%list)
           \/ (py.contains "games" data = Returned true
               /\ exists t out1 line,
                    datetime.each_day
                      (datetime.days_between first_date end_date)
                      (fun d => check_date data (datetime.strftime d))
                      first_date end_date (Tally ∅ ∅ true) out
                    = (Returned t, out1)
                    /\ b = valid t /\ out' = (out1 ++ [line])%list)
       | _ => False
       end.
Proof.
  unfold validate_json. intros H.
  step H as end_date Ee. apply strptime_str in Ee.
  step H as start_date Es. rewrite games_first_date_parsed in Es. injection Es as <-.
  exists end_date. split; [exact Ee|].
  destruct (fs "prompts.json") as [| | | |data]; try discriminate.
  - step H as u Eu. finish H. auto.
  - step H as u Eu. finish H. auto.
  - step H as has Eh. destruct has; cbn [negb] in H.
    + right. split; [exact Eh|]. step H as t Et.
      exists t. destruct (valid t) eqn:Ev; step H as u Eu; finish H;
        eexists _, _; repeat split; eauto.
    + left. step H as u Eu. finish H. auto.
Qed.

(** [validate_json] answers True exactly when the file holds a document
    with a games member and all checks pass on every date of the loop. *)
Lemma validate_json_true fs e out b out' :
  validate_json fs e out = (Returned b, out') ->
  exists end_date,
    datetime.parse_date e = Some end_date
    /\ (b = true <->
        exists data,
          fs "prompts.json" = Json data
          /\ py.contains "games" data = Returned true
          /\ all_checks_pass data
               (datetime.days (datetime.days_between first_date end_date)
                  first_date end_date))
    /\ (forall d, datetime.valid d = true ->
          datetime.le first_date d = true -> datetime.le d end_date = true ->
          d ∈ datetime.days (datetime.days_between first_date end_date)
                first_date end_date
          \/ b = false).
Proof.
  intros H. apply games_validate_json_Returned in H as (end_date & Ee & H).
  exists end_date. split; [exact Ee|].
  destruct (fs "prompts.json") as [| | | |data]; try contradiction.
  - destruct H as [-> _]. split; [|auto]. split; [discriminate|].
    intros (? & [=] & _).
  - destruct H as [-> _]. split; [|auto]. split; [discriminate|].
    intros (? & [=] & _).
  - destruct H as [(Hc & -> & _)|(Hc & t & out1 & line & El & -> & _)].
    { split; [|auto]. split; [discriminate|].
      intros (? & [= <-] & Hc' & _). congruence. }
    apply each_day_facts.each_day_Returned in El as [Ef Hall];
      [|exact games_first_date_valid].
    apply fold_days_spec in Ef as [_ Ef]. split; [|auto].
    rewrite Ef. cbn [valid all_lingo_solutions all_scryptogram_targets].
    split.
    + intros (_ & entries & HF & Hn1 & Hn2 & _). exists data.
      split; [reflexivity|]. split; [exact Hc|]. now exists entries.
    + intros (data' & [= <-] & _ & entries & HF & Hn1 & Hn2).
      split; [reflexivity|]. exists entries. repeat split; auto;
        apply not_elem_of_empty.
Qed.

End validate_games_json.

(** ** datetime: strftime tells dates apart *)

Module strftime_facts.
Import datetime datetime_facts.
#[local] Open Scope Z_scope.

Lemma digit_inj a b : digit a = digit b -> a mod 10 = b mod 10.
Proof.
  unfold digit. intros E.
  assert (Ha : 0 <= a mod 10 < 10) by (apply Z.mod_pos_bound; lia).
  assert (Hb : 0 <= b mod 10 < 10) by (apply Z.mod_pos_bound; lia).
  apply (f_equal nat_of_ascii) in E.
  rewrite !nat_ascii_embedding in E by lia. lia.
Qed.

Lemma pad2_inj a b :
  0 <= a < 100 -> 0 <= b < 100 -> pad2 a = pad2 b -> a = b.
Proof.
  unfold pad2. intros Ha Hb [= E1 E2].
  apply digit_inj in E1, E2. Z.to_euclidean_division_equations. lia.
Qed.

Lemma pad4_inj a b :
  0 <= a < 10000 -> 0 <= b < 10000 -> pad4 a = pad4 b -> a = b.
Proof.
  unfold pad4. intros Ha Hb [= E1 E2 E3 E4].
  apply digit_inj in E1, E2, E3, E4. Z.to_euclidean_division_equations. lia.
Qed.

Lemma strftime_inj a b :
  valid a = true -> valid b = true -> strftime a = strftime b -> a = b.
Proof.
  intros Ha Hb E.
  apply valid_spec in Ha as (Hya & Hma & Hda).
  apply valid_spec in Hb as (Hyb & Hmb & Hdb).
  pose proof (days_in_month_bounds (year a) _ Hma).
  pose proof (days_in_month_bounds (year b) _ Hmb).
  unfold strftime in E.
  apply (f_equal list_ascii_of_string) in E.
  rewrite !list_ascii_of_string_of_list_ascii in E.
  destruct a as [ya ma da], b as [yb mb db]. cbn [year month day] in *.
  injection E as E1 E2 E3 E4 E5 E6 E7 E8.
  assert (ya = yb) by (apply pad4_inj; [lia | lia | unfold pad4; congruence]).
  assert (ma = mb) by (apply pad2_inj; [lia | lia | unfold pad2; congruence]).
  assert (da = db) by (apply pad2_inj; [lia | lia | unfold pad2; congruence]).
  congruence.
Qed.

End strftime_facts.

(** ** validate_prompts.py *)

Module validate_prompts_facts.
Import validate_prompts py_facts.

Implicit Types (out : console) (J : gset string).

Lemma try_except_inv {S A} (m : M S A) (e : exn) (h : M S A) s a s' :
  try_except m e h s = (Returned a, s') ->
  m s = (Returned a, s')
  \/ exists s1, m s = (Raised e, s1) /\ h s1 = (Returned a, s').
Proof.
  unfold try_except. destruct (m s) as [[a1|e1|] s1].
  - now left.
  - destruct (bool_decide_reflect (e1 = e)) as [->|]; [eauto | discriminate].
  - discriminate.
Qed.

(** The loop over the prompts collects the dates of the prompts. *)
Lemma each_prompt_dates first last items : forall J out J' out',
  each_prompt items first last J out = (Returned J', out') ->
  forall x, x ∈ J' <->
    x ∈ J \/ exists p d, In p items /\ prompt_day p = Some d
                         /\ x = datetime.strftime d.
Proof.
  induction items as [|p items IH]; intros J out J' out' H x.
  - cbn [each_prompt] in H. finish H. split; [auto|].
    intros [Hx|(p & d & [] & _)]. exact Hx.
  - cbn [each_prompt] in H. step H as has Eh. destruct has.
    2:{ apply IH with (x := x) in H. rewrite H. clear H.
        assert (Hp : prompt_day p = None).
        { destruct p as [| | | | |m]; try reflexivity. cbn [prompt_day].
          apply contains_obj_false in Eh. now rewrite Eh. }
        split; intros [Hx|(q & d & Hq & Hd & ->)]; auto.
        - right. exists q, d. repeat split; auto. now right.
        - destruct Hq as [<-|Hq]; [congruence|]. right. exists q, d. auto. }
    step H as parsed Ep.
    apply try_except_inv in Ep as [Ep|(out1 & Ep & Eh')].
    + step Ep as d Ed. finish Ep.
      step Ed as v Ev. apply getitem_Returned in Ev as (m & -> & Ev).
      destruct v as [| | |s| |]; try discriminate.
      apply validate_games_json.strptime_str in Ed.
      assert (Hp : prompt_day (JObj m) = Some d)
        by (cbn [prompt_day]; now rewrite Ev).
      step H as u Eu. apply IH with (x := x) in H. rewrite H. clear H.
      rewrite elem_of_union, elem_of_singleton.
      split.
      * intros [[->|Hx]|(q & d' & Hq & Hd & ->)]; auto.
        -- right. exists (JObj m), d. repeat split; auto. now left.
        -- right. exists q, d'. repeat split; auto. now right.
      * intros [Hx|(q & d' & [<-|Hq] & Hd & ->)]; auto.
        -- left. left. congruence.
        -- right. exists q, d'. auto.
    + finish Eh'.
      assert (Hp : prompt_day p = None).
      { unfold bind, lift in Ep.
        destruct (py.getitem p "Date") as [v| |] eqn:Ev; try discriminate.
        - apply getitem_Returned in Ev as (m & -> & Ev). cbn [prompt_day].
          rewrite Ev. cbn [obind] in Ep.
          destruct v as [| | |s| |]; try reflexivity.
          cbn [datetime.strptime] in Ep.
          destruct (datetime.parse_date s);
            [unfold ret in Ep; discriminate | reflexivity].
        - destruct p as [| | | | |m]; try reflexivity. cbn in Ev.
          cbn [prompt_day]. destruct (py.dict_get "Date" m);
            [discriminate | reflexivity]. }
      apply IH with (x := x) in H. rewrite H. clear H.
      split; intros [Hx|(q & d & Hq & Hd & ->)]; auto.
      * right. exists q, d. repeat split; auto. now right.
      * destruct Hq as [<-|Hq]; [congruence|]. right. exists q, d. auto.
Qed.

Lemma fold_note_missing J dates : forall acc out,
  datetime.fold_days (note_missing J) dates acc out
  = (Returned (acc ++ missing_from J dates)%list, out).
Proof.
  induction dates as [|d dates IH]; intros acc out.
  - cbn. now rewrite app_nil_r.
  - cbn [datetime.fold_days]. unfold bind, note_missing.
    unfold missing_from. cbn [map List.filter].
    destruct (bool_decide (datetime.strftime d ∈ J)); cbn [ret negb].
    + apply IH.
    + rewrite IH. unfold missing_from. now rewrite <- app_assoc.
Qed.

Lemma missing_from_nil J dates :
  missing_from J dates = [] <->
  forall d, d ∈ dates -> datetime.strftime d ∈ J.
Proof.
  unfold missing_from. induction dates as [|d dates IH]; cbn [map List.filter].
  - split; [|reflexivity]. intros _ d Hd. inversion Hd.
  - destruct (bool_decide_reflect (datetime.strftime d ∈ J)) as [Hin|Hin];
      cbn [negb].
    + rewrite IH. split.
      * intros Hall x Hx. apply elem_of_cons in Hx as [->|Hx]; auto.
      * intros Hall x Hx. apply Hall. now right.
    + split; [discriminate|]. intros Hall. exfalso. apply Hin, Hall. left.
Qed.

Lemma prompts_first_date_parsed :
  datetime.strptime (JStr "2025-03-03") = Returned first_date.
Proof. reflexivity. Qed.

Lemma prompts_first_date_valid : datetime.valid first_date = true.
Proof. reflexivity. Qed.

(** The run of [validate_json], step by step. *)
Lemma prompts_validate_json_Returned fs e out b out' :
  validate_json fs e out = (Returned b, out') ->
  exists end_date,
    datetime.parse_date e = Some end_date
    /\ match fs "prompts.json" with
       | NoSuchFile =>
           b = false
           /\ out' = (out ++ [[Lit "Error: File prompts.json not found."]])%list
       | NotJson =>
           b = false
           /\ out' = (out ++ [[Lit "Error: prompts.json is not a valid JSON file."]])%list
       | Json data =>
           (b = false
            /\ (forall items, py.getitem data "prompts" <> Returned (JArr items))
            /\ out' = (out ++ [[Lit "Error: JSON file does not contain a 'prompts' array."]])%list)
           \/ (exists items J out1 missing,
                 py.getitem data "prompts" = Returned (JArr items)
                 /\ each_prompt items first_date end_date ∅ out
                    = (Returned J, out1)
                 /\ datetime.each_day
                      (datetime.days_between first_date end_date)
                      (note_missing J) first_date end_date [] out1
                    = (Returned missing, out1)
                 /\ b = bool_decide (missing = []))
       | _ => False
       end.
Proof.
  unfold validate_json. intros H.
  step H as end_date Ee. apply validate_games_json.strptime_str in Ee.
  step H as start_date Es. rewrite prompts_first_date_parsed in Es. injection Es as <-.
  exists end_date. split; [exact Ee|].
  destruct (fs "prompts.json") as [| | | |data]; try discriminate.
  - step H as u Eu. finish H. auto.
  - step H as u Eu. finish H. auto.
  - step H as has Eh. step H as prompts Ep in out0.
    assert (Hp : forall items, prompts = JArr items ->
                   py.getitem data "prompts" = Returned (JArr items)).
    { intros items ->. destruct has; cbn [negb] in Ep.
      - now apply lift_inv in Ep as [-> _].
      - now apply ret_inv in Ep as [? _]. }
    assert (Hn : (forall items, prompts <> JArr items) ->
                 forall items, py.getitem data "prompts" <> Returned (JArr items)).
    { intros Hne items Hg. destruct has; cbn [negb] in Ep.
      - apply lift_inv in Ep as [Ep _]. rewrite Hg in Ep.
        injection Ep as <-. now apply (Hne items).
      - destruct data as [| | |s|xs|m]; try discriminate.
        apply contains_obj_false in Eh. cbn in Hg. now rewrite Eh in Hg. }
    assert (Hout : out0 = out).
    { destruct has; cbn [negb] in Ep.
      - now apply lift_inv in Ep as [_ ->].
      - now apply ret_inv in Ep as [_ ->]. }
    subst out0. clear Ep.
    destruct prompts as [| | | |items|];
      try (left; step H as u Eu; finish H; repeat split; auto;
           apply Hn; intros items; discriminate).
    right. step H as J EJ in out1. step H as missing Em in out2.
    exists items, J, out1, missing.
    assert (out2 = out1).
    { apply each_day_facts.each_day_Returned in Em as [Em _];
        [|exact prompts_first_date_valid].
      rewrite fold_note_missing in Em. now injection Em. }
    subst out2. repeat split; auto.
    destruct missing as [|x missing].
    + step H as u Eu. now finish H.
    + step H as u Eu. step H as u' Eu' in out3. now finish H.
Qed.

End validate_prompts_facts.

(** ** The dates of the loop *)

Module days_facts.
Import datetime datetime_facts each_day_facts.

(** With the steps that the validators allow, the loop reaches every
    date from the first to the last. *)
Lemma days_complete last fuel : forall cur d,
  valid cur = true -> valid last = true ->
  days_between cur last <= fuel ->
  valid d = true -> le cur d = true -> le d last = true ->
  d ∈ days fuel cur last.
Proof.
  induction fuel as [|fuel IH]; intros cur d Hc Hl Hfuel Hd H1 H2;
    pose proof (le_trans _ _ _ H1 H2) as Hle;
    pose proof (le_toordinal _ _ Hc Hl Hle) as Hord;
    unfold days_between in Hfuel; [lia|].
  cbn [days]. rewrite Hle.
  destruct (le d cur) eqn:Hdc.
  { rewrite (le_antisym _ _ Hdc H1). left. }
  right.
  destruct (add_one_day_spec cur Hc)
    as [[-> _]|(next & E & Hvn & Hcn & Hne & Hnext)].
  - exfalso. assert (le d (Date 9999 12 31) = true).
    { apply valid_spec in Hd. apply le_spec. cbn.
      pose proof (days_in_month_bounds (year d) (month d) ltac:(lia)). lia. }
    congruence.
  - rewrite E. apply IH; auto.
    + pose proof (toordinal_add_one_day _ _ Hc E).
      unfold days_between. lia.
    + apply Hnext; auto. intros ->. now rewrite le_refl in Hdc.
Qed.

Lemma days_range first last d :
  valid first = true -> valid last = true ->
  d ∈ days (days_between first last) first last
  <-> valid d = true /\ le first d = true /\ le d last = true.
Proof.
  intros Hf Hl. split.
  - now apply days_sound.
  - intros (Hd & H1 & H2). now apply days_complete.
Qed.

(** Two bodies that agree on the dates of the loop give the same run. *)
Lemma each_day_ext {A} (body1 body2 : date -> A -> M console A) last fuel :
  forall cur a out,
  valid cur = true ->
  (forall d a out, valid d = true -> le cur d = true -> le d last = true ->
     body1 d a out = body2 d a out) ->
  each_day fuel body1 cur last a out = each_day fuel body2 cur last a out.
Proof.
  induction fuel as [|fuel IH]; intros cur a out Hc Hb; [reflexivity|].
  cbn [each_day]. destruct (le cur last) eqn:Hle; [|reflexivity].
  unfold bind at 1 3. rewrite (Hb cur a out Hc (le_refl cur) Hle).
  destruct (body2 cur a out) as [[a1| |] out1]; try reflexivity.
  unfold bind, lift.
  destruct (add_one_day_spec cur Hc)
    as [[_ E]|(next & E & Hvn & Hcn & Hne & Hnext)]; rewrite E;
    [reflexivity|].
  apply IH; [exact Hvn|]. intros d a2 out2 Hd H1 H2.
  apply Hb; eauto using le_trans.
Qed.

End days_facts.

(** ** What the two results mean *)

Module validators_facts.
Import py_facts.

Lemma prompt_day_valid p d :
  validate_prompts.prompt_day p = Some d -> datetime.valid d = true.
Proof.
  destruct p as [| | | | |m]; try discriminate. cbn.
  destruct (py.dict_get "Date" m) as [[| | |s| |]|]; try discriminate.
  apply validate_games_json.parse_date_valid.
Qed.

(** The prompts validator answers True exactly when the file holds a
    prompts array in which every date of the range is the date of some
    prompt. *)
Lemma prompts_validate_json_true fs e out b out' :
  validate_prompts.validate_json fs e out = (Returned b, out') ->
  exists end_date,
    datetime.parse_date e = Some end_date
    /\ (b = true <->
        exists data items,
          fs "prompts.json" = Json data
          /\ py.getitem data "prompts" = Returned (JArr items)
          /\ forall d, datetime.valid d = true ->
               datetime.le validate_prompts.first_date d = true ->
               datetime.le d end_date = true ->
               exists p, In p items /\ validate_prompts.prompt_day p = Some d).
Proof.
  intros H.
  apply validate_prompts_facts.prompts_validate_json_Returned in H as (end_date & Ee & H).
  exists end_date. split; [exact Ee|].
  pose proof (validate_games_json.parse_date_valid _ _ Ee) as Hve.
  destruct (fs "prompts.json") as [| | | |data]; try contradiction.
  - destruct H as [-> _]. split; [discriminate|]. intros (? & ? & [=] & _).
  - destruct H as [-> _]. split; [discriminate|]. intros (? & ? & [=] & _).
  - destruct H as [(-> & Hn & _)|(items & J & out1 & missing & Hg & EJ & Em & ->)].
    { split; [discriminate|]. intros (? & items & [= <-] & Hg & _).
      now apply Hn in Hg. }
    apply each_day_facts.each_day_Returned in Em as [Em _];
      [|exact validate_prompts_facts.prompts_first_date_valid].
    rewrite validate_prompts_facts.fold_note_missing in Em.
    injection Em as <-. cbn [app].
    rewrite bool_decide_eq_true, validate_prompts_facts.missing_from_nil.
    split.
    + intros Hall. exists data, items. repeat split; auto.
      intros d Hd H1 H2.
      assert (Hin : d ∈ datetime.days
                      (datetime.days_between validate_prompts.first_date end_date)
                      validate_prompts.first_date end_date).
      { apply days_facts.days_range; auto. }
      apply Hall in Hin.
      apply (validate_prompts_facts.each_prompt_dates _ _ _ _ _ _ _ EJ) in Hin
        as [Hin|(p & d' & Hp & Hd' & Es)]; [now apply not_elem_of_empty in Hin|].
      exists p. split; [exact Hp|].
      apply strftime_facts.strftime_inj in Es; eauto using prompt_day_valid.
      congruence.
    + intros (data' & items' & [= <-] & Hg' & Hall) d Hd.
      rewrite Hg in Hg'. injection Hg' as <-.
      apply days_facts.days_range in Hd as (Hd & H1 & H2); auto.
      destruct (Hall d Hd H1 H2) as (p & Hp & Hpd).
      apply (validate_prompts_facts.each_prompt_dates _ _ _ _ _ _ _ EJ).
      right. eauto.
Qed.

Lemma day_entry_Some data ds entry :
  validate_games.day_entry data ds = Some entry ->
  exists games game,
    py.getitem data "games" = Returned (JObj games)
    /\ py.dict_get ds games = Some game.
Proof.
  destruct data as [| | | | |m]; try discriminate. cbn [validate_games.day_entry].
  destruct (py.dict_get "games" m) as [[| | | | |games]|] eqn:Eg;
    try discriminate.
  destruct (py.dict_get ds games) as [game|] eqn:Ed; [|discriminate].
  intros _. exists games, game. cbn [py.getitem]. now rewrite Eg.
Qed.

(** The body of the games loop looks at the entry of its date only. *)
Lemma check_date_agree data data' games games' ds t out :
  py.getitem data "games" = Returned (JObj games) ->
  py.getitem data' "games" = Returned (JObj games') ->
  py.dict_get ds games = py.dict_get ds games' ->
  validate_games.check_date data ds t out
  = validate_games.check_date data' ds t out.
Proof.
  intros H1 H2 Hd. unfold validate_games.check_date, bind, lift.
  rewrite H1, H2. rewrite !contains_obj. cbn [obind py.getitem].
  rewrite Hd. reflexivity.
Qed.

Lemma getitem_contains data key v :
  py.getitem data key = Returned v -> py.contains key data = Returned true.
Proof.
  intros H. apply getitem_Returned in H as (m & -> & E).
  rewrite contains_obj. rewrite bool_decide_eq_true_2; eauto.
Qed.

(** [validate_json] on a document with a games member is the date loop
    followed by the report. *)
Lemma games_validate_json_loop fs e data end_date out :
  fs "prompts.json" = Json data ->
  datetime.parse_date e = Some end_date ->
  py.contains "games" data = Returned true ->
  validate_games.validate_json fs e out
  = match datetime.each_day
            (datetime.days_between validate_games.first_date end_date)
            (fun d => validate_games.check_date data (datetime.strftime d))
            validate_games.first_date end_date
            (validate_games.Tally ∅ ∅ true) out with
    | (Returned t, out1) =>
        (Returned (validate_games.valid t),
         (out1 ++ [validate_games.report t end_date])%list)
    | (Raised x, out1) => (Raised x, out1)
    | (Diverged, out1) => (Diverged, out1)
    end.
Proof.
  intros Hf Ee Hc. apply validate_games_json.strptime_str in Ee.
  unfold validate_games.validate_json.
  rewrite (bind_Returned _ _ out end_date out) by (unfold lift; now rewrite Ee).
  rewrite (bind_Returned _ _ out validate_games.first_date out)
    by reflexivity.
  rewrite Hf.
  rewrite (bind_Returned _ _ out true out) by (unfold lift; now rewrite Hc).
  cbn [negb]. unfold bind at 1.
  destruct (datetime.each_day _ _ _ _ _ out) as [[t| |] out1]; try reflexivity.
  unfold validate_games.report. now destruct (validate_games.valid t).
Qed.

Lemma games_validate_json_agree fs fs' data data' games games' e end_date out :
  datetime.parse_date e = Some end_date ->
  fs "prompts.json" = Json data -> fs' "prompts.json" = Json data' ->
  py.getitem data "games" = Returned (JObj games) ->
  py.getitem data' "games" = Returned (JObj games') ->
  (forall d, datetime.valid d = true ->
     datetime.le validate_games.first_date d = true ->
     datetime.le d end_date = true ->
     py.dict_get (datetime.strftime d) games
     = py.dict_get (datetime.strftime d) games') ->
  validate_games.validate_json fs e out = validate_games.validate_json fs' e out.
Proof.
  intros Ee Hf Hf' Hg Hg' Hagree.
  rewrite (games_validate_json_loop fs e data end_date out Hf Ee
             (getitem_contains _ _ _ Hg)).
  rewrite (games_validate_json_loop fs' e data' end_date out Hf' Ee
             (getitem_contains _ _ _ Hg')).
  rewrite (days_facts.each_day_ext
             (fun d => validate_games.check_date data (datetime.strftime d))
             (fun d => validate_games.check_date data' (datetime.strftime d)));
    [reflexivity | exact validate_games_json.games_first_date_valid |].
  intros d t out1 Hd H1 H2. eapply check_date_agree; eauto.
Qed.

End validators_facts.

(** ** The validators' contract *)

Module validators_contract.
Import samples.

Lemma games_file_missing fs e end_date out :
  datetime.parse_date e = Some end_date ->
  (fs "prompts.json" = NoSuchFile ->
   validate_games.validate_json fs e out
   = (Returned false, (out ++ [[Lit "Error: File prompts.json not found."]])%list))
  /\ (fs "prompts.json" = NotJson ->
      validate_games.validate_json fs e out
      = (Returned false,
         (out ++ [[Lit "Error: prompts.json is not a valid JSON file."]])%list)).
Proof.
  intros Ee. apply validate_games_json.strptime_str in Ee.
  unfold validate_games.validate_json.
  rewrite (bind_Returned _ _ out end_date out) by (unfold lift; now rewrite Ee).
  rewrite (bind_Returned _ _ out validate_games.first_date out) by reflexivity.
  split; intros ->; reflexivity.
Qed.

Lemma prompts_file_missing fs e end_date out :
  datetime.parse_date e = Some end_date ->
  (fs "prompts.json" = NoSuchFile ->
   validate_prompts.validate_json fs e out
   = (Returned false, (out ++ [[Lit "Error: File prompts.json not found."]])%list))
  /\ (fs "prompts.json" = NotJson ->
      validate_prompts.validate_json fs e out
      = (Returned false,
         (out ++ [[Lit "Error: prompts.json is not a valid JSON file."]])%list)).
Proof.
  intros Ee. apply validate_games_json.strptime_str in Ee.
  unfold validate_prompts.validate_json.
  rewrite (bind_Returned _ _ out end_date out) by (unfold lift; now rewrite Ee).
  rewrite (bind_Returned _ _ out validate_prompts.first_date out) by reflexivity.
  split; intros ->; reflexivity.
Qed.

(** C10: the range of the games validator starts at the hard-coded date
    2025-03-05: when it answers True, the games object has an entry
    for every calendar date from 2025-03-05 to the end date, both
    included; entries for other dates change nothing in the run; the
    prompts validator starts at 2025-03-03 instead. *)
Theorem games_range_starts_2025_03_05
    (fs : filesystem) (e : string) (out : console) :
  (forall out',
     validate_games.validate_json fs e out = (Returned true, out') ->
     exists end_date data,
       datetime.parse_date e = Some end_date
       /\ fs "prompts.json" = Json data
       /\ forall d, datetime.valid d = true ->
            datetime.le (datetime.Date 2025 3 5) d = true ->
            datetime.le d end_date = true ->
            exists games game,
              py.getitem data "games" = Returned (JObj games)
              /\ py.dict_get (datetime.strftime d) games = Some game)
  /\ (forall fs' data data' games games' end_date,
        datetime.parse_date e = Some end_date ->
        fs "prompts.json" = Json data -> fs' "prompts.json" = Json data' ->
        py.getitem data "games" = Returned (JObj games) ->
        py.getitem data' "games" = Returned (JObj games') ->
        (forall d, datetime.valid d = true ->
           datetime.le (datetime.Date 2025 3 5) d = true ->
           datetime.le d end_date = true ->
           py.dict_get (datetime.strftime d) games
           = py.dict_get (datetime.strftime d) games') ->
        validate_games.validate_json fs e out
        = validate_games.validate_json fs' e out)
  /\ (forall out',
        validate_prompts.validate_json fs e out = (Returned true, out') ->
        exists end_date data items,
          datetime.parse_date e = Some end_date
          /\ fs "prompts.json" = Json data
          /\ py.getitem data "prompts" = Returned (JArr items)
          /\ forall d, datetime.valid d = true ->
               datetime.le (datetime.Date 2025 3 3) d = true ->
               datetime.le d end_date = true ->
               exists p, In p items /\ validate_prompts.prompt_day p = Some d).
Proof.
  split; [|split].
  - intros out' H.
    apply validate_games_json.validate_json_true in H as (end_date & Ee & Hb & _).
    destruct (proj1 Hb eq_refl) as (data & Hf & _ & entries & HF & _).
    exists end_date, data. repeat split; auto. intros d Hd H1 H2.
    assert (Hin : d ∈ datetime.days
                    (datetime.days_between validate_games.first_date end_date)
                    validate_games.first_date end_date).
    { apply days_facts.days_range; eauto using validate_games_json.parse_date_valid. }
    apply list_elem_of_lookup in Hin as [i Hi].
    destruct (Forall2_lookup_l _ _ _ _ _ HF Hi) as (entry & _ & Hentry).
    now apply validators_facts.day_entry_Some in Hentry.
  - intros fs' data data' games games' end_date.
    apply validators_facts.games_validate_json_agree.
  - intros out' H.
    apply validators_facts.prompts_validate_json_true in H as (end_date & Ee & Hb).
    destruct (proj1 Hb eq_refl) as (data & items & Hf & Hg & Hall).
    exists end_date, data, items. auto.
Qed.

(** The sample with games for 5 and 6 March passes up to 6 March, and
    an entry for 4 March that is no list of games changes nothing. *)
Lemma games_range_starts_2025_03_05_witness :
  (exists end_date data,
     datetime.parse_date "2025-03-06" = Some end_date
     /\ only (Json two_days) "prompts.json" = Json data
     /\ forall d, datetime.valid d = true ->
          datetime.le (datetime.Date 2025 3 5) d = true ->
          datetime.le d end_date = true ->
          exists games game,
            py.getitem data "games" = Returned (JObj games)
            /\ py.dict_get (datetime.strftime d) games = Some game)
  /\ validate_games.validate_json (only (Json two_days)) "2025-03-06" []
     = validate_games.validate_json (only (Json two_days_and_earlier))
         "2025-03-06" [].
Proof.
  split.
  - apply (proj1 (games_range_starts_2025_03_05 (only (Json two_days))
                    "2025-03-06" [])
             (snd (validate_games.validate_json (only (Json two_days))
                     "2025-03-06" []))).
    vm_compute. reflexivity.
  - vm_compute. reflexivity.
Defined.

(** C4, as the code has it: the games validator clears its flag at
    every failed check and never sets it again, so when it returns it
    answers True exactly when every date of the range has an entry on
    which all checks pass, with solutions and targets all different; the
    prompts validator answers True exactly when every date of the
    range is the date of some prompt, whatever its per-prompt checks
    printed; with an end date that parses, a missing file and a file
    that is not JSON give one error line and False. *)
Theorem validators_results (fs : filesystem) (e : string) (out : console) :
  (forall b out',
     validate_games.validate_json fs e out = (Returned b, out') ->
     exists end_date,
       datetime.parse_date e = Some end_date
       /\ (b = true <->
           exists data,
             fs "prompts.json" = Json data
             /\ py.contains "games" data = Returned true
             /\ validate_games.all_checks_pass data
                  (datetime.days
                     (datetime.days_between validate_games.first_date end_date)
                     validate_games.first_date end_date)))
  /\ (forall b out',
        validate_prompts.validate_json fs e out = (Returned b, out') ->
        exists end_date,
          datetime.parse_date e = Some end_date
          /\ (b = true <->
              exists data items,
                fs "prompts.json" = Json data
                /\ py.getitem data "prompts" = Returned (JArr items)
                /\ forall d, datetime.valid d = true ->
                     datetime.le validate_prompts.first_date d = true ->
                     datetime.le d end_date = true ->
                     exists p, In p items
                               /\ validate_prompts.prompt_day p = Some d))
  /\ (forall end_date first d,
        datetime.parse_date e = Some end_date ->
        datetime.valid first = true ->
        (d ∈ datetime.days (datetime.days_between first end_date) first end_date
         <-> datetime.valid d = true /\ datetime.le first d = true
             /\ datetime.le d end_date = true))
  /\ (forall end_date,
        datetime.parse_date e = Some end_date ->
        (fs "prompts.json" = NoSuchFile ->
         validate_games.validate_json fs e out
         = (Returned false,
            (out ++ [[Lit "Error: File prompts.json not found."]])%list)
         /\ validate_prompts.validate_json fs e out
            = (Returned false,
               (out ++ [[Lit "Error: File prompts.json not found."]])%list))
        /\ (fs "prompts.json" = NotJson ->
            validate_games.validate_json fs e out
            = (Returned false,
               (out ++ [[Lit "Error: prompts.json is not a valid JSON file."]])%list)
            /\ validate_prompts.validate_json fs e out
               = (Returned false,
                  (out ++ [[Lit "Error: prompts.json is not a valid JSON file."]])%list))).
Proof.
  split; [|split; [|split]].
  - intros b out' H.
    apply validate_games_json.validate_json_true in H as (end_date & Ee & Hb & _).
    eauto.
  - intros b out'. apply validators_facts.prompts_validate_json_true.
  - intros end_date first d Ee Hf. apply days_facts.days_range; auto.
    eapply validate_games_json.parse_date_valid; eauto.
  - intros end_date Ee.
    destruct (games_file_missing fs e end_date out Ee) as [G1 G2].
    destruct (prompts_file_missing fs e end_date out Ee) as [P1 P2].
    split; intros Hf; auto.
Qed.

(** The sample with good games passes, on the two dates of its range. *)
Lemma validators_results_witness :
  exists end_date,
    datetime.parse_date "2025-03-06" = Some end_date
    /\ (true = true <->
        exists data,
          only (Json two_days) "prompts.json" = Json data
          /\ py.contains "games" data = Returned true
          /\ validate_games.all_checks_pass data
               (datetime.days
                  (datetime.days_between validate_games.first_date end_date)
                  validate_games.first_date end_date)).
Proof.
  apply (proj1 (validators_results (only (Json two_days)) "2025-03-06" [])
           true
           (snd (validate_games.validate_json (only (Json two_days))
                   "2025-03-06" []))).
  vm_compute. reflexivity.
Defined.

(** C4 does not hold of the prompts validator: all three checks
    answer False on prompts of the range, each printing its line, and
    [validate_json] still answers True. *)
Lemma prompts_result_ignores_checks :
  fst (validate_prompts.check_prompt_format forbidden_prompt []) = Returned false
  /\ fst (validate_prompts.check_youtube_link forbidden_prompt []) = Returned false
  /\ fst (validate_prompts.check_escaped_quotes quoted_prompt []) = Returned false
  /\ fst (validate_prompts.check_youtube_link quoted_prompt []) = Returned false
  /\ fst (validate_prompts.validate_json (only (Json bad_prompts)) "2025-03-04" [])
     = Returned true.
Proof. vm_compute. repeat split; reflexivity. Qed.

(** C7, as the code has it: the command line of each validator has two
    positional arguments, a file path and the end date; [main] runs
    [validate_json] on the end date, which reads the file named
    prompts.json whatever the path argument says, and drops the boolean
    that [validate_json] returns; any other number of plain arguments
    ends in the usage error. *)
Theorem main_takes_file_and_end_date
    (fs : filesystem) (file e : string) (out : console) :
  plain file = true -> plain e = true ->
  validate_games.main fs [file; e] out
  = discard (validate_games.validate_json fs e out)
  /\ validate_prompts.main fs [file; e] out
     = discard (validate_prompts.validate_json fs e out)
  /\ (forall fs',
        fs' "prompts.json" = fs "prompts.json" ->
        validate_games.validate_json fs' e = validate_games.validate_json fs e
        /\ validate_prompts.validate_json fs' e
           = validate_prompts.validate_json fs e)
  /\ (forall argv,
        forallb plain argv = true -> length argv <> 2 ->
        validate_games.main fs argv out = (Raised SystemExit, out)
        /\ validate_prompts.main fs argv out = (Raised SystemExit, out)).
Proof.
  intros Hf He. split; [|split; [|split]].
  - now apply cli_facts.games_main_two.
  - now apply cli_facts.prompts_main_two.
  - intros fs' Hfs. split.
    + now apply cli_facts.games_reads_prompts_json.
    + now apply cli_facts.prompts_reads_prompts_json.
  - intros argv _ Hlen.
    assert (Hp : parse_args argv = Raised SystemExit).
    { destruct argv as [|a [|b [|c argv]]]; try reflexivity.
      now contradiction Hlen. }
    unfold validate_games.main, validate_prompts.main, bind, lift.
    now rewrite Hp.
Qed.

Lemma main_takes_file_and_end_date_witness :
  validate_games.main (only (Json two_days)) ["games.json"; "2025-03-06"] []
  = discard (validate_games.validate_json (only (Json two_days)) "2025-03-06" [])
  /\ validate_prompts.main (only (Json two_days)) ["games.json"; "2025-03-06"] []
     = discard (validate_prompts.validate_json (only (Json two_days))
                  "2025-03-06" []).
Proof.
  destruct (main_takes_file_and_end_date (only (Json two_days))
              "games.json" "2025-03-06" [] eq_refl eq_refl) as (H1 & H2 & _).
  split; [exact H1 | exact H2].
Defined.

(** C7 does not hold as it reads: with the end date as the only argument both
    validators stop at the usage error, and [main] returns nothing, so
    a run that validated and a run that found errors end alike. *)
Lemma single_end_date_argument_rejected :
  validate_games.main (only (Json two_days)) ["2025-03-06"] []
  = (Raised SystemExit, [])
  /\ validate_prompts.main (only (Json good_prompts)) ["2025-03-04"] []
     = (Raised SystemExit, [])
  /\ fst (validate_games.validate_json (only (Json two_days)) "2025-03-06" [])
     = Returned true
  /\ fst (validate_games.validate_json (only (Json two_days)) "2025-03-07" [])
     = Returned false
  /\ fst (validate_games.main (only (Json two_days)) ["f"; "2025-03-06"] [])
     = Returned tt
  /\ fst (validate_games.main (only (Json two_days)) ["f"; "2025-03-07"] [])
     = Returned tt.
Proof. vm_compute. repeat split; reflexivity. Qed.

End validators_contract.

(** ** Computations that return *)

Module returns_facts.

Lemma returns_ret {S A} (a : A) : returns (S:=S) (ret a).
Proof. intros s. now exists a, s. Qed.

Lemma returns_bind {S A B} (m : M S A) (k : A -> M S B) :
  returns m -> (forall a, returns (k a)) -> returns (bind m k).
Proof.
  intros Hm Hk s. destruct (Hm s) as (a & s1 & E).
  destruct (Hk a s1) as (b & s2 & E2). exists b, s2.
  now rewrite (bind_Returned _ _ _ _ _ E).
Qed.

Lemma returns_lift {S A B} (o : outcome A) (k : A -> M S B) a :
  o = Returned a -> returns (k a) -> returns (bind (lift o) k).
Proof.
  intros -> Hk s. destruct (Hk s) as (b & s2 & E2). now exists b, s2.
Qed.

Lemma returns_echo {A} (line : text) (k : unit -> M console A) :
  returns (k tt) -> returns (bind (echo line) k).
Proof.
  intros Hk s. destruct (Hk (s ++ [line])%list) as (b & s2 & E2).
  now exists b, s2.
Qed.

Lemma returns_try {S A} (m : M S A) e (h : M S A) :
  returns m -> returns (try_except m e h).
Proof.
  intros Hm s. destruct (Hm s) as (a & s1 & E). exists a, s1.
  unfold try_except. now rewrite E.
Qed.

End returns_facts.

(** ** validate_games.py on a document of the expected shape *)

Module validate_games_shaped.
Import validate_games py_facts returns_facts validate_games_facts.

Lemma str_or_absent_Some m key v :
  str_or_absent m key = true -> py.dict_get key m = Some v ->
  exists s, v = JStr s.
Proof.
  unfold str_or_absent. intros H E. rewrite E in H.
  destruct v; try discriminate. eauto.
Qed.

Lemma lingo_str_returns s S :
  exists r, is_valid_lingo_solution (JStr s) S = Returned r.
Proof.
  unfold is_valid_lingo_solution. cbn [py.len py.on_str py.in_set obind].
  destruct (negb (String.length s =? 5)); [eauto|].
  destruct (negb (only_letters s)); [eauto|].
  destruct (bool_decide (s ∈ S)); eauto.
Qed.

Lemma target_str_returns s S :
  exists r, is_valid_scryptogram_target (JStr s) S = Returned r.
Proof.
  unfold is_valid_scryptogram_target.
  cbn [py.len py.on_str py.in_set py.contains obind].
  destruct (String.length s <=? 25); [eauto|].
  destruct (List.find _ _); [eauto|].
  destruct (bool_decide (s ∈ S)); [eauto|].
  destruct (py.str_contains escaped_quotes s); eauto.
Qed.

Lemma hint_str_returns s :
  exists r, is_valid_scryptogram_hint (JStr s) = Returned r.
Proof.
  unfold is_valid_scryptogram_hint. cbn [py.len py.contains obind].
  destruct (String.length s <=? 6); [eauto|].
  destruct (negb (py.str_contains ":" s)); eauto.
Qed.

Lemma returns_report {A} (r : bool * option text) ds (bad good : M console A) :
  returns bad -> returns good ->
  returns (if negb (fst r)
           then echo ([Lit "Error on "; Lit ds; Lit ": "] ++ shown (snd r))%list ;;; bad
           else good).
Proof.
  intros Hb Hg. destruct (negb (fst r)); [|exact Hg]. now apply returns_echo.
Qed.

Lemma check_lingo_returns g0 g1 rest ds t :
  shaped_game ["solution"] g0 = true ->
  returns (check_lingo (JArr (g0 :: g1 :: rest)) ds t).
Proof.
  intros Hs. destruct g0 as [| | | | |m0]; try discriminate.
  cbn [shaped_game] in Hs. apply andb_true_iff in Hs as [Hty Hc].
  apply bool_decide_eq_true in Hty as [ty Ety].
  unfold check_lingo.
  eapply returns_lift; [reflexivity|].
  eapply returns_lift; [cbn; now rewrite Ety|].
  destruct (negb (py.eq_str ty "lingo")).
  { apply returns_echo, returns_ret. }
  unfold lingo_config_missing.
  cbn [py.getindex lookup list_lookup obind py.getitem]. rewrite contains_obj.
  cbn [obind].
  destruct (py.dict_get "config" m0) as [c|] eqn:Ec.
  2:{ rewrite bool_decide_eq_false_2 by (intros [? ?]; discriminate).
      eapply returns_lift; [reflexivity|]. apply returns_echo, returns_ret. }
  rewrite bool_decide_eq_true_2 by eauto. cbn [negb obind].
  destruct c as [| | | | |c]; try discriminate.
  rewrite contains_obj. cbn [obind].
  cbn [forallb] in Hc. rewrite andb_true_r in Hc.
  destruct (py.dict_get "solution" c) as [v|] eqn:Ev.
  2:{ rewrite bool_decide_eq_false_2 by (intros [? ?]; discriminate).
      eapply returns_lift; [reflexivity|]. apply returns_echo, returns_ret. }
  rewrite bool_decide_eq_true_2 by eauto. cbn [negb].
  destruct (str_or_absent_Some _ _ _ Hc Ev) as [s ->].
  eapply returns_lift; [reflexivity|].
  eapply returns_lift; [cbn [py.getitem]; now rewrite Ev|].
  destruct (lingo_str_returns s (all_lingo_solutions t)) as [r Er].
  eapply returns_lift; [exact Er|].
  apply returns_report; [apply returns_ret|].
  eapply returns_lift; [reflexivity | apply returns_ret].
Qed.

Lemma check_scryptogram_returns g0 g1 rest ds t :
  shaped_game ["target"; "hint"; "cipher"] g1 = true ->
  returns (check_scryptogram (JArr (g0 :: g1 :: rest)) ds t).
Proof.
  intros Hs. destruct g1 as [| | | | |m1]; try discriminate.
  cbn [shaped_game] in Hs. apply andb_true_iff in Hs as [Hty Hc].
  apply bool_decide_eq_true in Hty as [ty Ety].
  unfold check_scryptogram.
  eapply returns_lift; [reflexivity|].
  eapply returns_lift; [cbn; now rewrite Ety|].
  destruct (negb (py.eq_str ty "scryptogram")).
  { apply returns_echo, returns_ret. }
  unfold scryptogram_config_missing.
  cbn [py.getindex lookup list_lookup obind]. rewrite contains_obj.
  cbn [obind].
  destruct (py.dict_get "config" m1) as [c|] eqn:Ec.
  2:{ rewrite bool_decide_eq_false_2 by (intros [? ?]; discriminate).
      eapply returns_lift; [reflexivity|]. apply returns_echo, returns_ret. }
  rewrite bool_decide_eq_true_2 by eauto. cbn [negb].
  destruct c as [| | | | |c]; try discriminate.
  rewrite (any_key_missing_obj _ _ _ _ _ Ec).
  eapply returns_lift; [reflexivity|].
  cbn [existsb]. rewrite orb_false_r.
  cbn [forallb] in Hc. rewrite andb_true_r in Hc.
  apply andb_true_iff in Hc as [Ht Hc]. apply andb_true_iff in Hc as [Hh Hci].
  destruct (py.dict_get "target" c) as [target|] eqn:Etg.
  2:{ rewrite bool_decide_eq_false_2 by (intros [? ?]; discriminate).
      apply returns_echo, returns_ret. }
  destruct (py.dict_get "hint" c) as [hint|] eqn:Eh.
  2:{ rewrite (bool_decide_eq_false_2 (is_Some None))
        by (intros [? ?]; discriminate).
      cbn [negb orb]. rewrite orb_true_r.
      apply returns_echo, returns_ret. }
  destruct (py.dict_get "cipher" c) as [cipher|] eqn:Eci.
  2:{ rewrite (bool_decide_eq_false_2 (is_Some None))
        by (intros [? ?]; discriminate).
      cbn [negb orb]. rewrite !orb_true_r.
      apply returns_echo, returns_ret. }
  rewrite !bool_decide_eq_true_2 by eauto. cbn [negb orb].
  destruct (str_or_absent_Some _ _ _ Ht Etg) as [stg ->].
  destruct (str_or_absent_Some _ _ _ Hh Eh) as [sh ->].
  destruct (str_or_absent_Some _ _ _ Hci Eci) as [sc ->].
  eapply returns_lift; [cbn; now rewrite Ec|].
  eapply returns_lift; [cbn; now rewrite Etg|].
  destruct (target_str_returns stg (all_scryptogram_targets t)) as [rt Ert].
  eapply returns_lift; [exact Ert|].
  apply returns_bind.
  { apply returns_report; [apply returns_ret|].
    eapply returns_lift; [cbn; now rewrite Etg|].
    eapply returns_lift; [reflexivity | apply returns_ret]. }
  intros t1.
  eapply returns_lift; [cbn; now rewrite Eh|].
  destruct (hint_str_returns sh) as [rh Erh].
  eapply returns_lift; [exact Erh|].
  apply returns_bind.
  { apply returns_report; apply returns_ret. }
  intros t2.
  eapply returns_lift; [cbn; now rewrite Eci|].
  destruct (cipher_facts.cipher_str_returns sc) as [rc Erc].
  eapply returns_lift; [exact Erc|].
  apply returns_report; apply returns_ret.
Qed.

Lemma check_date_returns m games ds t :
  py.dict_get "games" m = Some (JObj games) ->
  forallb (fun entry => shaped_day (snd entry)) games = true ->
  returns (check_date (JObj m) ds t).
Proof.
  intros Eg Hs. unfold check_date.
  eapply returns_lift; [cbn; now rewrite Eg|].
  rewrite contains_obj.
  eapply returns_lift; [reflexivity|].
  destruct (py.dict_get ds games) as [game|] eqn:Ed.
  2:{ rewrite bool_decide_eq_false_2 by (intros [? ?]; discriminate).
      apply returns_echo, returns_ret. }
  rewrite bool_decide_eq_true_2 by eauto. cbn [negb].
  eapply returns_lift; [cbn; rewrite Eg; cbn; now rewrite Ed|].
  assert (Hg : shaped_day game = true).
  { rewrite forallb_forall in Hs.
    apply (Hs (ds, game)), dict_get_In, Ed. }
  destruct game as [| | | |items|]; try discriminate.
  eapply returns_lift; [reflexivity|].
  destruct (length items <? 2) eqn:E2.
  { apply returns_echo, returns_ret. }
  apply Nat.ltb_ge in E2.
  destruct items as [|g0 [|g1 rest]]; cbn [length] in E2; try lia.
  cbn [shaped_day] in Hg. apply andb_true_iff in Hg as [Hg0 Hg1].
  apply returns_bind; [now apply check_lingo_returns|].
  intros t1. now apply check_scryptogram_returns.
Qed.

(** On a document of the expected shape, with an end date that parses
    and is not the last date of the calendar, [validate_json] returns. *)
Lemma games_validate_json_returns fs e end_date data :
  datetime.parse_date e = Some end_date ->
  end_date <> datetime.max_date ->
  fs "prompts.json" = Json data ->
  shaped data = true ->
  returns (validate_json fs e).
Proof.
  intros Ee Hmax Hf Hs. unfold validate_json.
  eapply returns_lift; [apply validate_games_json.strptime_str; exact Ee|].
  eapply returns_lift; [reflexivity|].
  rewrite Hf. destruct data as [| | | | |m]; try discriminate.
  rewrite contains_obj. eapply returns_lift; [reflexivity|].
  cbn [shaped] in Hs.
  destruct (py.dict_get "games" m) as [games|] eqn:Eg.
  2:{ rewrite bool_decide_eq_false_2 by (intros [? ?]; discriminate).
      apply returns_echo, returns_ret. }
  rewrite bool_decide_eq_true_2 by eauto. cbn [negb].
  destruct games as [| | | | |games]; try discriminate.
  apply returns_bind.
  - intros out. apply each_day_facts.each_day_total; auto.
    + eapply validate_games_json.parse_date_valid; eauto.
    + intros d t out1 _. now apply (check_date_returns m games).
  - intros t. destruct (valid t); apply returns_echo, returns_ret.
Qed.

End validate_games_shaped.

(** ** validate_prompts.py on a document of the expected shape *)

Module validate_prompts_shaped.
Import validate_prompts py_facts returns_facts.

Lemma returns_ret_bind {S A B} (a : A) (k : A -> M S B) :
  returns (k a) -> returns (bind (ret a) k).
Proof. intros Hk s. exact (Hk s). Qed.

Lemma check_keys_returns m prompt_date keys :
  returns (check_keys (JObj m) prompt_date keys).
Proof.
  induction keys as [|[key complaint] keys IH]; [apply returns_ret|].
  cbn [check_keys]. rewrite contains_obj.
  eapply returns_lift; [reflexivity|].
  destruct (negb _); [apply returns_echo, returns_ret | exact IH].
Qed.

Section Prompt.
Variables (m : list (string * json)) (date : string).
Hypothesis Hdate : py.dict_get "Date" m = Some (JStr date).
Hypothesis Hprompt : validate_games.str_or_absent m "Prompt" = true.
Hypothesis Hlink : validate_games.str_or_absent m "PromptLink" = true.

Lemma check_prompt_format_returns : returns (check_prompt_format (JObj m)).
Proof.
  unfold check_prompt_format. rewrite contains_obj.
  eapply returns_lift; [reflexivity|].
  destruct (py.dict_get "Prompt" m) as [v|] eqn:Ev.
  2:{ rewrite bool_decide_eq_false_2 by (intros [? ?]; discriminate).
      apply returns_ret. }
  rewrite bool_decide_eq_true_2 by eauto. cbn [negb].
  destruct (validate_games_shaped.str_or_absent_Some _ _ _ Hprompt Ev)
    as [s ->].
  eapply returns_lift; [cbn; now rewrite Ev|].
  eapply returns_lift; [cbn; now rewrite Hdate|].
  eapply returns_lift; [reflexivity|].
  destruct (prompt_for_date s); [apply returns_echo, returns_ret|].
  apply check_keys_returns.
Qed.

Lemma check_youtube_link_returns : returns (check_youtube_link (JObj m)).
Proof.
  unfold check_youtube_link. rewrite !contains_obj.
  eapply returns_lift; [reflexivity|].
  rewrite bool_decide_eq_true_2 by eauto. cbn [negb].
  eapply returns_lift; [cbn; now rewrite Hdate|].
  eapply returns_lift; [reflexivity|].
  destruct (py.dict_get "PromptLink" m) as [v|] eqn:Ev.
  2:{ rewrite bool_decide_eq_false_2 by (intros [? ?]; discriminate).
      apply returns_echo, returns_ret. }
  rewrite bool_decide_eq_true_2 by eauto. cbn [negb].
  destruct (validate_games_shaped.str_or_absent_Some _ _ _ Hlink Ev)
    as [s ->].
  eapply returns_lift; [cbn; now rewrite Ev|].
  assert (Hfound : exists found,
            any_pattern youtube_patterns (JStr s) = Returned found).
  { unfold youtube_patterns. cbn [any_pattern py.on_str obind].
    destruct (search _ s); [eauto|].
    destruct (search _ s); eauto. }
  destruct Hfound as [found Hfound].
  eapply returns_lift; [exact Hfound|].
  destruct found; [apply returns_ret | apply returns_echo, returns_ret].
Qed.

Lemma check_escaped_quotes_returns : returns (check_escaped_quotes (JObj m)).
Proof.
  unfold check_escaped_quotes. rewrite !contains_obj.
  eapply returns_lift; [reflexivity|].
  destruct (py.dict_get "Prompt" m) as [v|] eqn:Ev.
  2:{ rewrite bool_decide_eq_false_2 by (intros [? ?]; discriminate).
      cbn [negb]. apply returns_ret_bind. apply returns_ret. }
  rewrite bool_decide_eq_true_2 by eauto. cbn [negb].
  eapply returns_lift; [reflexivity|].
  rewrite bool_decide_eq_true_2 by eauto. cbn [negb].
  destruct (validate_games_shaped.str_or_absent_Some _ _ _ Hprompt Ev)
    as [s ->].
  eapply returns_lift; [cbn; now rewrite Ev|].
  eapply returns_lift; [cbn; now rewrite Hdate|].
  eapply returns_lift; [reflexivity|].
  destruct (py.str_contains two_quotes s);
    [apply returns_echo, returns_ret | apply returns_ret].
Qed.

End Prompt.

Lemma returns_step {S A B} (m : M S A) (k : A -> M S B) a :
  (forall s, m s = (Returned a, s)) -> returns (k a) -> returns (bind m k).
Proof.
  intros Hm Hk s. destruct (Hk s) as (b & s2 & E2). exists b, s2.
  now rewrite (bind_Returned _ _ _ _ _ (Hm s)).
Qed.

Lemma each_prompt_returns first last items : forall J,
  forallb shaped_prompt items = true ->
  returns (each_prompt items first last J).
Proof.
  induction items as [|p items IH]; intros J Hs; [apply returns_ret|].
  cbn [forallb] in Hs. apply andb_true_iff in Hs as [Hp Hs].
  destruct p as [| | | | |m]; try discriminate.
  cbn [shaped_prompt forallb] in Hp. rewrite andb_true_r in Hp.
  apply andb_true_iff in Hp as [Hdate Hp].
  apply andb_true_iff in Hp as [Hprompt Hlink].
  cbn [each_prompt]. rewrite contains_obj.
  eapply returns_lift; [reflexivity|].
  destruct (py.dict_get "Date" m) as [v|] eqn:Ev.
  2:{ rewrite bool_decide_eq_false_2 by (intros [? ?]; discriminate).
      now apply IH. }
  rewrite bool_decide_eq_true_2 by eauto.
  destruct (validate_games_shaped.str_or_absent_Some _ _ _ Hdate Ev) as [s ->].
  apply (returns_step _ _ (datetime.parse_date s)).
  { intros out. unfold try_except, bind, lift. cbn [py.getitem].
    rewrite Ev. cbn [obind datetime.strptime].
    now destruct (datetime.parse_date s). }
  destruct (datetime.parse_date s) as [d|]; [|now apply IH].
  apply returns_bind; [|intros _; now apply IH].
  destruct (_ && _); [|apply returns_ret].
  apply returns_try.
  apply returns_bind; [now apply (check_prompt_format_returns m s)|].
  intros _.
  apply returns_bind; [now apply (check_youtube_link_returns m s)|].
  intros _.
  apply returns_bind; [now apply (check_escaped_quotes_returns m s)|].
  intros _. apply returns_ret.
Qed.

Lemma list_dates_returns missing : returns (list_dates missing).
Proof.
  induction missing as [|d missing IH]; [apply returns_ret|].
  cbn [list_dates]. now apply returns_echo.
Qed.

(** On a document of the expected shape, with an end date that parses
    and is not the last date of the calendar, [validate_json] returns. *)
Lemma prompts_validate_json_returns fs e end_date data :
  datetime.parse_date e = Some end_date ->
  end_date <> datetime.max_date ->
  fs "prompts.json" = Json data ->
  shaped data = true ->
  returns (validate_json fs e).
Proof.
  intros Ee Hmax Hf Hs. unfold validate_json.
  eapply returns_lift; [apply validate_games_json.strptime_str; exact Ee|].
  eapply returns_lift; [reflexivity|].
  rewrite Hf. destruct data as [| | | | |m]; try discriminate.
  rewrite contains_obj. eapply returns_lift; [reflexivity|].
  cbn [shaped] in Hs.
  destruct (py.dict_get "prompts" m) as [prompts|] eqn:Eg.
  2:{ rewrite bool_decide_eq_false_2 by (intros [? ?]; discriminate).
      cbn [negb]. apply returns_ret_bind, returns_echo, returns_ret. }
  rewrite bool_decide_eq_true_2 by eauto. cbn [negb].
  eapply returns_lift; [cbn; now rewrite Eg|].
  destruct prompts as [| | | |items|]; try apply returns_echo, returns_ret.
  apply returns_bind; [now apply each_prompt_returns|]. intros J.
  apply returns_bind.
  - intros out. apply each_day_facts.each_day_total; auto.
    + eapply validate_games_json.parse_date_valid; eauto.
    + intros d missing out1 _. unfold note_missing.
      destruct (bool_decide _); eexists _, _; reflexivity.
  - intros [|x missing]; [apply returns_echo, returns_ret|].
    apply returns_echo. apply returns_bind; [apply list_dates_returns|].
    intros _. apply returns_ret.
Qed.

End validate_prompts_shaped.

(** ** Exceptions that reach the caller *)

Module validators_exceptions.
Import samples.

(** With 9999-12-31 as the end date the loop cannot return: the
    increment past the last date of the calendar raises. *)
Lemma each_day_to_max_date {A} (body : datetime.date -> A -> M console A) fuel :
  forall cur a out a' out',
  datetime.valid cur = true ->
  datetime.each_day fuel body cur datetime.max_date a out <> (Returned a', out').
Proof.
  induction fuel as [|fuel IH]; intros cur a out a' out' Hc;
    cbn [datetime.each_day];
    assert (Hle : datetime.le cur datetime.max_date = true)
      by (apply datetime_facts.valid_spec in Hc;
          apply datetime_facts.le_spec; unfold datetime.max_date; cbn;
          pose proof (datetime_facts.days_in_month_bounds
                        (datetime.year cur) (datetime.month cur) ltac:(lia));
          lia);
    rewrite Hle; [discriminate|].
  unfold bind at 1.
  destruct (body cur a out) as [[a1| |] out1]; try discriminate.
  unfold bind, lift.
  destruct (datetime_facts.add_one_day_spec cur Hc)
    as [[_ E]|(next & E & Hvn & _)]; rewrite E; [discriminate|].
  now apply IH.
Qed.

(** C3, as the code has it: when the end date parses (to a date before
    9999-12-31) and the document has the shape the code is written
    for, [validate_json] of either validator returns a boolean and
    raises nothing; a missing file and a file that is not JSON give
    False. *)
Theorem validate_json_returns_on_expected_shape
    (fs : filesystem) (e : string) (end_date : datetime.date) (out : console) :
  datetime.parse_date e = Some end_date ->
  end_date <> datetime.Date 9999 12 31 ->
  (forall data,
     fs "prompts.json" = Json data -> validate_games.shaped data = true ->
     exists b out', validate_games.validate_json fs e out = (Returned b, out'))
  /\ (forall data,
        fs "prompts.json" = Json data -> validate_prompts.shaped data = true ->
        exists b out',
          validate_prompts.validate_json fs e out = (Returned b, out'))
  /\ (fs "prompts.json" = NoSuchFile \/ fs "prompts.json" = NotJson ->
      exists out',
        validate_games.validate_json fs e out = (Returned false, out')
        /\ validate_prompts.validate_json fs e out = (Returned false, out')).
Proof.
  intros Ee Hmax. split; [|split].
  - intros data Hf Hs.
    exact (validate_games_shaped.games_validate_json_returns fs e end_date data
             Ee Hmax Hf Hs out).
  - intros data Hf Hs.
    exact (validate_prompts_shaped.prompts_validate_json_returns fs e end_date data
             Ee Hmax Hf Hs out).
  - destruct (validators_contract.games_file_missing fs e end_date out Ee)
      as [G1 G2].
    destruct (validators_contract.prompts_file_missing fs e end_date out Ee)
      as [P1 P2].
    intros [Hf|Hf]; eexists; split; eauto.
Qed.

Lemma validate_json_returns_on_expected_shape_witness :
  (exists b out',
     validate_games.validate_json (only (Json two_days)) "2025-03-06" []
     = (Returned b, out'))
  /\ (exists b out',
        validate_prompts.validate_json (only (Json good_prompts)) "2025-03-04" []
        = (Returned b, out')).
Proof.
  split.
  - apply (proj1 (validate_json_returns_on_expected_shape
                    (only (Json two_days)) "2025-03-06"
                    (datetime.Date 2025 3 6) [] eq_refl ltac:(discriminate))
             two_days eq_refl).
    vm_compute. reflexivity.
  - apply (proj1 (proj2 (validate_json_returns_on_expected_shape
                    (only (Json good_prompts)) "2025-03-04"
                    (datetime.Date 2025 3 4) [] eq_refl ltac:(discriminate)))
             good_prompts eq_refl).
    vm_compute. reflexivity.
Defined.

(** C3 does not hold as it reads: an end date that does not parse, a first game
    without a type member, games or prompts that are numbers and the
    end date 9999-12-31 all end in an exception that reaches the
    caller. *)
Lemma validate_json_raises :
  validate_games.validate_json (only (Json two_days)) "tomorrow" []
  = (Raised ValueError, [])
  /\ validate_prompts.validate_json (only (Json good_prompts)) "tomorrow" []
     = (Raised ValueError, [])
  /\ validate_games.validate_json (only (Json no_type)) "2025-03-05" []
     = (Raised KeyError, [])
  /\ validate_games.validate_json (only (Json number_games)) "2025-03-05" []
     = (Raised TypeError, [])
  /\ validate_prompts.validate_json (only (Json number_prompts)) "2025-03-03" []
     = (Raised TypeError, [])
  /\ (forall b out',
        validate_games.validate_json (only (Json two_days)) "9999-12-31" []
        <> (Returned b, out')).
Proof.
  do 5 (split; [vm_compute; reflexivity|]).
  intros b out' H.
  apply validate_games_json.games_validate_json_Returned in H as (end_date & Ee & H).
  assert (end_date = datetime.max_date) as ->
    by (vm_compute in Ee; now injection Ee).
  change (only (Json two_days) "prompts.json") with (Json two_days) in H.
  destruct H as [(Hc & _)|(_ & t & out1 & line & El & _)]; [discriminate|].
  eapply each_day_to_max_date; [|exact El]. reflexivity.
Qed.

End validators_exceptions.

(** ** The validators always return or raise *)

Module halting_facts.
Import py_facts.

Lemma halts_ret {S A} (a : A) : halts (S:=S) (ret a).
Proof. intros s. discriminate. Qed.

Lemma halts_raise {S A} e : halts (S:=S) (A:=A) (raise e).
Proof. intros s. discriminate. Qed.

Lemma halts_bind {S A B} (m : M S A) (k : A -> M S B) :
  halts m -> (forall a, halts (k a)) -> halts (bind m k).
Proof.
  intros Hm Hk s. unfold bind. specialize (Hm s).
  destruct (m s) as [[a| |] s1]; cbn [fst] in *;
    [apply Hk | discriminate | contradiction].
Qed.

Lemma halts_lift {S A} (o : outcome A) : o <> Diverged -> halts (S:=S) (lift o).
Proof. intros Ho s. exact Ho. Qed.

Lemma halts_echo line : halts (echo line).
Proof. intros s. discriminate. Qed.

Lemma halts_try {S A} (m : M S A) e (h : M S A) :
  halts m -> halts h -> halts (try_except m e h).
Proof.
  intros Hm Hh s. unfold try_except. specialize (Hm s).
  destruct (m s) as [[a| |] s1]; cbn [fst] in *;
    [discriminate | | contradiction].
  destruct (bool_decide _); [apply Hh | discriminate].
Qed.

Lemma obind_halts {A B} (o : outcome A) (k : A -> outcome B) :
  o <> Diverged -> (forall a, k a <> Diverged) -> obind o k <> Diverged.
Proof. intros Ho Hk. destruct o; cbn; [apply Hk | discriminate | contradiction]. Qed.

(** The operations on values return or raise. *)
Lemma contains_halts k v : py.contains k v <> Diverged.
Proof. destruct v; discriminate. Qed.

Lemma getitem_halts v k : py.getitem v k <> Diverged.
Proof. destruct v; try discriminate. cbn. destruct (py.dict_get k members); discriminate. Qed.

Lemma getindex_halts v i : py.getindex v i <> Diverged.
Proof.
  destruct v; try discriminate; cbn.
  - destruct (String.get i s); discriminate.
  - destruct (items !! i); discriminate.
Qed.

Lemma len_halts v : py.len v <> Diverged.
Proof. destruct v; discriminate. Qed.

Lemma in_set_halts v S : py.in_set v S <> Diverged.
Proof. destruct v; discriminate. Qed.

Lemma isupper_halts v : py.isupper v <> Diverged.
Proof. destruct v; discriminate. Qed.

Lemma on_str_halts {A} (f : string -> A) v : py.on_str f v <> Diverged.
Proof. destruct v; discriminate. Qed.

Lemma str_index_halts s i : py.str_index s i <> Diverged.
Proof. unfold py.str_index. destruct (String.get i s); discriminate. Qed.

Lemma strptime_halts v : datetime.strptime v <> Diverged.
Proof.
  destruct v; try discriminate. cbn. destruct (datetime.parse_date s); discriminate.
Qed.

Lemma set_add_halts v S : validate_games.set_add v S <> Diverged.
Proof. destruct v; discriminate. Qed.

Lemma parse_args_halts argv : parse_args argv <> Diverged.
Proof.
  destruct argv as [|a [|b [|c argv]]]; try discriminate.
  unfold parse_args. destruct (plain a && plain b); discriminate.
Qed.

Create HintDb halting.

#[local] Hint Resolve contains_halts getitem_halts getindex_halts len_halts
  in_set_halts isupper_halts on_str_halts str_index_halts strptime_halts
  set_add_halts parse_args_halts : halting.

(** Closes a goal [o <> Diverged] or [halts m] on straight-line code. *)
Ltac halting :=
  repeat first
    [ apply halts_ret | apply halts_raise | apply halts_echo
    | apply halts_lift
    | apply halts_bind; [|intros ?]
    | apply obind_halts; [|intros ?]
    | solve [auto with halting]
    | discriminate
    | match goal with
      | |- halts (if ?b then _ else _) => destruct b
      | |- (if ?b then _ else _) <> Diverged => destruct b
      | |- halts (match ?o with Some _ => _ | None => _ end) => destruct o
      | |- match ?o with Some _ => _ | None => _ end <> Diverged => destruct o
      end ].

Lemma is_valid_lingo_solution_halts v S :
  validate_games.is_valid_lingo_solution v S <> Diverged.
Proof. unfold validate_games.is_valid_lingo_solution. halting. Qed.

Lemma is_valid_scryptogram_target_halts v S :
  validate_games.is_valid_scryptogram_target v S <> Diverged.
Proof. unfold validate_games.is_valid_scryptogram_target. halting. Qed.

Lemma is_valid_scryptogram_hint_halts v :
  validate_games.is_valid_scryptogram_hint v <> Diverged.
Proof. unfold validate_games.is_valid_scryptogram_hint. halting. Qed.

Lemma original_position_halts v range :
  validate_games.original_position v range <> Diverged.
Proof.
  induction range as [|i range IH]; [discriminate|].
  cbn [validate_games.original_position]. halting.
Qed.

Lemma is_valid_scryptogram_cipher_halts v :
  validate_games.is_valid_scryptogram_cipher v <> Diverged.
Proof.
  unfold validate_games.is_valid_scryptogram_cipher.
  pose proof (original_position_halts v (seq 0 26)). halting.
Qed.

Lemma any_key_missing_halts game keys :
  validate_games.any_key_missing game keys <> Diverged.
Proof.
  induction keys as [|k keys IH]; [discriminate|].
  cbn [validate_games.any_key_missing]. halting.
Qed.

#[local] Hint Resolve is_valid_lingo_solution_halts
  is_valid_scryptogram_target_halts is_valid_scryptogram_hint_halts
  is_valid_scryptogram_cipher_halts any_key_missing_halts : halting.

Lemma check_date_halts data ds t : halts (validate_games.check_date data ds t).
Proof.
  unfold validate_games.check_date, validate_games.check_lingo,
    validate_games.check_scryptogram, validate_games.lingo_config_missing,
    validate_games.scryptogram_config_missing.
  halting.
Qed.


Lemma each_day_halts {A} (body : datetime.date -> A -> M console A)
    first last a :
  datetime.valid first = true -> datetime.valid last = true ->
  (forall d a, halts (body d a)) ->
  halts (datetime.each_day (datetime.days_between first last) body first last a).
Proof.
  intros Hf Hl Hb out E.
  destruct (datetime.each_day _ body first last a out) as [r out'] eqn:El.
  cbn [fst] in E. subst r.
  apply each_day_facts.each_day_enough in El as (d & a1 & out1 & out2 & Ed);
    auto.
  apply (Hb d a1 out1). now rewrite Ed.
Qed.

Lemma halts_lift_bind {S A B} (o : outcome A) (k : A -> M S B) :
  o <> Diverged -> (forall a, o = Returned a -> halts (k a)) ->
  halts (bind (lift o) k).
Proof.
  intros Ho Hk s. unfold bind, lift.
  destruct o as [a| |]; cbn [fst]; [now apply Hk | discriminate | contradiction].
Qed.

(** The games validator returns or raises, whatever the file and the
    end date. *)
Lemma games_validate_json_halts fs e : halts (validate_games.validate_json fs e).
Proof.
  unfold validate_games.validate_json.
  apply halts_lift_bind; [halting|]. intros end_date Ee.
  apply validate_games_json.strptime_str in Ee.
  apply halts_lift_bind; [halting|]. intros start Es.
  rewrite validate_games_json.games_first_date_parsed in Es. injection Es as <-.
  destruct (fs "prompts.json"); halting.
  apply each_day_halts;
    eauto using validate_games_json.parse_date_valid, check_date_halts.
Qed.

Lemma check_keys_halts prompt_obj prompt_date keys :
  halts (validate_prompts.check_keys prompt_obj prompt_date keys).
Proof.
  induction keys as [|[key complaint] keys IH]; [apply halts_ret|].
  cbn [validate_prompts.check_keys]. halting.
Qed.

Lemma any_pattern_halts patterns v :
  validate_prompts.any_pattern patterns v <> Diverged.
Proof.
  induction patterns as [|p patterns IH]; [discriminate|].
  cbn [validate_prompts.any_pattern]. halting.
Qed.

#[local] Hint Resolve any_pattern_halts : halting.

Lemma each_prompt_halts first last items : forall J,
  halts (validate_prompts.each_prompt items first last J).
Proof.
  induction items as [|p items IH]; intros J; [apply halts_ret|].
  cbn [validate_prompts.each_prompt].
  apply halts_bind; [halting|]. intros [|]; [|apply IH].
  apply halts_bind.
  { apply halts_try; halting. }
  intros [d|]; [|apply IH].
  apply halts_bind; [|intros _; apply IH].
  destruct (_ && _); [|apply halts_ret].
  apply halts_try; [|apply halts_ret].
  unfold validate_prompts.check_prompt_format,
    validate_prompts.check_youtube_link, validate_prompts.check_escaped_quotes.
  pose proof check_keys_halts. halting; auto.
Qed.

Lemma list_dates_halts missing : halts (validate_prompts.list_dates missing).
Proof.
  induction missing as [|d missing IH]; [apply halts_ret|].
  cbn [validate_prompts.list_dates]. halting.
Qed.

(** So does the prompts validator. *)
Lemma prompts_validate_json_halts fs e :
  halts (validate_prompts.validate_json fs e).
Proof.
  unfold validate_prompts.validate_json.
  apply halts_lift_bind; [halting|]. intros end_date Ee.
  apply validate_games_json.strptime_str in Ee.
  apply halts_lift_bind; [halting|]. intros start Es.
  rewrite validate_prompts_facts.prompts_first_date_parsed in Es.
  injection Es as <-.
  destruct (fs "prompts.json"); halting.
  destruct a0; halting.
  - apply each_prompt_halts.
  - apply each_day_halts;
      [reflexivity | eapply validate_games_json.parse_date_valid; eauto |].
    intros d missing. unfold validate_prompts.note_missing. halting.
  - apply list_dates_halts.
Qed.

End halting_facts.

(** ** Texts *)

Module string_facts.
Import patterns.

Lemma append_cons c s t : String c s ++ t = String c (s ++ t).
Proof. reflexivity. Qed.

Lemma prefix_spec needle : forall hay,
  String.prefix needle hay = true <-> exists after, hay = needle ++ after.
Proof.
  induction needle as [|a needle IH]; intros hay.
  - split; [|now destruct hay]. intros _. now exists hay.
  - destruct hay as [|b hay]; cbn [String.prefix]; setoid_rewrite append_cons.
    + split; [discriminate | intros [after [=]]].
    + destruct (ascii_dec a b) as [->|Hne].
      * rewrite IH. split; intros [after E]; exists after; congruence.
      * split; [discriminate | intros [after [= E _]]; congruence].
Qed.

Lemma str_contains_occurs needle hay :
  py.str_contains needle hay = true <-> occurs needle hay.
Proof.
  induction hay as [|c hay IH].
  - cbn [py.str_contains]. rewrite orb_false_r, prefix_spec. split.
    + intros [after E]. now exists "", after.
    + intros (before & after & E). destruct before; [now exists after|].
      discriminate.
  - cbn [py.str_contains]. rewrite orb_true_iff, prefix_spec, IH. split.
    + intros [[after E]|(before & after & E)].
      * now exists "", after.
      * exists (String c before), after. rewrite append_cons. now rewrite E.
    + intros (before & after & E). destruct before as [|b before].
      * left. now exists after.
      * right. rewrite append_cons in E. injection E as _ E.
        now exists before, after.
Qed.

Lemma list_ascii_app s t :
  list_ascii_of_string (s ++ t)
  = (list_ascii_of_string s ++ list_ascii_of_string t)%list.
Proof.
  induction s as [|c s IH]; [reflexivity|].
  rewrite append_cons. cbn [list_ascii_of_string app]. congruence.
Qed.

Lemma length_list_ascii s : length (list_ascii_of_string s) = String.length s.
Proof. induction s; simpl; congruence. Qed.

Lemma list_ascii_inj s t :
  list_ascii_of_string s = list_ascii_of_string t -> s = t.
Proof.
  intros E. apply (f_equal string_of_list_ascii) in E.
  now rewrite !string_of_list_ascii_of_string in E.
Qed.

(** What [drop_while] leaves: the text is a run of characters of the
    class followed by the rest, which does not begin with one. *)
Lemma drop_while_spec p cs :
  exists run, cs = (run ++ py.drop_while p cs)%list /\ Forall (fun c => p c = true) run
    /\ match py.drop_while p cs with
       | [] => True
       | c :: _ => p c = false
       end.
Proof.
  induction cs as [|c cs (run & E & Hrun & Hrest)]; [now exists []|].
  cbn [py.drop_while]. destruct (p c) eqn:Hc.
  - exists (c :: run). cbn [app]. split; [congruence|]. split; [|exact Hrest].
    now constructor.
  - exists []. auto.
Qed.

Lemma drop_while_all p run rest :
  Forall (fun c => p c = true) run ->
  match rest with [] => True | c :: _ => p c = false end ->
  py.drop_while p (run ++ rest) = rest.
Proof.
  intros Hrun Hrest. induction Hrun as [|c run Hc _ IH]; cbn [app py.drop_while].
  - destruct rest as [|c rest]; [reflexivity|]. cbn [py.drop_while]. now rewrite Hrest.
  - now rewrite Hc.
Qed.

End string_facts.

Module lingo_facts.
Import validate_games patterns string_facts.

Lemma newline_not_letter : py.is_ascii_letter "010"%char = false.
Proof. reflexivity. Qed.

(** [^[a-zA-Z]+$] matches a text of letters, one at least, that a single
    newline may follow. *)
Lemma only_letters_spec s :
  only_letters s = true <->
  exists w, w <> "" /\ letters w /\ (s = w \/ s = w ++ newline).
Proof.
  unfold only_letters, letters.
  destruct (drop_while_spec py.is_ascii_letter (list_ascii_of_string s))
    as (run & E & Hrun & Hrest).
  split.
  - intros H. apply andb_true_iff in H as [Hlen Hend].
    apply negb_true_iff, Nat.eqb_neq in Hlen.
    exists (string_of_list_ascii run).
    rewrite list_ascii_of_string_of_list_ascii.
    split; [|split; [exact Hrun|]].
    + intros Hw. destruct run; [|discriminate]. cbn [app] in E.
      now rewrite <- E in Hlen.
    + destruct (py.drop_while _ _) as [|c [|c' rest]]; try discriminate.
      * left. rewrite app_nil_r in E. rewrite <- E.
        now rewrite string_of_list_ascii_of_string.
      * right. cbn [py.at_dollar] in Hend. apply Ascii.eqb_eq in Hend. subst c.
        apply list_ascii_inj. rewrite list_ascii_app.
        now rewrite list_ascii_of_string_of_list_ascii.
  - intros (w & Hw & Hletters & [->| ->]).
    + pose proof (drop_while_all py.is_ascii_letter _ [] Hletters I) as Hd.
      rewrite app_nil_r in Hd. rewrite Hd. cbn [py.at_dollar length].
      rewrite andb_true_r. apply negb_true_iff, Nat.eqb_neq.
      destruct w; [contradiction | discriminate].
    + rewrite list_ascii_app.
      rewrite (drop_while_all py.is_ascii_letter _ (list_ascii_of_string newline))
        by (auto; reflexivity).
      cbn [list_ascii_of_string newline py.at_dollar].
      rewrite Ascii.eqb_refl, andb_true_r. apply negb_true_iff, Nat.eqb_neq.
      rewrite length_app. cbn [length]. destruct w; [contradiction|]. cbn. lia.
Qed.

End lingo_facts.

(** ** validate_games.py: what the four checks accept *)

Module target_facts.
Import validate_games patterns string_facts.

Lemma word_run_all n cs : Forall (fun c => py.is_word_char c = true) cs -> word_run n cs <-> n <= length cs.
Proof.
  intros Hcs. split.
  - intros (before & run & after & -> & <- & _). rewrite !length_app. lia.
  - intros Hn. exists [], (take n cs), (drop n cs). cbn [app].
    rewrite take_drop. split; [reflexivity|]. split.
    + rewrite length_take. lia.
    + now apply Forall_take.
Qed.

Lemma word_run_split n xs c ys :
  0 < n -> py.is_word_char c = false ->
  word_run n (xs ++ c :: ys) <-> word_run n xs \/ word_run n ys.
Proof.
  intros Hn Hc. split.
  - intros (before & run & after & E & Hlen & Hrun).
    assert (Hnc : c ∉ run).
    { intros Hin. rewrite Forall_forall in Hrun. apply Hrun in Hin. congruence. }
    symmetry in E. apply app_eq_app in E as [l [[-> E]|[-> E]]].
    + destruct l as [|c' l]; cbn [app] in E.
      * destruct run as [|c' run]; [cbn in Hlen; lia|].
        cbn [app] in E. injection E as <- _. exfalso. apply Hnc. left.
      * injection E as _ ->. right. now exists l, run, after.
    + apply app_eq_app in E as [l' [[-> E]|[-> E]]].
      * destruct l' as [|c' l']; cbn [app] in E.
        -- rewrite app_nil_r in *. left. exists before, l, [].
           rewrite app_nil_r. auto.
        -- injection E as <- _. exfalso. apply Hnc.
           apply elem_of_app. right. left.
      * left. exists before, run, l'. auto.
  - intros [(before & run & after & -> & Hlen & Hrun)
           |(before & run & after & -> & Hlen & Hrun)].
    + exists before, run, (after ++ c :: ys)%list. rewrite <- !app_assoc. auto.
    + exists (xs ++ c :: before)%list, run, after.
      rewrite <- !app_assoc. cbn [app]. auto.
Qed.

Lemma length_string_of_list (cs : list ascii) :
  String.length (string_of_list_ascii cs) = length cs.
Proof. induction cs; simpl; congruence. Qed.

(** [re.findall(r'\w+', s)] holds a word of [n] characters or more exactly
    when [n] word characters stand in a row in [s]. *)
Lemma word_runs_spec n : 0 < n -> forall cs run,
  Forall (fun c => py.is_word_char c = true) run ->
  existsb (fun w => n <=? String.length w) (py.word_runs cs run) = true
  <-> word_run n (rev run ++ cs).
Proof.
  intros Hn. induction cs as [|c cs IH]; intros run Hrun.
  - rewrite app_nil_r, word_run_all by now apply Forall_rev.
    rewrite length_rev. cbn [py.word_runs]. destruct run as [|a run].
    + cbn. split; [discriminate | lia].
    + cbn [existsb]. rewrite orb_false_r, length_string_of_list, length_rev.
      apply Nat.leb_le.
  - cbn [py.word_runs]. destruct (py.is_word_char c) eqn:Hc.
    + rewrite IH by now constructor. cbn [rev]. now rewrite <- app_assoc.
    + rewrite word_run_split by assumption.
      rewrite word_run_all by now apply Forall_rev. rewrite length_rev.
      destruct run as [|a run].
      * rewrite (IH [] ltac:(constructor)). cbn. intuition lia.
      * cbn [existsb]. rewrite orb_true_iff, (IH [] ltac:(constructor)).
        rewrite length_string_of_list, length_rev, Nat.leb_le. cbn [rev app].
        tauto.
Qed.

Lemma long_word_spec s :
  List.find (fun word => 12 <? String.length word) (py.findall_words s) = None
  <-> ~ word_run 13 (list_ascii_of_string s).
Proof.
  rewrite <- (word_runs_spec 13 ltac:(lia) (list_ascii_of_string s) [])
    by constructor.
  fold (py.findall_words s). split.
  - intros Hf Hex. apply existsb_exists in Hex as (w & Hin & Hw).
    pose proof (find_none _ _ Hf w Hin) as Hn. cbn beta in Hn.
    unfold Nat.ltb in Hn. congruence.
  - intros Hex. destruct (List.find _ _) as [w|] eqn:Hf; [|reflexivity].
    exfalso. apply Hex. apply find_some in Hf as [Hin Hw].
    apply existsb_exists. eauto.
Qed.

End target_facts.

Module checks_contract.
Import validate_games patterns string_facts lingo_facts target_facts.

(** The lingo check answers (True, None) exactly on a string of five
    characters that is not yet in the set and is five letters of a-z and
    A-Z, or four such letters and a newline, which the [$] of the
    pattern lets pass; a value that is not a string is never accepted. *)
Theorem lingo_solution_accepted (v : json) (S : gset string) :
  is_valid_lingo_solution v S = Returned (true, None) <->
  exists s w, v = JStr s /\ String.length s = 5 /\ (s ∉ S)
    /\ letters w /\ (s = w \/ s = w ++ newline).
Proof.
  split.
  - destruct v as [| | |s|items|members];
      try discriminate;
      unfold is_valid_lingo_solution; cbn [py.len py.on_str py.in_set obind].
    + destruct (Nat.eqb_spec (String.length s) 5) as [Hlen|]; [|discriminate].
      cbn [negb]. destruct (only_letters s) eqn:Hs; [|discriminate].
      cbn [negb]. destruct (bool_decide_reflect (s ∈ S)); [discriminate|].
      intros _. apply only_letters_spec in Hs as (w & _ & Hw & Hs).
      exists s, w. auto.
    + destruct (length items =? 5); discriminate.
    + destruct (py.dict_len members =? 5); discriminate.
  - intros (s & w & -> & Hlen & HS & Hw & Hs).
    unfold is_valid_lingo_solution. cbn [py.len py.on_str py.in_set obind].
    rewrite Hlen. cbn [Nat.eqb negb].
    rewrite (proj2 (only_letters_spec s)).
    + cbn [negb]. now rewrite bool_decide_eq_false_2.
    + exists w. repeat split; auto. intros ->.
      destruct Hs as [-> | ->]; discriminate.
Qed.

(** The target check answers (True, None) exactly on a string of more
    than 25 characters with no 13 word characters in a row, that is not
    yet in the set and does not hold backslash, quote, backslash, quote
    in a row. *)
Theorem scryptogram_target_accepted (v : json) (S : gset string) :
  is_valid_scryptogram_target v S = Returned (true, None) <->
  exists s, v = JStr s /\ 25 < String.length s
    /\ ~ word_run 13 (list_ascii_of_string s)
    /\ (s ∉ S) /\ ~ occurs escaped_quotes s.
Proof.
  split.
  - destruct v as [| | |s|items|members];
      try discriminate;
      unfold is_valid_scryptogram_target;
      cbn [py.len py.on_str py.in_set py.contains obind].
    + destruct (Nat.leb_spec (String.length s) 25) as [|Hlen]; [discriminate|].
      destruct (List.find _ _) eqn:Hf; [discriminate|].
      apply long_word_spec in Hf.
      destruct (bool_decide_reflect (s ∈ S)); [discriminate|].
      destruct (py.str_contains escaped_quotes s) eqn:Hq; [discriminate|].
      intros _. exists s. repeat split; auto.
      intros Ho. apply str_contains_occurs in Ho. congruence.
    + destruct (length items <=? 25); discriminate.
    + destruct (py.dict_len members <=? 25); discriminate.
  - intros (s & -> & Hlen & Hw & HS & Hq).
    unfold is_valid_scryptogram_target.
    cbn [py.len py.on_str py.in_set py.contains obind].
    destruct (Nat.leb_spec (String.length s) 25) as [|_]; [lia|].
    rewrite (proj2 (long_word_spec s) Hw).
    rewrite bool_decide_eq_false_2 by exact HS.
    destruct (py.str_contains escaped_quotes s) eqn:Ho; [|reflexivity].
    exfalso. now apply Hq, str_contains_occurs.
Qed.

(** The hint check answers (True, None) on a string of more than 6
    characters that holds a colon, and also on a list of more than 6
    items one of which is the string of a colon and on a dict of more
    than 6 keys one of which is that string: it never asks for a string. *)
Theorem scryptogram_hint_accepted (v : json) :
  is_valid_scryptogram_hint v = Returned (true, None) <->
  (exists s, v = JStr s /\ 6 < String.length s /\ occurs ":" s)
  \/ (exists items, v = JArr items /\ 6 < length items /\ JStr ":" ∈ items)
  \/ (exists members, v = JObj members /\ 6 < py.dict_len members
        /\ is_Some (py.dict_get ":" members)).
Proof.
  unfold is_valid_scryptogram_hint.
  destruct v as [| | |s|items|members]; cbn [py.len py.contains obind].
  1-3: split; [discriminate | intros [(? & [=] & _)|[(? & [=] & _)|(? & [=] & _)]]].
  - destruct (Nat.leb_spec (String.length s) 6) as [Hlen|Hlen].
    + split; [discriminate|].
      intros [(? & [= <-] & ? & _)|[(? & [=] & _)|(? & [=] & _)]]. lia.
    + destruct (py.str_contains ":" s) eqn:Hc; cbn [negb].
      * split; [|reflexivity]. intros _. left. exists s.
        repeat split; auto. now apply str_contains_occurs.
      * split; [discriminate|].
        intros [(? & [= <-] & _ & Ho)|[(? & [=] & _)|(? & [=] & _)]].
        apply str_contains_occurs in Ho. congruence.
  - destruct (Nat.leb_spec (length items) 6) as [Hlen|Hlen].
    + split; [discriminate|].
      intros [(? & [=] & _)|[(? & [= <-] & ? & _)|(? & [=] & _)]]. lia.
    + destruct (existsb _ items) eqn:Hc; cbn [negb].
      * split; [|reflexivity]. intros _. right. left. exists items.
        repeat split; auto. apply existsb_exists in Hc as (x & Hin & Hx).
        apply py_facts.eq_str_true in Hx as ->. now apply list_elem_of_In.
      * split; [discriminate|].
        intros [(? & [=] & _)|[(? & [= <-] & _ & Hin)|(? & [=] & _)]].
        assert (existsb (fun v => py.eq_str v ":") items = true); [|congruence].
        apply existsb_exists. exists (JStr ":").
        split; [now apply list_elem_of_In | reflexivity].
  - destruct (Nat.leb_spec (py.dict_len members) 6) as [Hlen|Hlen].
    + split; [discriminate|].
      intros [(? & [=] & _)|[(? & [=] & _)|(? & [= <-] & ? & _)]]. lia.
    + destruct (bool_decide_reflect (is_Some (py.dict_get ":" members)));
        cbn [negb].
      * split; [|reflexivity]. intros _. right. right. exists members. auto.
      * split; [discriminate|].
        intros [(? & [=] & _)|[(? & [=] & _)|(? & [= <-] & _ & Hin)]].
        contradiction.
Qed.


(** When a cipher of 26 characters that passes [isupper] has a letter
    at its own place in the alphabet, the check answers False and names
    the first such letter with its position counted from 1. *)
Theorem cipher_reports_first_fixed_letter (s : string) (i : nat) (c : ascii) :
  String.length s = 26 -> py.str_isupper s = true ->
  String.get i s = Some c -> String.get i alphabet = Some c ->
  (forall j, j < i -> String.get j s <> String.get j alphabet) ->
  is_valid_scryptogram_cipher (JStr s)
  = Returned (false, Some [Lit "Scryptogram cipher has '";
                           Val (JStr (String c EmptyString));
                           Lit "' in its original position "; Int (i + 1);
                           Lit "."]).
Proof.
  intros Hlen Hup Hs Ha Hfirst.
  unfold is_valid_scryptogram_cipher. cbn [py.len py.isupper obind].
  rewrite Hlen, Hup. cbn [Nat.eqb negb].
  assert (Hi : i < 26).
  { destruct (Nat.lt_ge_cases i 26) as [|Hge]; [assumption|].
    exfalso. clear - Ha Hge. do 26 (destruct i as [|i]; [lia|]). discriminate. }
  assert (Hscan : forall n k, k <= i < k + n -> k + n <= 26 ->
            original_position (JStr s) (seq k n)
            = Returned (false, Some [Lit "Scryptogram cipher has '";
                                     Val (JStr (String c EmptyString));
                                     Lit "' in its original position ";
                                     Int (i + 1); Lit "."])).
  { induction n as [|n IH]; intros k Hk Hn; [lia|].
    cbn [seq original_position].
    destruct (Nat.eq_dec k i) as [->|Hne].
    - rewrite (cipher_facts.getindex_str _ _ _ Hs). unfold py.str_index.
      rewrite Ha. cbn [obind]. rewrite cipher_facts.eq_str_char, Ascii.eqb_refl.
      reflexivity.
    - destruct (cipher_facts.get_in_range s k ltac:(lia)) as [a Ea].
      destruct (cipher_facts.get_in_range alphabet k ltac:(simpl; lia)) as [b Eb].
      rewrite (cipher_facts.getindex_str _ _ _ Ea). unfold py.str_index.
      rewrite Eb. cbn [obind]. rewrite cipher_facts.eq_str_char.
      destruct (Ascii.eqb_spec a b) as [->|_].
      + exfalso. apply (Hfirst k); [lia | congruence].
      + apply IH; lia. }
  apply (Hscan 26 0); lia.
Qed.

(** The letter C at index 2 is reported as position 3. *)
Lemma cipher_reports_first_fixed_letter_witness :
  is_valid_scryptogram_cipher (JStr "BACDEFGHIJKLMNOPQRSTUVWXYZ")
  = Returned (false, Some [Lit "Scryptogram cipher has '"; Val (JStr "C");
                           Lit "' in its original position "; Int 3; Lit "."]).
Proof.
  apply (cipher_reports_first_fixed_letter "BACDEFGHIJKLMNOPQRSTUVWXYZ" 2 "C");
    try reflexivity.
  intros [|[|j]] Hj; [discriminate | discriminate | lia].
Defined.

(** What the checks make of a value that is not a string.  None, a
    boolean and a number have no length: every check raises TypeError.
    A list or a dict is measured like a string: with the wrong number
    of items it is rejected with the message about the length, and with
    the right number the lingo and the target check raise TypeError at
    the pattern and the cipher check raises AttributeError at isupper. *)
Theorem checks_on_other_values (v : json) (S : gset string) :
  (scalar v = true ->
   is_valid_lingo_solution v S = Raised TypeError
   /\ is_valid_scryptogram_target v S = Raised TypeError
   /\ is_valid_scryptogram_hint v = Raised TypeError
   /\ is_valid_scryptogram_cipher v = Raised TypeError)
  /\ (collection v = true ->
      exists n, py.len v = Returned n
        /\ is_valid_lingo_solution v S
           = (if n =? 5 then Raised TypeError
              else Returned (false, Some [Lit "Lingo solution '"; Val v;
                                          Lit "' is not exactly 5 characters."]))
        /\ is_valid_scryptogram_target v S
           = (if n <=? 25
              then Returned (false, Some [Lit "Scryptogram target is too short: ";
                                          Int n; Lit " characters (must be > 25)."])
              else Raised TypeError)
        /\ is_valid_scryptogram_cipher v
           = (if n =? 26 then Raised AttributeError
              else Returned (false, Some [Lit "Scryptogram cipher is not exactly 26 characters: ";
                                          Int n; Lit "."]))).
Proof.
  split.
  - destruct v; try discriminate; intros _; repeat split; reflexivity.
  - destruct v as [| | | |items|members]; try discriminate; intros _;
      eexists; (split; [reflexivity|]);
      unfold is_valid_lingo_solution, is_valid_scryptogram_target,
        is_valid_scryptogram_cipher;
      cbn [py.len py.on_str py.isupper obind];
      (split; [|split]);
      first [ destruct (_ =? _) | destruct (_ <=? _) ]; reflexivity.
Qed.

(** A number as a solution, and a list of 26 letters as a cipher. *)
Lemma checks_on_other_values_witness :
  is_valid_lingo_solution (JNumber "12345") ∅ = Raised TypeError
  /\ is_valid_scryptogram_cipher
       (JArr (map (fun c => JStr (String c EmptyString))
                (list_ascii_of_string "BCDEFGHIJKLMNOPQRSTUVWXYZA")))
     = Raised AttributeError.
Proof.
  split.
  - apply (proj1 (checks_on_other_values (JNumber "12345") ∅) eq_refl).
  - destruct (proj2 (checks_on_other_values
                       (JArr (map (fun c => JStr (String c EmptyString))
                                (list_ascii_of_string "BCDEFGHIJKLMNOPQRSTUVWXYZA")))
                       ∅) eq_refl) as (n & En & _ & _ & Hc).
    injection En as <-. exact Hc.
Defined.

End checks_contract.

(** ** validate_games.py: what is printed *)

Module games_lines.
Import validate_games patterns py_facts.

Implicit Types (t : tally) (out : console).

Lemma reported_nil b : reported b b [].
Proof. split; [constructor | now left]. Qed.

Lemma reported_app a b c l1 l2 :
  reported a b l1 -> reported b c l2 -> reported a c (l1 ++ l2).
Proof.
  intros [F1 H1] [F2 H2]. split; [now apply Forall_app|].
  destruct H1 as [[-> ->]|[N1 ->]].
  - exact H2.
  - right. split.
    + destruct l1; [contradiction | discriminate].
    + destruct H2 as [[_ ->]|[_ ->]]; reflexivity.
Qed.

(** One line that reports an error clears the flag. *)
Lemma reported_line b line : error_line line = true -> reported b false [line].
Proof.
  intros H. split; [now repeat constructor|]. right. split; [discriminate | reflexivity].
Qed.

(** Closes a goal on the lines printed by a run that has been stepped
    through. *)
Ltac lines :=
  first
    [ exists []; rewrite app_nil_r;
      split; [reflexivity|]; split; [cbn; lia|]; apply reported_nil
    | eexists [_];
      split; [reflexivity|]; split; [cbn; lia|]; now apply reported_line ].

Lemma check_lingo_lines game ds t out t1 out1 :
  check_lingo game ds t out = (Returned t1, out1) ->
  exists lines, out1 = (out ++ lines)%list /\ length lines <= 1
    /\ reported (valid t) (valid t1) lines.
Proof.
  unfold check_lingo. intros H.
  step H as g0 Eg0. step H as type Ety.
  destruct (negb _); [step H as u Eu; finish H; lines|].
  step H as missing Em.
  destruct missing; [step H as u Eu; finish H; lines|].
  step H as solution Es. step H as r Er.
  destruct (negb (fst r)); [step H as u Eu; finish H; lines|].
  step H as s Es'. finish H. lines.
Qed.

(** One of the three blocks of the scryptogram part: a result that is
    not True prints one line and clears the flag. *)
Lemma block_lines (r : bool * option text) ds t (good : M console tally) out t1 out1 :
  (if negb (fst r) then
     echo ([Lit "Error on "; Lit ds; Lit ": "] ++ shown (snd r))%list ;;;
     ret (invalidate t)
   else good) out = (Returned t1, out1) ->
  (forall t1 out1, good out = (Returned t1, out1) ->
     out1 = out /\ valid t1 = valid t) ->
  exists lines, out1 = (out ++ lines)%list /\ length lines <= 1
    /\ reported (valid t) (valid t1) lines.
Proof.
  intros H Hgood. destruct (negb (fst r)).
  - step H as u Eu. finish H. lines.
  - apply Hgood in H as [-> ->]. lines.
Qed.

Lemma check_scryptogram_lines game ds t out t2 out2 :
  check_scryptogram game ds t out = (Returned t2, out2) ->
  exists lines, out2 = (out ++ lines)%list /\ length lines <= 3
    /\ reported (valid t) (valid t2) lines.
Proof.
  unfold check_scryptogram. intros H.
  step H as g1 Eg1. step H as type Ety.
  destruct (negb _);
    [step H as u Eu; finish H; eexists [_]; split; [reflexivity|];
     split; [cbn; lia | now apply reported_line]|].
  step H as missing Em.
  destruct missing;
    [step H as u Eu; finish H; eexists [_]; split; [reflexivity|];
     split; [cbn; lia | now apply reported_line]|].
  step H as config Ec. step H as target Et. step H as rt Ert.
  step H as t1 E1 in o1.
  apply block_lines in E1 as (l1 & -> & L1 & R1).
  2:{ intros t' o' Hg. step Hg as tg Etg. step Hg as s Es. now finish Hg. }
  step H as hint Eh. step H as rh Erh.
  step H as t2' E2 in o2.
  apply block_lines in E2 as (l2 & -> & L2 & R2).
  2:{ intros t' o' Hg. now finish Hg. }
  step H as cipher Eci. step H as rc Erc.
  apply block_lines in H as (l3 & -> & L3 & R3).
  2:{ intros t' o' Hg. now finish Hg. }
  exists (l1 ++ l2 ++ l3)%list. rewrite <- !app_assoc.
  split; [reflexivity|]. split; [rewrite !length_app; lia|].
  eauto using reported_app.
Qed.

(** One date: at most four lines, each of which reports an error, and
    the flag is cleared exactly when a line was printed. *)
Lemma check_date_lines data ds t out t' out' :
  check_date data ds t out = (Returned t', out') ->
  exists lines, out' = (out ++ lines)%list /\ length lines <= 4
    /\ reported (valid t) (valid t') lines.
Proof.
  unfold check_date. intros H.
  step H as games Eg. step H as present Ep.
  destruct (negb present);
    [step H as u Eu; finish H; eexists [_]; split; [reflexivity|];
     split; [cbn; lia | now apply reported_line]|].
  step H as game Egame. step H as n En.
  destruct (n <? 2);
    [step H as u Eu; finish H; eexists [_]; split; [reflexivity|];
     split; [cbn; lia | now apply reported_line]|].
  step H as t1 E1 in o1.
  apply check_lingo_lines in E1 as (l1 & -> & L1 & R1).
  apply check_scryptogram_lines in H as (l2 & -> & L2 & R2).
  exists (l1 ++ l2)%list. rewrite <- app_assoc.
  split; [reflexivity|]. split; [rewrite length_app; lia|].
  eauto using reported_app.
Qed.

Lemma fold_days_lines data dates : forall t out t' out',
  datetime.fold_days (fun d => check_date data (datetime.strftime d))
    dates t out = (Returned t', out') ->
  exists lines, out' = (out ++ lines)%list /\ length lines <= 4 * length dates
    /\ reported (valid t) (valid t') lines.
Proof.
  induction dates as [|d dates IH]; intros t out t' out' H.
  - cbn [datetime.fold_days] in H. finish H. exists []. rewrite app_nil_r.
    split; [reflexivity|]. split; [cbn; lia | apply reported_nil].
  - cbn [datetime.fold_days] in H. step H as t1 E1 in o1.
    apply check_date_lines in E1 as (l1 & -> & L1 & R1).
    apply IH in H as (l2 & -> & L2 & R2).
    exists (l1 ++ l2)%list. rewrite <- app_assoc.
    split; [reflexivity|]. split; [rewrite length_app; cbn [length]; lia|].
    eauto using reported_app.
Qed.

End games_lines.

Module games_output.
Import validate_games patterns py_facts games_lines.

(** What the games validator has printed when it returns.  With True
    it is the line of success alone, which gives both dates with four
    digits for the year and two for month and day.  With False it is one
    line that reports a file or a document in error, or one to four lines
    for each date in error, each beginning with the word Error, and then
    the line that validation failed. *)
Theorem games_verdict_and_lines
    (fs : filesystem) (e : string) (out : console) (b : bool) (out' : console) :
  validate_json fs e out = (Returned b, out') ->
  exists end_date,
    datetime.parse_date e = Some end_date
    /\ if b then
         out' = (out ++ [[Lit "Validation successful for all games from ";
                          Lit "2025-03-05"; Lit " to ";
                          Lit (datetime.strftime end_date); Lit "."]])%list
       else
         (exists line, error_line line = true /\ out' = (out ++ [line])%list)
         \/ exists errors,
              errors <> []
              /\ Forall (fun line => error_line line = true) errors
              /\ length errors
                 <= 4 * length (datetime.days
                                  (datetime.days_between first_date end_date)
                                  first_date end_date)
              /\ out' = (out ++ errors
                         ++ [[Lit "Validation failed. Please fix the issues above."]])%list.
Proof.
  intros H.
  pose proof (validate_games_json.games_validate_json_Returned _ _ _ _ _ H)
    as (end_date & Ee & Hcase).
  exists end_date. split; [exact Ee|].
  destruct (fs "prompts.json") as [| | | |data] eqn:Hf; try contradiction.
  - destruct Hcase as [-> ->]. left. eexists. split; [|reflexivity]. reflexivity.
  - destruct Hcase as [-> ->]. left. eexists. split; [|reflexivity]. reflexivity.
  - destruct Hcase as [(_ & -> & ->)|(Hc & _)].
    { left. eexists. split; [|reflexivity]. reflexivity. }
    rewrite (validators_facts.games_validate_json_loop fs e data end_date out Hf Ee Hc)
      in H.
    destruct (datetime.each_day _ _ _ _ _ out) as [[t| |] out1] eqn:El;
      try discriminate.
    injection H as <- <-.
    apply each_day_facts.each_day_Returned in El as [Ef _];
      [|exact validate_games_json.games_first_date_valid].
    apply fold_days_lines in Ef as (lines & -> & Hlen & Hfor & Hflag).
    cbn [valid] in Hflag. unfold report.
    destruct Hflag as [[-> Hv]|[Hne Hv]]; rewrite Hv.
    + now rewrite app_nil_r.
    + right. exists lines. rewrite <- app_assoc. auto.
Qed.

(** The sample with games for two dates, asked up to a third one. *)
Lemma games_verdict_and_lines_witness :
  exists end_date,
    datetime.parse_date "2025-03-07" = Some end_date
    /\ ((exists line, error_line line = true
           /\ snd (validate_json (samples.only (Json samples.two_days))
                     "2025-03-07" [])
              = ([] ++ [line])%list)
        \/ exists errors,
             errors <> []
             /\ Forall (fun line => error_line line = true) errors
             /\ length errors
                <= 4 * length (datetime.days
                                 (datetime.days_between first_date end_date)
                                 first_date end_date)
             /\ snd (validate_json (samples.only (Json samples.two_days))
                       "2025-03-07" [])
                = ([] ++ errors
                   ++ [[Lit "Validation failed. Please fix the issues above."]])%list).
Proof.
  apply (games_verdict_and_lines (samples.only (Json samples.two_days))
           "2025-03-07" [] false
           (snd (validate_json (samples.only (Json samples.two_days))
                   "2025-03-07" []))).
  vm_compute. reflexivity.
Defined.

Lemma check_date_two_games data data' games games' ds g0 g1 rest rest' t out :
  py.getitem data "games" = Returned (JObj games) ->
  py.getitem data' "games" = Returned (JObj games') ->
  py.dict_get ds games = Some (JArr (g0 :: g1 :: rest)) ->
  py.dict_get ds games' = Some (JArr (g0 :: g1 :: rest')) ->
  check_date data ds t out = check_date data' ds t out.
Proof.
  intros H1 H2 Hd Hd'. unfold check_date, bind, lift.
  rewrite H1, H2. rewrite !contains_obj. cbn [obind py.getitem].
  rewrite Hd, Hd'. rewrite !bool_decide_eq_true_2 by eauto.
  reflexivity.
Qed.

(** Of the list of games of a date only the first two items are read:
    two documents whose entries for the dates of the range are the
    same up to what follows the second game give the same run. *)
Theorem games_after_the_second_are_ignored
    (fs fs' : filesystem) (data data' : json)
    (games games' : list (string * json)) (e : string)
    (end_date : datetime.date) (out : console) :
  datetime.parse_date e = Some end_date ->
  fs "prompts.json" = Json data -> fs' "prompts.json" = Json data' ->
  py.getitem data "games" = Returned (JObj games) ->
  py.getitem data' "games" = Returned (JObj games') ->
  (forall d, datetime.valid d = true ->
     datetime.le first_date d = true -> datetime.le d end_date = true ->
     same_first_two (py.dict_get (datetime.strftime d) games)
       (py.dict_get (datetime.strftime d) games')) ->
  validate_json fs e out = validate_json fs' e out.
Proof.
  intros Ee Hf Hf' Hg Hg' Hsame.
  rewrite (validators_facts.games_validate_json_loop fs e data end_date out Hf Ee
             (validators_facts.getitem_contains _ _ _ Hg)).
  rewrite (validators_facts.games_validate_json_loop fs' e data' end_date out Hf' Ee
             (validators_facts.getitem_contains _ _ _ Hg')).
  rewrite (days_facts.each_day_ext
             (fun d => check_date data (datetime.strftime d))
             (fun d => check_date data' (datetime.strftime d)));
    [reflexivity | exact validate_games_json.games_first_date_valid |].
  intros d t out1 Hd H1 H2.
  destruct (Hsame d Hd H1 H2) as [Heq|(g0 & g1 & rest & rest' & E & E')].
  - eapply validators_facts.check_date_agree; eauto.
  - eapply check_date_two_games; eauto.
Qed.

(** Two games of 5 March followed by a third item. *)
Lemma games_after_the_second_are_ignored_witness :
  validate_games.validate_json (samples.only (Json examples.one_day)) "2025-03-05" []
  = validate_games.validate_json
      (samples.only (Json examples.one_day_three_games)) "2025-03-05" [].
Proof.
  eapply (games_after_the_second_are_ignored
            (samples.only (Json examples.one_day))
            (samples.only (Json examples.one_day_three_games))
            examples.one_day examples.one_day_three_games _ _
            "2025-03-05" (datetime.Date 2025 3 5) []);
    try reflexivity.
  intros d Hd H1 H2.
  assert (d = validate_games.first_date)
    by (apply datetime_facts.le_antisym; assumption).
  subst d. right. do 4 eexists. split; reflexivity.
Defined.

End games_output.

(** ** validate_prompts.py: the three checks of a prompt *)

Module prompt_checks.
Import validate_prompts prompts_ref patterns py_facts string_facts.

Implicit Types (m : list (string * json)) (out : console).

Lemma check_keys_cons m prompt_date key complaint keys out :
  check_keys (JObj m) prompt_date ((key, complaint) :: keys) out
  = if bool_decide (is_Some (py.dict_get key m))
    then check_keys (JObj m) prompt_date keys out
    else (Returned false, (out ++ [[Lit "["; Val prompt_date; Lit complaint]])%list).
Proof.
  cbn [check_keys]. rewrite contains_obj. unfold bind at 1, lift.
  now destruct (bool_decide _).
Qed.

(** [check_prompt_format] on a prompt with a text and a date: a text
    in the forbidden format is reported; otherwise the first of seven
    members that the prompt lacks is reported, and with all seven the
    answer is True and nothing is printed.  The second test for Lesson
    and the test for Prompt of the source never fire. *)
Theorem check_prompt_format_result
    (m : list (string * json)) (prompt_text : string) (prompt_date : json)
    (out : console) :
  py.dict_get "Prompt" m = Some (JStr prompt_text) ->
  py.dict_get "Date" m = Some prompt_date ->
  check_prompt_format (JObj m) out
  = if prompt_for_date prompt_text then
      (Returned false,
       (out ++ [[Lit "Error: Invalid prompt format: '"; Val (JStr prompt_text);
                 Lit "'"]])%list)
    else
      match first_missing m with
      | Some (key, complaint) =>
          (Returned false, (out ++ [[Lit "["; Val prompt_date; Lit complaint]])%list)
      | None => (Returned true, out)
      end.
Proof.
  intros Hp Hd. unfold check_prompt_format. rewrite contains_obj.
  rewrite bool_decide_eq_true_2 by eauto.
  unfold bind at 1, lift. cbn [negb py.getitem]. rewrite Hp, Hd.
  unfold bind at 1. unfold bind at 1. unfold bind at 1. cbn [py.on_str].
  destruct (prompt_for_date prompt_text); [reflexivity|].
  unfold required_keys, first_missing, asked_members.
  rewrite !check_keys_cons. cbn [find fst check_keys].
  rewrite (bool_decide_eq_true_2 (is_Some (py.dict_get "Prompt" m))) by eauto.
  repeat (destruct (bool_decide (is_Some (py.dict_get _ m)));
          cbn [negb]; [|reflexivity]).
  reflexivity.
Qed.


(** A prompt that lacks WeekNum only. *)
Lemma check_prompt_format_result_witness :
  check_prompt_format (JObj examples.no_week_prompt) []
  = (Returned false,
     [[Lit "["; Val (JStr "2025-03-03"); Lit "] is missing a WeekNum"]]).
Proof.
  exact (check_prompt_format_result examples.no_week_prompt "Tell a story"
           (JStr "2025-03-03") [] eq_refl eq_refl).
Defined.

(** Without a Date member the link check and the quotes check answer
    True and print nothing, while the format check raises KeyError when
    the prompt has a text and answers True when it has none. *)
Theorem checks_of_an_undated_prompt (m : list (string * json)) (out : console) :
  py.dict_get "Date" m = None ->
  check_youtube_link (JObj m) out = (Returned true, out)
  /\ check_escaped_quotes (JObj m) out = (Returned true, out)
  /\ check_prompt_format (JObj m) out
     = if bool_decide (is_Some (py.dict_get "Prompt" m))
       then (Raised KeyError, out) else (Returned true, out).
Proof.
  intros Hd.
  assert (Hn : bool_decide (is_Some (py.dict_get "Date" m)) = false).
  { rewrite Hd. apply bool_decide_eq_false_2. intros [? ?]. discriminate. }
  split; [|split].
  - unfold check_youtube_link. rewrite contains_obj, Hn. reflexivity.
  - unfold check_escaped_quotes. rewrite !contains_obj, Hn.
    unfold bind, lift.
    now destruct (bool_decide (is_Some (py.dict_get "Prompt" m))).
  - unfold check_prompt_format. rewrite contains_obj.
    unfold bind at 1, lift.
    destruct (bool_decide_reflect (is_Some (py.dict_get "Prompt" m)))
      as [[v Hv]|_]; cbn [negb]; [|reflexivity].
    unfold bind, lift. cbn [py.getitem]. now rewrite Hv, Hd.
Qed.

Lemma checks_of_an_undated_prompt_witness :
  check_youtube_link (JObj examples.undated_prompt) [] = (Returned true, [])
  /\ check_escaped_quotes (JObj examples.undated_prompt) [] = (Returned true, [])
  /\ check_prompt_format (JObj examples.undated_prompt) [] = (Raised KeyError, []).
Proof.
  exact (checks_of_an_undated_prompt examples.undated_prompt [] eq_refl).
Defined.

Lemma any_pattern_youtube link :
  any_pattern youtube_patterns (JStr link) = Returned true <->
  exists scheme www host,
    In scheme ["http"; "https"] /\ In www [""; "www."]
    /\ In host ["youtube.com"; "youtu.be"]
    /\ occurs (youtube_address scheme www host) link.
Proof.
  unfold youtube_patterns. cbn [any_pattern py.on_str obind].
  assert (E : (if search ["http://youtube.com/"; "https://youtube.com/";
                          "http://www.youtube.com/"; "https://www.youtube.com/"] link
               then Returned true
               else if search ["http://youtu.be/"; "https://youtu.be/";
                               "http://www.youtu.be/"; "https://www.youtu.be/"] link
                    then Returned true else Returned false)
              = Returned
                  (search ["http://youtube.com/"; "https://youtube.com/";
                           "http://www.youtube.com/"; "https://www.youtube.com/"] link
                   || search ["http://youtu.be/"; "https://youtu.be/";
                              "http://www.youtu.be/"; "https://www.youtu.be/"] link)).
  { destruct (search _ link); [reflexivity|]. now destruct (search _ link). }
  rewrite E. clear E. unfold search. cbn [existsb].
  split.
  - intros [= H]. rewrite !orb_false_r, !orb_true_iff, !str_contains_occurs in H.
    destruct H as [[H|[H|[H|H]]]|[H|[H|[H|H]]]].
    + exists "http", "", "youtube.com". cbn [In]. auto 10.
    + exists "https", "", "youtube.com". cbn [In]. auto 10.
    + exists "http", "www.", "youtube.com". cbn [In]. auto 10.
    + exists "https", "www.", "youtube.com". cbn [In]. auto 10.
    + exists "http", "", "youtu.be". cbn [In]. auto 10.
    + exists "https", "", "youtu.be". cbn [In]. auto 10.
    + exists "http", "www.", "youtu.be". cbn [In]. auto 10.
    + exists "https", "www.", "youtu.be". cbn [In]. auto 10.
  - intros (scheme & www & host & Hs & Hw & Hh & Ho). f_equal.
    rewrite !orb_false_r, !orb_true_iff, !str_contains_occurs.
    cbn [In] in Hs, Hw, Hh.
    destruct Hs as [<-|[<-|[]]], Hw as [<-|[<-|[]]], Hh as [<-|[<-|[]]];
      auto 10.
Qed.

(** The link check answers True exactly when the prompt has no Date,
    or its PromptLink is a string in which the beginning of a YouTube
    address occurs, at any place; it then prints nothing. *)
Theorem check_youtube_link_accepts
    (m : list (string * json)) (out out' : console) :
  check_youtube_link (JObj m) out = (Returned true, out') <->
  out' = out
  /\ (py.dict_get "Date" m = None
      \/ exists link scheme www host,
           py.dict_get "PromptLink" m = Some (JStr link)
           /\ In scheme ["http"; "https"] /\ In www [""; "www."]
           /\ In host ["youtube.com"; "youtu.be"]
           /\ occurs (youtube_address scheme www host) link).
Proof.
  unfold check_youtube_link. rewrite !contains_obj.
  unfold bind at 1, lift.
  destruct (py.dict_get "Date" m) as [date|] eqn:Hd.
  2:{ rewrite bool_decide_eq_false_2 by (intros [? ?]; discriminate).
      cbn [negb]. unfold ret. split; [intros [= <-]; auto | intros [-> _]; reflexivity]. }
  rewrite bool_decide_eq_true_2 by eauto. cbn [negb].
  unfold bind at 1, lift. cbn [py.getitem]. rewrite Hd.
  unfold bind at 1.
  destruct (py.dict_get "PromptLink" m) as [v|] eqn:Hl.
  2:{ rewrite bool_decide_eq_false_2 by (intros [? ?]; discriminate).
      cbn [negb]. unfold bind, echo, ret.
      split; [discriminate | intros (_ & [[=]|(? & ? & ? & ? & [=] & _)])]. }
  rewrite bool_decide_eq_true_2 by eauto. cbn [negb].
  unfold bind at 1. unfold bind at 1.
  destruct v as [| | |link| |];
    try (split; [discriminate | intros (_ & [[=]|(? & ? & ? & ? & [=] & _)])]).
  pose proof (any_pattern_youtube link) as Hy.
  destruct (any_pattern youtube_patterns (JStr link)) as [[|]| |] eqn:Ea.
  - unfold ret. split.
    + intros [= <-]. split; [reflexivity|]. right.
      destruct (proj1 Hy eq_refl) as (scheme & www & host & H).
      exists link, scheme, www, host. tauto.
    + intros [-> _]. reflexivity.
  - unfold bind, echo, ret. split; [discriminate|].
    intros (_ & [[=]|(l & scheme & www & host & [= <-] & H)]).
    assert (Returned false = Returned true) by (apply Hy; eauto 10).
    discriminate.
  - split; [discriminate|].
    intros (_ & [[=]|(l & scheme & www & host & [= <-] & H)]).
    assert (Raised e = Returned true) by (apply Hy; eauto 10). discriminate.
  - split; [discriminate|].
    intros (_ & [[=]|(l & scheme & www & host & [= <-] & H)]).
    assert (@Diverged bool = Returned true) by (apply Hy; eauto 10). discriminate.
Qed.

(** The quotes check answers False exactly when the prompt has a Date
    and a text in which two double quotes stand next to each other; a
    backslash plays no part in it.  It then prints one line. *)
Theorem check_escaped_quotes_rejects
    (m : list (string * json)) (out out' : console) :
  check_escaped_quotes (JObj m) out = (Returned false, out') <->
  exists prompt_text prompt_date,
    py.dict_get "Prompt" m = Some (JStr prompt_text)
    /\ py.dict_get "Date" m = Some prompt_date
    /\ occurs two_quotes prompt_text
    /\ out' = (out ++ [[Lit "["; Val prompt_date;
                        Lit "] Prompt contains consecutive escaped double quotes"]])%list.
Proof.
  unfold check_escaped_quotes. rewrite !contains_obj.
  unfold bind at 1, lift.
  destruct (py.dict_get "Prompt" m) as [v|] eqn:Hp.
  2:{ rewrite bool_decide_eq_false_2 by (intros [? ?]; discriminate).
      cbn [negb]. unfold bind, ret. cbn [negb].
      split; [discriminate | intros (? & ? & [=] & _)]. }
  rewrite bool_decide_eq_true_2 by eauto. cbn [negb].
  unfold bind at 1, lift.
  destruct (py.dict_get "Date" m) as [date|] eqn:Hd.
  2:{ rewrite bool_decide_eq_false_2 by (intros [? ?]; discriminate).
      cbn [negb]. unfold ret.
      split; [discriminate | intros (? & ? & _ & [=] & _)]. }
  rewrite bool_decide_eq_true_2 by eauto. cbn [negb].
  unfold bind at 1, lift. cbn [py.getitem]. rewrite Hp, Hd.
  unfold bind at 1. unfold bind at 1.
  destruct v as [| | |text| |]; cbn [py.on_str];
    try (split; [discriminate | intros (? & ? & [=] & _)]).
  destruct (py.str_contains two_quotes text) eqn:Hq.
  - unfold bind, echo, ret. split.
    + intros [= <-]. exists text, date. repeat split; auto.
      now apply str_contains_occurs.
    + intros (t & d & [= <-] & [= <-] & _ & ->). reflexivity.
  - unfold ret. split; [discriminate|].
    intros (t & d & [= <-] & _ & Ho & _).
    apply str_contains_occurs in Ho. congruence.
Qed.

End prompt_checks.

(** ** validate_prompts.py: what is printed *)

Module prompts_lines.
Import validate_prompts prompts_ref py_facts.

Implicit Types (out : console) (J : gset string).

Lemma adds_ret {A} (a : A) : adds 0 (ret a).
Proof. intros out r out' [= _ <-]. exists []. now rewrite app_nil_r. Qed.

Lemma adds_lift {A} (o : outcome A) : adds 0 (lift o).
Proof. intros out r out' [= _ <-]. exists []. now rewrite app_nil_r. Qed.

Lemma adds_echo line : adds 1 (echo line).
Proof. intros out r out' [= _ <-]. now exists [line]. Qed.

Lemma adds_le {A} n k (m : M console A) : n <= k -> adds n m -> adds k m.
Proof.
  intros Hle Hm out r out' E. destruct (Hm _ _ _ E) as (lines & -> & Hl).
  exists lines. split; [reflexivity | lia].
Qed.

Lemma adds_bind {A B} n k (m : M console A) (f : A -> M console B) :
  adds n m -> (forall a, adds k (f a)) -> adds (n + k) (bind m f).
Proof.
  intros Hm Hf out r out'. unfold bind.
  destruct (m out) as [[a|x|] out1] eqn:E;
    destruct (Hm _ _ _ E) as (l1 & -> & L1).
  - intros E2. destruct (Hf a _ _ _ E2) as (l2 & -> & L2).
    exists (l1 ++ l2)%list. rewrite <- app_assoc, length_app.
    split; [reflexivity | lia].
  - intros [= _ <-]. exists l1. split; [reflexivity | lia].
  - intros [= _ <-]. exists l1. split; [reflexivity | lia].
Qed.

Lemma adds_try {A} n k (m : M console A) e (h : M console A) :
  adds n m -> adds k h -> adds (n + k) (try_except m e h).
Proof.
  intros Hm Hh out r out'. unfold try_except.
  destruct (m out) as [[a|x|] out1] eqn:E;
    destruct (Hm _ _ _ E) as (l1 & -> & L1).
  - intros [= _ <-]. exists l1. split; [reflexivity | lia].
  - destruct (bool_decide (x = e)).
    + intros E2. destruct (Hh _ _ _ E2) as (l2 & -> & L2).
      exists (l1 ++ l2)%list. rewrite <- app_assoc, length_app.
      split; [reflexivity | lia].
    + intros [= _ <-]. exists l1. split; [reflexivity | lia].
  - intros [= _ <-]. exists l1. split; [reflexivity | lia].
Qed.

Lemma check_keys_adds prompt_obj prompt_date keys :
  adds 1 (check_keys prompt_obj prompt_date keys).
Proof.
  induction keys as [|[key complaint] keys IH];
    [apply (adds_le 0); [lia | apply adds_ret]|].
  cbn [check_keys]. apply (adds_bind 0 1); [apply adds_lift|].
  intros has. destruct (negb has); [|exact IH].
  apply (adds_bind 1 0); [apply adds_echo | intros _; apply adds_ret].
Qed.

(** Each of the three checks prints one line at most. *)
Lemma check_prompt_format_adds prompt_obj : adds 1 (check_prompt_format prompt_obj).
Proof.
  unfold check_prompt_format. apply (adds_bind 0 1); [apply adds_lift|].
  intros has. destruct (negb has); [apply (adds_le 0); [lia | apply adds_ret]|].
  apply (adds_bind 0 1); [apply adds_lift|]. intros prompt_text.
  apply (adds_bind 0 1); [apply adds_lift|]. intros prompt_date.
  apply (adds_bind 0 1); [apply adds_lift|]. intros forbidden.
  destruct forbidden; [|apply check_keys_adds].
  apply (adds_bind 1 0); [apply adds_echo | intros _; apply adds_ret].
Qed.

Lemma check_youtube_link_adds prompt_obj : adds 1 (check_youtube_link prompt_obj).
Proof.
  unfold check_youtube_link. apply (adds_bind 0 1); [apply adds_lift|].
  intros has. destruct (negb has); [apply (adds_le 0); [lia | apply adds_ret]|].
  apply (adds_bind 0 1); [apply adds_lift|]. intros prompt_date.
  apply (adds_bind 0 1); [apply adds_lift|]. intros has_link.
  destruct (negb has_link);
    [apply (adds_bind 1 0); [apply adds_echo | intros _; apply adds_ret]|].
  apply (adds_bind 0 1); [apply adds_lift|]. intros prompt_link.
  apply (adds_bind 0 1); [apply adds_lift|]. intros found.
  destruct found; [apply (adds_le 0); [lia | apply adds_ret]|].
  apply (adds_bind 1 0); [apply adds_echo | intros _; apply adds_ret].
Qed.

Lemma check_escaped_quotes_adds prompt_obj :
  adds 1 (check_escaped_quotes prompt_obj).
Proof.
  unfold check_escaped_quotes. apply (adds_bind 0 1); [apply adds_lift|].
  intros has. apply (adds_bind 0 1).
  { destruct (negb has); [apply adds_ret | apply adds_lift]. }
  intros has_date.
  destruct (negb has_date); [apply (adds_le 0); [lia | apply adds_ret]|].
  apply (adds_bind 0 1); [apply adds_lift|]. intros prompt_text.
  apply (adds_bind 0 1); [apply adds_lift|]. intros prompt_date.
  apply (adds_bind 0 1); [apply adds_lift|]. intros found.
  destruct found; [|apply (adds_le 0); [lia | apply adds_ret]].
  apply (adds_bind 1 0); [apply adds_echo | intros _; apply adds_ret].
Qed.

Lemma three_checks_adds prompt :
  adds 3 (try_except
            (check_prompt_format prompt ;;;
             check_youtube_link prompt ;;;
             check_escaped_quotes prompt ;;;
             ret tt)
            ValueError (ret tt)).
Proof.
  apply (adds_try 3 0); [|apply adds_ret].
  apply (adds_bind 1 2); [apply check_prompt_format_adds|]. intros _.
  apply (adds_bind 1 1); [apply check_youtube_link_adds|]. intros _.
  apply (adds_bind 1 0); [apply check_escaped_quotes_adds|]. intros _.
  apply adds_ret.
Qed.

(** The loop over the prompts prints three lines at most for each
    prompt whose date lies in the range, and nothing for the others. *)
Lemma each_prompt_lines first last items : forall J out J' out',
  each_prompt items first last J out = (Returned J', out') ->
  exists lines, out' = (out ++ lines)%list
    /\ length lines <= 3 * length (List.filter (in_range first last) items).
Proof.
  induction items as [|p items IH]; intros J out J' out' H.
  - cbn [each_prompt] in H. finish H. exists []. rewrite app_nil_r. cbn. auto.
  - cbn [each_prompt] in H. step H as has Eh.
    assert (Hmono : forall lines : list text,
              length lines <= 3 * length (List.filter (in_range first last) items) ->
              length lines <= 3 * length (List.filter (in_range first last) (p :: items))).
    { intros lines Hl. cbn [List.filter].
      destruct (in_range first last p); cbn [length]; lia. }
    destruct has.
    2:{ apply IH in H as (lines & -> & Hl). eauto. }
    step H as parsed Ep in o1.
    apply validate_prompts_facts.try_except_inv in Ep as [Ep|(o0 & Ep & Eh')].
    + step Ep as d Ed. finish Ep.
      step Ed as v Ev. apply getitem_Returned in Ev as (m & -> & Ev).
      destruct v as [| | |s| |]; try discriminate.
      apply validate_games_json.strptime_str in Ed.
      assert (Hp : prompt_day (JObj m) = Some d)
        by (cbn [prompt_day]; now rewrite Ev).
      step H as u Eu in o2.
      apply IH in H as (l2 & -> & L2).
      destruct (datetime.le d last && datetime.le first d) eqn:Hr.
      * apply three_checks_adds in Eu as (l1 & -> & L1).
        exists (l1 ++ l2)%list. rewrite <- app_assoc, length_app.
        split; [reflexivity|]. cbn [List.filter]. unfold in_range at 1.
        rewrite Hp, Hr. cbn [length]. lia.
      * finish Eu. eauto.
    + finish Eh'.
      assert (o0 = out).
      { unfold bind, lift in Ep.
        destruct (_ <~ py.getitem p "Date" ;; _) as [d| |];
          [discriminate | now injection Ep | discriminate]. }
      subst o0. apply IH in H as (lines & -> & Hl). eauto.
Qed.

Lemma list_dates_out missing : forall out,
  list_dates missing out
  = (Returned tt, (out ++ map (fun date => [Lit "  - "; Lit date]) missing)%list).
Proof.
  induction missing as [|date missing IH]; intros out.
  - cbn. now rewrite app_nil_r.
  - cbn [list_dates map]. unfold bind, echo. rewrite IH.
    now rewrite <- app_assoc.
Qed.

(** [validate_json] on a document with a prompts list is the loop over
    the prompts, the loop over the dates and the verdict. *)
Lemma prompts_validate_json_loop fs e data items end_date out :
  fs "prompts.json" = Json data ->
  datetime.parse_date e = Some end_date ->
  py.getitem data "prompts" = Returned (JArr items) ->
  validate_json fs e out
  = match each_prompt items first_date end_date ∅ out with
    | (Returned J, out1) =>
        match datetime.each_day (datetime.days_between first_date end_date)
                (note_missing J) first_date end_date [] out1 with
        | (Returned missing, out2) =>
            (Returned (bool_decide (missing = [])),
             (out2 ++ verdict_lines missing)%list)
        | (Raised x, out2) => (Raised x, out2)
        | (Diverged, out2) => (Diverged, out2)
        end
    | (Raised x, out1) => (Raised x, out1)
    | (Diverged, out1) => (Diverged, out1)
    end.
Proof.
  intros Hf Ee Hg. apply validate_games_json.strptime_str in Ee.
  unfold validate_json.
  rewrite (bind_Returned _ _ out end_date out) by (unfold lift; now rewrite Ee).
  rewrite (bind_Returned _ _ out first_date out) by reflexivity.
  rewrite Hf.
  rewrite (bind_Returned _ _ out true out)
    by (unfold lift; now rewrite (validators_facts.getitem_contains _ _ _ Hg)).
  cbn [negb].
  rewrite (bind_Returned _ _ out (JArr items) out) by (unfold lift; now rewrite Hg).
  unfold bind at 1.
  destruct (each_prompt items first_date end_date ∅ out) as [[J| |] out1];
    try reflexivity.
  unfold bind at 1.
  destruct (datetime.each_day _ _ _ _ _ out1) as [[missing| |] out2];
    try reflexivity.
  destruct missing as [|x missing]; [reflexivity|].
  unfold bind, echo. rewrite list_dates_out. unfold ret.
  cbn [verdict_lines]. rewrite <- app_assoc. reflexivity.
Qed.

(** The set of dates collected from the prompts tells, for a date,
    whether some prompt is for it. *)
Lemma collected_dated items first last out J out' d :
  each_prompt items first last ∅ out = (Returned J, out') ->
  datetime.valid d = true ->
  bool_decide (datetime.strftime d ∈ J) = dated items d.
Proof.
  intros EJ Hd.
  pose proof (validate_prompts_facts.each_prompt_dates _ _ _ _ _ _ _ EJ
                (datetime.strftime d)) as HJ.
  unfold dated. destruct (existsb _ items) eqn:Hex.
  - apply bool_decide_eq_true_2, HJ. right.
    apply existsb_exists in Hex as (p & Hin & Hp).
    apply bool_decide_eq_true in Hp. eauto.
  - apply bool_decide_eq_false_2. intros Hin.
    apply HJ in Hin as [Hin|(p & d' & Hp & Hd' & Es)];
      [now apply not_elem_of_empty in Hin|].
    apply strftime_facts.strftime_inj in Es;
      [|assumption | eapply validators_facts.prompt_day_valid; eauto].
    subst d'. assert (existsb (fun p => bool_decide (prompt_day p = Some d)) items = true);
      [|congruence].
    apply existsb_exists. exists p. split; [exact Hp|].
    now apply bool_decide_eq_true_2.
Qed.

Lemma missing_from_dated items J dates :
  (forall d, d ∈ dates -> bool_decide (datetime.strftime d ∈ J) = dated items d) ->
  missing_from J dates
  = map datetime.strftime (List.filter (fun d => negb (dated items d)) dates).
Proof.
  unfold missing_from. induction dates as [|d dates IH]; intros Hall;
    [reflexivity|].
  cbn [map List.filter]. rewrite (Hall d ltac:(left)).
  rewrite IH by (intros x Hx; apply Hall; now right).
  now destruct (dated items d).
Qed.

End prompts_lines.

Module prompts_output.
Import validate_prompts prompts_ref py_facts prompts_lines.

(** What the prompts validator has printed when it returns from a
    document with a prompts list: first the lines of the checks, three
    at most for each prompt whose date lies in the range, then the
    verdict, which is the line of success when no date of the range
    lacks a prompt, and otherwise a heading followed by the dates that
    lack one, each once, in the order of the calendar.  The answer is
    True exactly in the first case. *)
Theorem prompts_verdict_and_lines
    (fs : filesystem) (e : string) (out : console) (b : bool) (out' : console)
    (data : json) (items : list json) :
  fs "prompts.json" = Json data ->
  py.getitem data "prompts" = Returned (JArr items) ->
  validate_json fs e out = (Returned b, out') ->
  exists end_date checks,
    datetime.parse_date e = Some end_date
    /\ length checks <= 3 * length (List.filter (in_range first_date end_date) items)
    /\ out' = (out ++ checks ++ verdict_lines (missing_dates items end_date))%list
    /\ b = bool_decide (missing_dates items end_date = []).
Proof.
  intros Hf Hg H.
  pose proof (validate_prompts_facts.prompts_validate_json_Returned _ _ _ _ _ H)
    as (end_date & Ee & _).
  exists end_date.
  rewrite (prompts_validate_json_loop fs e data items end_date out Hf Ee Hg) in H.
  destruct (each_prompt items first_date end_date ∅ out) as [[J| |] out1] eqn:EJ;
    try discriminate.
  destruct (datetime.each_day _ _ _ _ _ out1) as [[missing| |] out2] eqn:Em;
    try discriminate.
  injection H as <- <-.
  apply each_day_facts.each_day_Returned in Em as [Em _];
    [|exact validate_prompts_facts.prompts_first_date_valid].
  rewrite validate_prompts_facts.fold_note_missing in Em.
  injection Em as <- <-. cbn [app].
  destruct (each_prompt_lines _ _ _ _ _ _ _ EJ) as (checks & -> & Hlen).
  exists checks. split; [exact Ee|]. split; [exact Hlen|].
  rewrite (missing_from_dated items J).
  - fold (missing_dates items end_date). rewrite <- app_assoc. auto.
  - intros d Hd. eapply collected_dated; [exact EJ|].
    apply each_day_facts.days_sound in Hd as [Hv _]; [exact Hv|].
    exact validate_prompts_facts.prompts_first_date_valid.
Qed.

(** The sample of two prompts that fail their checks, asked up to
    5 March 2025: the lines of the checks, then 5 March as missing. *)
Lemma prompts_verdict_and_lines_witness :
  exists end_date checks,
    datetime.parse_date "2025-03-05" = Some end_date
    /\ length checks
       <= 3 * length (List.filter (in_range first_date end_date)
                        [samples.forbidden_prompt; samples.quoted_prompt])
    /\ snd (validate_json (samples.only (Json samples.bad_prompts)) "2025-03-05" [])
       = ([] ++ checks
          ++ verdict_lines
               (missing_dates [samples.forbidden_prompt; samples.quoted_prompt]
                  end_date))%list
    /\ false
       = bool_decide
           (missing_dates [samples.forbidden_prompt; samples.quoted_prompt]
              end_date = []).
Proof.
  apply (prompts_verdict_and_lines (samples.only (Json samples.bad_prompts))
           "2025-03-05" [] false
           (snd (validate_json (samples.only (Json samples.bad_prompts))
                   "2025-03-05" []))
           samples.bad_prompts
           [samples.forbidden_prompt; samples.quoted_prompt]);
    vm_compute; reflexivity.
Defined.

(** The answer of the prompts validator depends on the prompts only
    through the set of their dates: when it returns on two lists of
    prompts that are for the same dates, it gives the same answer,
    whatever their order, their number and their other members. *)
Theorem prompts_answer_depends_on_dates
    (fs fs' : filesystem) (e : string) (data data' : json)
    (items items' : list json) (out out1 out' : console) (b : bool) :
  fs "prompts.json" = Json data -> fs' "prompts.json" = Json data' ->
  py.getitem data "prompts" = Returned (JArr items) ->
  py.getitem data' "prompts" = Returned (JArr items') ->
  (forall d, (exists p, In p items /\ prompt_day p = Some d)
             <-> (exists p, In p items' /\ prompt_day p = Some d)) ->
  validate_json fs e out = (Returned b, out1) ->
  (exists b' out1', validate_json fs' e out' = (Returned b', out1')) ->
  fst (validate_json fs' e out') = Returned b.
Proof.
  intros Hf Hf' Hg Hg' Hsame H (b' & out1' & H'). rewrite H'. cbn [fst].
  apply validators_facts.prompts_validate_json_true in H as (end_date & Ee & Hb).
  apply validators_facts.prompts_validate_json_true in H' as (end_date' & Ee' & Hb').
  rewrite Ee in Ee'. injection Ee' as <-.
  assert (Hiff : b = true <-> b' = true).
  { rewrite Hb, Hb'. split.
    - intros (x & its & Hx & Hits & Hall).
      rewrite Hf in Hx. injection Hx as <-. rewrite Hg in Hits.
      injection Hits as <-. exists data', items'. repeat split; auto.
      intros d Hd H1 H2. apply Hsame. auto.
    - intros (x & its & Hx & Hits & Hall).
      rewrite Hf' in Hx. injection Hx as <-. rewrite Hg' in Hits.
      injection Hits as <-. exists data, items. repeat split; auto.
      intros d Hd H1 H2. apply Hsame. auto. }
  f_equal. destruct b, b'; intuition congruence.
Qed.

(** The two prompts of the sample against four prompts for the same
    two dates. *)
Lemma prompts_answer_depends_on_dates_witness :
  fst (validate_json
         (samples.only (Json (JObj [("prompts", JArr examples.other_prompts)])))
         "2025-03-04" [])
  = Returned true.
Proof.
  apply (prompts_answer_depends_on_dates
           (samples.only (Json samples.good_prompts))
           (samples.only (Json (JObj [("prompts", JArr examples.other_prompts)])))
           "2025-03-04" samples.good_prompts
           (JObj [("prompts", JArr examples.other_prompts)])
           [samples.prompt "2025-03-03" "https://www.youtube.com/watch?v=1";
            samples.prompt "2025-03-04" "https://youtu.be/2"]
           examples.other_prompts []
           (snd (validate_json (samples.only (Json samples.good_prompts))
                   "2025-03-04" []))
           [] true); try reflexivity.
  - intros d. split; intros (p & Hin & Hp); cbn [In examples.other_prompts] in Hin.
    + destruct Hin as [<-|[<-|[]]]; vm_compute in Hp; injection Hp as <-.
      * exists (samples.prompt "2025-3-3" "https://www.youtube.com/watch?v=1").
        split; [cbn; auto | reflexivity].
      * exists (samples.prompt "2025-03-04" "https://youtu.be/2").
        split; [cbn; auto | reflexivity].
    + destruct Hin as [<-|[<-|[<-|[<-|[]]]]]; vm_compute in Hp;
        try discriminate; injection Hp as <-.
      * exists (samples.prompt "2025-03-04" "https://youtu.be/2").
        split; [cbn; auto | reflexivity].
      * exists (samples.prompt "2025-03-03" "https://www.youtube.com/watch?v=1").
        split; [cbn; auto | reflexivity].
      * exists (samples.prompt "2025-03-04" "https://youtu.be/2").
        split; [cbn; auto | reflexivity].
  - eexists _, _. vm_compute. reflexivity.
Defined.

End prompts_output.

(** ** Both validators: ranges and documents at the edge *)

Module validators_edges.
Import patterns py_facts.

Lemma each_day_empty {A} (body : datetime.date -> A -> M console A)
    fuel first last a out :
  datetime.le first last = false ->
  datetime.each_day fuel body first last a out = (Returned a, out).
Proof. intros Hle. destruct fuel; cbn [datetime.each_day]; now rewrite Hle. Qed.

Lemma days_empty fuel first last :
  datetime.le first last = false -> datetime.days fuel first last = [].
Proof. intros Hle. destruct fuel; cbn [datetime.days]; now rewrite Hle. Qed.

(** With an end date before the first date of the range no date is
    looked at.  The games validator then answers True on every document
    in which it finds the word games, and the prompts validator answers
    True on every list of prompts of the expected shape; each prints its
    line of success only. *)
Theorem empty_range_succeeds
    (fs : filesystem) (e : string) (end_date : datetime.date) (data : json)
    (out : console) :
  datetime.parse_date e = Some end_date ->
  fs "prompts.json" = Json data ->
  (datetime.le validate_games.first_date end_date = false ->
   py.contains "games" data = Returned true ->
   validate_games.validate_json fs e out
   = (Returned true,
      (out ++ [[Lit "Validation successful for all games from ";
                Lit "2025-03-05"; Lit " to ";
                Lit (datetime.strftime end_date); Lit "."]])%list))
  /\ (datetime.le validate_prompts.first_date end_date = false ->
      forall items,
        py.getitem data "prompts" = Returned (JArr items) ->
        forallb validate_prompts.shaped_prompt items = true ->
        validate_prompts.validate_json fs e out
        = (Returned true,
           (out ++ [[Lit "Success: All required dates are present in the prompts array."]])%list)).
Proof.
  intros Ee Hf. split.
  - intros Hle Hc.
    rewrite (validators_facts.games_validate_json_loop fs e data end_date out Hf Ee Hc).
    now rewrite each_day_empty.
  - intros Hle items Hg Hs.
    rewrite (prompts_lines.prompts_validate_json_loop fs e data items end_date out
               Hf Ee Hg).
    destruct (validate_prompts_shaped.each_prompt_returns
                validate_prompts.first_date end_date items ∅ Hs out)
      as (J & out1 & EJ).
    rewrite EJ. rewrite each_day_empty by exact Hle.
    destruct (prompts_lines.each_prompt_lines _ _ _ _ _ _ _ EJ)
      as (lines & -> & Hlen).
    assert (Hnone : List.filter
                      (prompts_ref.in_range validate_prompts.first_date end_date)
                      items = []).
    { clear - Hle. induction items as [|p items IH]; [reflexivity|].
      cbn [List.filter]. unfold prompts_ref.in_range at 1.
      destruct (validate_prompts.prompt_day p) as [d|]; [|exact IH].
      destruct (datetime.le d end_date) eqn:H1; [|exact IH].
      destruct (datetime.le validate_prompts.first_date d) eqn:H2; [|exact IH].
      exfalso. pose proof (datetime_facts.le_trans _ _ _ H2 H1). congruence. }
    rewrite Hnone in Hlen. destruct lines; [|cbn in Hlen; lia].
    now rewrite app_nil_r.
Qed.

(** Up to 4 March 2025 the games validator passes the sample whose
    games are numbers, and the prompts validator passes the prompts
    that fail their checks. *)
Lemma empty_range_succeeds_witness :
  validate_games.validate_json (samples.only (Json samples.number_games))
    "2025-03-04" []
  = (Returned true,
     [[Lit "Validation successful for all games from "; Lit "2025-03-05";
       Lit " to "; Lit "2025-03-04"; Lit "."]])
  /\ validate_prompts.validate_json (samples.only (Json samples.bad_prompts))
       "2025-03-02" []
     = (Returned true,
        [[Lit "Success: All required dates are present in the prompts array."]]).
Proof.
  split.
  - exact (proj1 (empty_range_succeeds (samples.only (Json samples.number_games))
                    "2025-03-04" (datetime.Date 2025 3 4) samples.number_games []
                    eq_refl eq_refl) eq_refl eq_refl).
  - exact (proj2 (empty_range_succeeds (samples.only (Json samples.bad_prompts))
                    "2025-03-02" (datetime.Date 2025 3 2) samples.bad_prompts []
                    eq_refl eq_refl) eq_refl
             [samples.forbidden_prompt; samples.quoted_prompt] eq_refl eq_refl).
Defined.

Lemma each_day_first_raises {A} (body : datetime.date -> A -> M console A)
    first last a out x out' :
  datetime.valid first = true -> datetime.valid last = true ->
  datetime.le first last = true ->
  body first a out = (Raised x, out') ->
  datetime.each_day (datetime.days_between first last) body first last a out
  = (Raised x, out').
Proof.
  intros Hf Hl Hle Hb.
  pose proof (each_day_facts.le_toordinal _ _ Hf Hl Hle) as Hord.
  unfold datetime.days_between.
  destruct (Z.to_nat _) as [|fuel] eqn:Efuel; [lia|].
  cbn [datetime.each_day]. rewrite Hle. unfold bind at 1. now rewrite Hb.
Qed.

(** Documents of another shape, with an end date that parses.  A
    document that is None, a boolean or a number makes both validators
    raise TypeError.  A dict without a games member makes the games
    validator print one line and answer False, and a dict whose prompts
    member is missing or is not a list does the same to the prompts
    validator.  The games member is not tested for its type: when it is
    None, a boolean or a number and the range holds a date, the games
    validator raises TypeError. *)
Theorem documents_of_another_shape
    (fs : filesystem) (e : string) (end_date : datetime.date) (data : json)
    (out : console) :
  datetime.parse_date e = Some end_date ->
  fs "prompts.json" = Json data ->
  (scalar data = true ->
   validate_games.validate_json fs e out = (Raised TypeError, out)
   /\ validate_prompts.validate_json fs e out = (Raised TypeError, out))
  /\ (forall members, data = JObj members ->
        (py.dict_get "games" members = None ->
         validate_games.validate_json fs e out
         = (Returned false,
            (out ++ [[Lit "Error: JSON file does not contain a 'games' object."]])%list))
        /\ ((forall items, py.dict_get "prompts" members <> Some (JArr items)) ->
            validate_prompts.validate_json fs e out
            = (Returned false,
               (out ++ [[Lit "Error: JSON file does not contain a 'prompts' array."]])%list))
        /\ (forall games,
              py.dict_get "games" members = Some games -> scalar games = true ->
              datetime.le validate_games.first_date end_date = true ->
              validate_games.validate_json fs e out = (Raised TypeError, out))).
Proof.
  intros Ee Hf.
  pose proof (proj2 (validate_games_json.strptime_str e end_date) Ee) as Es.
  assert (Hgames : forall k,
            validate_games.validate_json fs e out
            = match py.contains "games" data with
              | Returned has =>
                  if negb has then
                    (Returned false,
                     (out ++ [[Lit "Error: JSON file does not contain a 'games' object."]])%list)
                  else k has
              | Raised x => (Raised x, out)
              | Diverged => (Diverged, out)
              end \/ py.contains "games" data = Returned true).
  { intros k. destruct (py.contains "games" data) as [[|]| |] eqn:Hc; auto; left;
      unfold validate_games.validate_json;
      rewrite (bind_Returned _ _ out end_date out) by (unfold lift; now rewrite Es);
      rewrite (bind_Returned _ _ out validate_games.first_date out) by reflexivity;
      rewrite Hf; unfold bind, lift; rewrite Hc; reflexivity. }
  assert (Hprompts :
            validate_prompts.validate_json fs e out
            = match py.contains "prompts" data with
              | Returned true =>
                  match py.getitem data "prompts" with
                  | Returned (JArr items) => validate_prompts.validate_json fs e out
                  | Returned _ =>
                      (Returned false,
                       (out ++ [[Lit "Error: JSON file does not contain a 'prompts' array."]])%list)
                  | Raised x => (Raised x, out)
                  | Diverged => (Diverged, out)
                  end
              | Returned false =>
                  (Returned false,
                   (out ++ [[Lit "Error: JSON file does not contain a 'prompts' array."]])%list)
              | Raised x => (Raised x, out)
              | Diverged => (Diverged, out)
              end).
  { destruct (py.contains "prompts" data) as [[|]| |] eqn:Hc;
      [destruct (py.getitem data "prompts") as [[| | | |items|]| |] eqn:Hg;
       try reflexivity|..];
      unfold validate_prompts.validate_json;
      rewrite (bind_Returned _ _ out end_date out) by (unfold lift; now rewrite Es);
      rewrite (bind_Returned _ _ out validate_prompts.first_date out) by reflexivity;
      rewrite Hf; unfold bind, lift; rewrite Hc; cbn [negb]; rewrite ?Hg;
      reflexivity. }
  split.
  - intros Hs. destruct data; try discriminate; split;
      try (destruct (Hgames (fun _ => (Returned true, out))) as [->|[=]]; reflexivity);
      rewrite Hprompts; reflexivity.
  - intros members ->. split; [|split].
    + intros Hn.
      destruct (Hgames (fun _ => (Returned true, out))) as [->|Hc].
      * rewrite contains_obj, Hn.
        rewrite bool_decide_eq_false_2 by (intros [? ?]; discriminate).
        reflexivity.
      * apply contains_obj_true in Hc as [? Hc]. congruence.
    + intros Hn. rewrite Hprompts. rewrite contains_obj. cbn [py.getitem].
      destruct (py.dict_get "prompts" members) as [v|] eqn:Hv.
      * rewrite bool_decide_eq_true_2 by eauto.
        destruct v as [| | | |items|]; try reflexivity.
        now contradiction (Hn items).
      * rewrite bool_decide_eq_false_2 by (intros [? ?]; discriminate).
        reflexivity.
    + intros games Hg Hs Hle.
      rewrite (validators_facts.games_validate_json_loop fs e (JObj members)
                 end_date out Hf Ee).
      2:{ rewrite contains_obj. now rewrite bool_decide_eq_true_2 by eauto. }
      rewrite (each_day_first_raises _ _ _ _ _ TypeError out).
      * reflexivity.
      * exact validate_games_json.games_first_date_valid.
      * eapply validate_games_json.parse_date_valid; eauto.
      * exact Hle.
      * unfold validate_games.check_date, bind, lift. cbn [py.getitem].
        rewrite Hg. now destruct games.
Qed.

(** A document that is a number, and one without either member. *)
Lemma documents_of_another_shape_witness :
  (validate_games.validate_json (samples.only (Json (JNumber "7"))) "2025-03-06" []
   = (Raised TypeError, [])
   /\ validate_prompts.validate_json (samples.only (Json (JNumber "7")))
        "2025-03-06" []
      = (Raised TypeError, []))
  /\ validate_games.validate_json (samples.only (Json (JObj []))) "2025-03-06" []
     = (Returned false,
        [[Lit "Error: JSON file does not contain a 'games' object."]])
  /\ validate_prompts.validate_json (samples.only (Json (JObj []))) "2025-03-06" []
     = (Returned false,
        [[Lit "Error: JSON file does not contain a 'prompts' array."]]).
Proof.
  split; [|split].
  - exact (proj1 (documents_of_another_shape (samples.only (Json (JNumber "7")))
                    "2025-03-06" (datetime.Date 2025 3 6) (JNumber "7") []
                    eq_refl eq_refl) eq_refl).
  - exact (proj1 (proj2 (documents_of_another_shape (samples.only (Json (JObj [])))
                           "2025-03-06" (datetime.Date 2025 3 6) (JObj []) []
                           eq_refl eq_refl) [] eq_refl) eq_refl).
  - apply (proj1 (proj2 (proj2 (documents_of_another_shape
                                  (samples.only (Json (JObj [])))
                                  "2025-03-06" (datetime.Date 2025 3 6) (JObj []) []
                                  eq_refl eq_refl) [] eq_refl))).
    intros items. discriminate.
Defined.

End validators_edges.

(** ** cryptogramKeys.py: the keys that can be drawn *)

Module shuffle_draws.
Import cryptogramKeys draws.

#[local] Existing Instance tape_source.

Section Lists.
Context {A : Type}.
Implicit Types (x y : list A) (tape rest : list nat).

Lemma bounds_S n : bounds (S n) = S (S n) :: bounds n.
Proof. unfold bounds. now rewrite seq_S, rev_unit. Qed.

Lemma swap_lookups x i j xi xj :
  x !! i = Some xi -> x !! j = Some xj ->
  swap x i j = Returned (<[j:=xi]> (<[i:=xj]> x)).
Proof. intros Ei Ej. unfold swap. now rewrite Ei, Ej. Qed.

(** After the swap, place [i] holds what place [j] held. *)
Lemma swapped_at x i j xi xj :
  x !! i = Some xi -> x !! j = Some xj ->
  <[j:=xi]> (<[i:=xj]> x) !! i = Some xj.
Proof.
  intros Ei Ej. apply lookup_lt_Some in Ei as Hi.
  destruct (decide (j = i)) as [->|Hne].
  - rewrite list_lookup_insert_eq by now rewrite length_insert. congruence.
  - rewrite list_lookup_insert_ne by exact Hne.
    now apply list_lookup_insert_eq.
Qed.

Lemma swapped_above x i j (xi xj : A) k :
  j <= i -> i < k -> <[j:=xi]> (<[i:=xj]> x) !! k = x !! k.
Proof. intros Hj Hk. rewrite !list_lookup_insert_ne by lia. reflexivity. Qed.

Lemma step_tape i j tape x :
  j < S (S i) ->
  shuffle_from (S i) x (j :: tape)
  = match swap x (S i) j with
    | Returned x' => shuffle_from i x' tape
    | Raised e => (Raised e, tape)
    | Diverged => (Diverged, tape)
    end.
Proof.
  intros Hj. cbn [shuffle_from randbelow tape_source tape_randbelow].
  now rewrite Nat.mod_small by exact Hj.
Qed.

(** Every ordering of the first [i + 1] items is reached by some tape
    of draws within their bounds. *)
Lemma shuffle_from_reaches i : forall x y,
  i < length x -> length y = length x ->
  (forall k, i < k -> y !! k = x !! k) ->
  take (S i) y ≡ₚ take (S i) x ->
  exists tape, within i tape
    /\ forall rest, shuffle_from i x (tape ++ rest)%list = (Returned y, rest).
Proof.
  induction i as [|i IH]; intros x y Hi Hlen Habove Hperm.
  - exists []. split; [constructor|]. intros rest. cbn [app shuffle_from].
    replace y with x; [reflexivity|]. apply list_eq. intros [|k].
    + destruct x as [|a x], y as [|b y]; try discriminate; [reflexivity|].
      cbn [take] in Hperm. apply Permutation_singleton_r in Hperm.
      now injection Hperm as ->.
    + symmetry. apply Habove. lia.
  - destruct (lookup_lt_is_Some_2 y (S i) ltac:(lia)) as [a Ea].
    destruct (lookup_lt_is_Some_2 x (S i) Hi) as [xi Exi].
    assert (Hin : a ∈ take (S (S i)) x).
    { rewrite <- Hperm. apply list_elem_of_lookup. exists (S i).
      rewrite lookup_take. destruct (decide (S i < S (S i))); [exact Ea | lia]. }
    apply list_elem_of_lookup in Hin as [j Ej]. rewrite lookup_take in Ej.
    destruct (decide (j < S (S i))) as [Hj|]; [|discriminate].
    set (x' := <[j:=xi]> (<[S i:=a]> x)).
    assert (Ex' : x' !! S i = Some a) by now apply swapped_at.
    destruct (IH x' y) as (tape & Htape & Hrun).
    + unfold x'. rewrite !length_insert. lia.
    + unfold x'. now rewrite !length_insert.
    + intros k Hk. destruct (decide (k = S i)) as [->|Hne]; [congruence|].
      unfold x'. rewrite swapped_above by lia. apply Habove. lia.
    + apply (Permutation_app_inv_r [a]).
      rewrite <- (take_S_r y (S i) a Ea), <- (take_S_r x' (S i) a Ex').
      rewrite Hperm. symmetry. unfold x'.
      rewrite !take_insert_lt by lia.
      apply Permutation_insert_swap; rewrite lookup_take;
        [destruct (decide (S i < S (S i))) | destruct (decide (j < S (S i)))];
        auto; lia.
    + exists (j :: tape). split.
      * unfold within. rewrite bounds_S. now constructor.
      * intros rest. cbn [app]. rewrite step_tape by exact Hj.
        rewrite (swap_lookups x (S i) j xi a Exi Ej). apply Hrun.
Qed.

(** The places above [i] are not touched. *)
Lemma shuffle_from_above i : forall x tape y rest,
  shuffle_from i x tape = (Returned y, rest) ->
  forall k, i < k -> y !! k = x !! k.
Proof.
  induction i as [|i IH]; intros x tape y rest H k Hk.
  - cbn in H. now injection H as <- _.
  - cbn [shuffle_from] in H.
    pose proof (randbelow_lt (S (S i)) tape ltac:(lia)) as Hj.
    destruct (randbelow (S (S i)) tape) as [j tape1]. cbn [fst] in Hj.
    unfold swap in H.
    destruct (x !! j) as [xj|]; [|discriminate].
    destruct (x !! S i) as [xi|]; [|discriminate].
    rewrite (IH _ _ _ _ H k ltac:(lia)). apply swapped_above; lia.
Qed.

(** Two tapes of draws within their bounds that give the same ordering
    of a list without repeated items are the same tape. *)
Lemma shuffle_from_draws_unique i : forall x tape1 tape2 y rest1 rest2,
  NoDup x -> i < length x ->
  within i tape1 -> within i tape2 ->
  shuffle_from i x tape1 = (Returned y, rest1) ->
  shuffle_from i x tape2 = (Returned y, rest2) ->
  tape1 = tape2.
Proof.
  induction i as [|i IH]; intros x tape1 tape2 y rest1 rest2 Hnd Hi H1 H2 E1 E2.
  - inversion H1. inversion H2. reflexivity.
  - unfold within in H1, H2. rewrite bounds_S in H1, H2.
    inversion H1 as [|j1 b1 t1 bs1 Hj1 Ht1]; subst.
    inversion H2 as [|j2 b2 t2 bs2 Hj2 Ht2]; subst.
    rewrite step_tape in E1, E2 by assumption.
    destruct (lookup_lt_is_Some_2 x (S i) Hi) as [xi Exi].
    destruct (lookup_lt_is_Some_2 x j1 ltac:(lia)) as [a1 Ea1].
    destruct (lookup_lt_is_Some_2 x j2 ltac:(lia)) as [a2 Ea2].
    rewrite (swap_lookups x (S i) j1 xi a1 Exi Ea1) in E1.
    rewrite (swap_lookups x (S i) j2 xi a2 Exi Ea2) in E2.
    pose proof (shuffle_from_above _ _ _ _ _ E1 (S i) ltac:(lia)) as Hy1.
    pose proof (shuffle_from_above _ _ _ _ _ E2 (S i) ltac:(lia)) as Hy2.
    rewrite (swapped_at x (S i) j1 xi a1 Exi Ea1) in Hy1.
    rewrite (swapped_at x (S i) j2 xi a2 Exi Ea2) in Hy2.
    assert (a1 = a2) by congruence. subst a2.
    assert (j1 = j2) by (eapply NoDup_lookup; eauto). subst j2.
    f_equal. eapply (IH (<[j1:=xi]> (<[S i:=a1]> x))); eauto.
    + assert (P : <[j1:=xi]> (<[S i:=a1]> x) ≡ₚ x)
        by now apply Permutation_insert_swap.
      now rewrite P.
    + rewrite !length_insert. lia.
Qed.

End Lists.

Lemma letters_value_NoDup : NoDup letters_value.
Proof.
  unfold letters_value. apply NoDup_fmap_2_strong; [|apply NoDup_seq].
  intros a b Ha Hb E. apply elem_of_seq in Ha, Hb.
  rewrite <- (nat_ascii_embedding a), <- (nat_ascii_embedding b) by lia.
  now rewrite E.
Qed.

(** The characters of a derangement key are a shuffle of the alphabet
    that passes the scan. *)
Lemma derangement_key_shuffle key :
  derangement_key key ->
  list_ascii_of_string key ≡ₚ letters_value
  /\ fixed_point_free (list_ascii_of_string key) = true.
Proof.
  intros (Hlen & Hup & Hnd & Hfix). split.
  - apply submseteq_length_Permutation.
    + apply NoDup_submseteq; [exact Hnd|]. intros c Hc.
      specialize (Hup c Hc). unfold letters_value.
      apply list_elem_of_fmap. exists (nat_of_ascii c).
      split; [now rewrite ascii_nat_embedding | apply elem_of_seq; lia].
    + rewrite string_facts.length_list_ascii, Hlen. reflexivity.
  - unfold fixed_point_free. apply forallb_forall. intros i Hi.
    apply in_seq in Hi. apply negb_true_iff. unfold agree_at.
    specialize (Hfix i ltac:(lia)).
    rewrite <- (string_of_list_ascii_of_string key) in Hfix.
    rewrite cryptogramKeys_props.get_string_of_list_ascii in Hfix.
    replace (String.get i alphabet) with (letters_value !! i) in Hfix.
    2:{ rewrite cryptogramKeys_props.letters_value_alphabet,
          <- cryptogramKeys_props.get_string_of_list_ascii.
        now rewrite string_of_list_ascii_of_string. }
    destruct (list_ascii_of_string key !! i) as [a|]; [|reflexivity].
    destruct (letters_value !! i) as [b|]; [|reflexivity].
    apply Ascii.eqb_neq. congruence.
Qed.

(** The first trial of a call on a tape: the shuffle of the alphabet
    that the tape gives, returned when it passes the scan. *)
Lemma first_trial tape h out x rest :
  shuffle letters_value tape = (Returned x, rest) ->
  fixed_point_free x = true ->
  exists w', generate_cryptogram_key 1 (World tape h out)
             = (Returned (string_of_list_ascii x), w').
Proof.
  intros Es Hf.
  destruct (cryptogramKeys_facts.generate_refines 1 (World tape h out))
    as (h' & _ & E).
  cbn [rng pure_trials] in E. rewrite Es, Hf in E. cbn [fst snd] in E. eauto.
Qed.

End shuffle_draws.

Module generator_reach.
Import cryptogramKeys draws shuffle_draws.

(** Every derangement key can be generated: for each there is a tape
    of 25 draws, each within its bound, on which the first trial of a
    call returns that key. *)
Theorem every_derangement_key_is_generated
    (key : string) (h : gmap loc (list ascii)) (out : list string) :
  derangement_key key ->
  exists tape w',
    within 25 tape
    /\ @generate_cryptogram_key _ tape_source 1 (World tape h out)
       = (Returned key, w').
Proof.
  intros Hkey. destruct (derangement_key_shuffle key Hkey) as [Hperm Hfree].
  assert (Hlen : length (list_ascii_of_string key) = 26) by now rewrite Hperm.
  destruct (@shuffle_from_reaches ascii 25 letters_value (list_ascii_of_string key))
    as (tape & Htape & Hrun).
  - cbn. lia.
  - exact Hlen.
  - intros k Hk. rewrite !lookup_ge_None_2; [reflexivity | cbn; lia | lia].
  - rewrite !take_ge by (cbn; lia). exact Hperm.
  - specialize (Hrun []). rewrite app_nil_r in Hrun.
    destruct (first_trial tape h out (list_ascii_of_string key) [] Hrun Hfree)
      as (w' & E).
    rewrite string_of_list_ascii_of_string in E. eauto.
Qed.

(** The alphabet moved by one place is a derangement key, as a run
    with the source that always draws 0 shows. *)
Lemma every_derangement_key_is_generated_witness :
  exists tape w',
    within 25 tape
    /\ @generate_cryptogram_key _ tape_source 1 (World tape ∅ [])
       = (Returned "BCDEFGHIJKLMNOPQRSTUVWXYZA", w').
Proof.
  apply (every_derangement_key_is_generated "BCDEFGHIJKLMNOPQRSTUVWXYZA" ∅ []).
  apply (@cryptogramKeys_calls.generate_Returned_key _ zero_source 1
           (World tt ∅ [])
           "BCDEFGHIJKLMNOPQRSTUVWXYZA"
           (snd (@generate_cryptogram_key _ zero_source 1 (World tt ∅ [])))).
  vm_compute. reflexivity.
Defined.

(** Different draws give different keys: two different tapes of 25
    draws within their bounds never make the first trial return the same
    key, so the orderings of the alphabet and the tapes of draws
    correspond one to one. *)
Theorem different_draws_give_different_keys
    (key1 key2 : string) (tape1 tape2 : list nat)
    (h1 h2 : gmap loc (list ascii)) (out1 out2 : list string)
    (w1 w2 : world (list nat)) :
  within 25 tape1 -> within 25 tape2 -> tape1 <> tape2 ->
  @generate_cryptogram_key _ tape_source 1 (World tape1 h1 out1) = (Returned key1, w1) ->
  @generate_cryptogram_key _ tape_source 1 (World tape2 h2 out2) = (Returned key2, w2) ->
  key1 <> key2.
Proof.
  intros H1 H2 Hne E1 E2 <-. apply Hne.
  assert (Hshuffle : forall tape h out w,
            @generate_cryptogram_key _ tape_source 1 (World tape h out)
            = (Returned key1, w) ->
            exists rest, @shuffle _ tape_source _ letters_value tape
                         = (Returned (list_ascii_of_string key1), rest)).
  { intros tape h out w E.
    apply cryptogramKeys_calls.generate_frame in E as (_ & _ & E).
    cbn [rng pure_trials] in E.
    destruct (@shuffle _ tape_source _ letters_value tape) as [[x| |] rest];
      try discriminate.
    destruct (fixed_point_free x); [|discriminate].
    injection E as <- _. rewrite list_ascii_of_string_of_list_ascii. eauto. }
  destruct (Hshuffle _ _ _ _ E1) as [rest1 S1].
  destruct (Hshuffle _ _ _ _ E2) as [rest2 S2].
  eapply (@shuffle_from_draws_unique ascii 25 letters_value);
    eauto using letters_value_NoDup.
Qed.

(** The tape of 25 draws of 0 and the tape that begins with a draw
    of 1. *)
Lemma different_draws_give_different_keys_witness :
  "BCDEFGHIJKLMNOPQRSTUVWXYZA" <> "ZCDEFGHIJKLMNOPQRSTUVWXYAB".
Proof.
  apply (different_draws_give_different_keys
           "BCDEFGHIJKLMNOPQRSTUVWXYZA" "ZCDEFGHIJKLMNOPQRSTUVWXYAB"
           (repeat 0 25) (1 :: repeat 0 24) ∅ ∅ [] []
           (snd (@generate_cryptogram_key _ tape_source 1
                   (World (repeat 0 25) ∅ [])))
           (snd (@generate_cryptogram_key _ tape_source 1
                   (World (1 :: repeat 0 24) ∅ [])))).
  - unfold within, bounds. cbn. repeat (constructor; [lia|]). constructor.
  - unfold within, bounds. cbn. repeat (constructor; [lia|]). constructor.
  - discriminate.
  - vm_compute. reflexivity.
  - vm_compute. reflexivity.
Defined.

End generator_reach.

(** ** datetime: texts of dates, and the dates of the loop *)

Module date_texts.
Import datetime datetime_facts.
#[local] Open Scope Z_scope.

Lemma digit_is_digit n : py.is_digit (digit n) = true.
Proof.
  unfold digit, py.is_digit, py.between.
  assert (0 <= n mod 10 < 10) by (apply Z.mod_pos_bound; lia).
  rewrite nat_ascii_embedding by lia.
  apply andb_true_iff. split; apply Nat.leb_le; lia.
Qed.

Lemma digit_value_digit n : digit_value (digit n) = n mod 10.
Proof.
  unfold digit, digit_value.
  assert (0 <= n mod 10 < 10) by (apply Z.mod_pos_bound; lia).
  rewrite nat_ascii_embedding by lia. lia.
Qed.

Lemma parse_year_pad4 y rest :
  0 <= y <= 9999 -> parse_year (pad4 y ++ rest) = Some (y, rest).
Proof.
  intros Hy. unfold pad4. cbn [app parse_year].
  rewrite !digit_is_digit, !digit_value_digit. cbn [andb].
  do 2 f_equal. Z.to_euclidean_division_equations. lia.
Qed.

Lemma parse_month_pad2 m rest :
  1 <= m <= 12 -> parse_month (pad2 m ++ rest) = Some (m, rest).
Proof. intros Hm. by_month Hm; reflexivity. Qed.

Lemma parse_day_pad2 d :
  1 <= d <= 31 -> parse_day (pad2 d) = Some (d, []).
Proof.
  intros Hd. rewrite <- (Z2Nat.id d) by lia.
  assert (Hn : (Z.to_nat d <= 31)%nat) by lia.
  assert (H0 : (Z.to_nat d <> 0)%nat) by lia.
  revert Hn H0. generalize (Z.to_nat d). intros n Hn H0.
  do 32 (destruct n as [|n]; [try reflexivity; lia|]). lia.
Qed.

Lemma parse_date_strftime d :
  valid d = true -> parse_date (strftime d) = Some d.
Proof.
  intros Hv. pose proof Hv as Hv'.
  apply valid_spec in Hv' as (Hy & Hm & Hd).
  pose proof (days_in_month_bounds (year d) (month d) Hm).
  unfold parse_date, strftime. rewrite list_ascii_of_string_of_list_ascii.
  rewrite parse_year_pad4 by lia. cbn [mbind option_bind expect].
  rewrite Ascii.eqb_refl. cbn [mbind option_bind].
  rewrite parse_month_pad2 by lia. cbn [mbind option_bind expect].
  rewrite Ascii.eqb_refl. cbn [mbind option_bind].
  rewrite parse_day_pad2 by lia. cbn [mbind option_bind].
  destruct d as [y m dd]. cbn [year month day] in *. now rewrite Hv.
Qed.



End date_texts.

Module dates_contract.
Import datetime.
#[local] Open Scope Z_scope.

(** The text that the validators write for a date, from the year 1000
    on, has ten characters and parses back to the same date: the keys
    looked up in the games object and the dates noted for the prompts
    are dates in this one spelling. *)
Theorem date_text_round_trip (d : date) :
  valid d = true -> 1000 <= year d ->
  String.length (strftime d) = 10%nat
  /\ strptime (JStr (strftime d)) = Returned d.
Proof.
  intros Hv _. split; [reflexivity|].
  cbn [strptime]. now rewrite date_texts.parse_date_strftime.
Qed.

Lemma date_text_round_trip_witness :
  String.length (strftime (Date 2025 3 5)) = 10%nat
  /\ strptime (JStr (strftime (Date 2025 3 5))) = Returned (Date 2025 3 5).
Proof.
  apply (date_text_round_trip (Date 2025 3 5)); [reflexivity | cbn; lia].
Defined.



End dates_contract.

(** ** validate_games.py: entries that are no list of two games *)

Module games_entries.
Import validate_games py_facts.

(** What the body of the games loop makes of the entry of its date.
    Without an entry, and with an entry of fewer than two items, be it
    a list, a dict or a string, it prints one line, clears the flag and
    leaves both sets as they are.  An entry that is None, a boolean or a
    number raises TypeError when its length is taken; a dict of two or
    more members raises KeyError at game[0], and a string of two or more
    characters raises TypeError at game[0]['type']. *)
Theorem entries_that_are_no_games
    (members games : list (string * json)) (date_str : string)
    (t : tally) (out : console) :
  py.dict_get "games" members = Some (JObj games) ->
  match py.dict_get date_str games with
  | None =>
      check_date (JObj members) date_str t out
      = (Returned (invalidate t),
         (out ++ [[Lit "Error: Missing game for date "; Lit date_str]])%list)
  | Some game =>
      (scalar game = true ->
       check_date (JObj members) date_str t out = (Raised TypeError, out))
      /\ (forall n, py.len game = Returned n -> n < 2 ->
            check_date (JObj members) date_str t out
            = (Returned (invalidate t),
               (out ++ [[Lit "Error: Game for "; Lit date_str;
                         Lit " doesn't have at least 2 elements"]])%list))
      /\ (forall n game_members,
            game = JObj game_members -> py.len game = Returned n -> 2 <= n ->
            check_date (JObj members) date_str t out = (Raised KeyError, out))
      /\ (forall n s,
            game = JStr s -> py.len game = Returned n -> 2 <= n ->
            check_date (JObj members) date_str t out = (Raised TypeError, out))
  end.
Proof.
  intros Hg. unfold check_date, bind, lift. cbn [py.getitem]. rewrite Hg.
  rewrite contains_obj. cbn [obind py.getitem].
  destruct (py.dict_get date_str games) as [game|] eqn:Hd.
  2:{ rewrite bool_decide_eq_false_2 by (intros [? ?]; discriminate).
      reflexivity. }
  rewrite bool_decide_eq_true_2 by eauto. cbn [negb].
  split; [|split; [|split]].
  - intros Hs. now destruct game.
  - intros n Hn Hlt. rewrite Hn.
    destruct (Nat.ltb_spec n 2) as [_|]; [reflexivity | lia].
  - intros n game_members -> Hn Hge. rewrite Hn.
    destruct (Nat.ltb_spec n 2) as [|_]; [lia|]. reflexivity.
  - intros n s -> Hn Hge. rewrite Hn.
    destruct (Nat.ltb_spec n 2) as [|_]; [lia|].
    unfold check_lingo, bind, lift. cbn [py.getindex].
    cbn [py.len] in Hn. injection Hn as <-.
    destruct s as [|c s]; [cbn in Hge; lia|]. reflexivity.
Qed.

(** The date 5 March 2025 without an entry, and with the entry None. *)
Lemma entries_that_are_no_games_witness :
  check_date (JObj [("games", JObj [])]) "2025-03-05" (Tally ∅ ∅ true) []
  = (Returned (Tally ∅ ∅ false),
     [[Lit "Error: Missing game for date "; Lit "2025-03-05"]])
  /\ check_date (JObj [("games", JObj [("2025-03-05", JNull)])]) "2025-03-05"
       (Tally ∅ ∅ true) []
     = (Raised TypeError, []).
Proof.
  split.
  - exact (entries_that_are_no_games [("games", JObj [])] [] "2025-03-05"
             (Tally ∅ ∅ true) [] eq_refl).
  - exact (proj1 (entries_that_are_no_games
                    [("games", JObj [("2025-03-05", JNull)])]
                    [("2025-03-05", JNull)] "2025-03-05"
                    (Tally ∅ ∅ true) [] eq_refl) eq_refl).
Defined.

End games_entries.

(** ** Both validators come to an end *)

Module validators_halt.

(** Whatever the file and the end date, neither validator runs for
    ever: the loop over the dates moves one day at a time towards the end
    date, and the step budget that the model gives it is never used
    up. *)
Theorem validators_come_to_an_end (fs : filesystem) (e : string) :
  halts (validate_games.validate_json fs e)
  /\ halts (validate_prompts.validate_json fs e)
  /\ (forall argv, halts (validate_games.main fs argv)
                   /\ halts (validate_prompts.main fs argv)).
Proof.
  split; [apply halting_facts.games_validate_json_halts|].
  split; [apply halting_facts.prompts_validate_json_halts|].
  intros argv. split.
  - unfold validate_games.main. apply halting_facts.halts_bind.
    + apply halting_facts.halts_lift, halting_facts.parse_args_halts.
    + intros args. apply halting_facts.halts_bind.
      * apply halting_facts.games_validate_json_halts.
      * intros _. apply halting_facts.halts_ret.
  - unfold validate_prompts.main. apply halting_facts.halts_bind.
    + apply halting_facts.halts_lift, halting_facts.parse_args_halts.
    + intros args. apply halting_facts.halts_bind.
      * apply halting_facts.prompts_validate_json_halts.
      * intros _. apply halting_facts.halts_ret.
Qed.

End validators_halt.

(** ** validate_games.py: a solution used twice *)

Module games_repeats.
Import validate_games py_facts validate_games_facts.

Implicit Types (t : tally) (out : console).

(** What [lingo_solution] tells of the first game. *)
Lemma lingo_solution_Some game s :
  lingo_solution game = Some s ->
  exists m0 rest type config,
    game = JArr (JObj m0 :: rest)
    /\ py.dict_get "type" m0 = Some type /\ py.eq_str type "lingo" = true
    /\ py.dict_get "config" m0 = Some (JObj config)
    /\ py.dict_get "solution" config = Some (JStr s)
    /\ passes (is_valid_lingo_solution (JStr s) ∅) = true.
Proof.
  destruct game as [| | | |[|[| | | | |m0] rest]|]; try discriminate.
  cbn [lingo_solution].
  destruct (py.dict_get "type" m0) as [type|] eqn:Et; [|discriminate].
  destruct (py.dict_get "config" m0) as [[| | | | |config]|] eqn:Ec;
    try discriminate.
  destruct (py.dict_get "solution" config) as [[| | |s'| |]|] eqn:Es;
    try discriminate.
  destruct (py.eq_str type "lingo") eqn:Ety; [|discriminate].
  destruct (passes _) eqn:Hp; [|discriminate].
  intros [= ->]. exists m0, rest, type, config. auto 10.
Qed.

(** The lingo part on a solution that is already in the set: one line,
    which names the solution as not unique. *)
Lemma check_lingo_repeat game ds t s out :
  lingo_solution game = Some s -> s ∈ all_lingo_solutions t ->
  check_lingo game ds t out
  = (Returned (invalidate t),
     (out ++ [[Lit "Error on "; Lit ds; Lit ": "; Lit "Lingo solution '";
               Val (JStr s); Lit "' is not unique."]])%list).
Proof.
  intros Hs Hin.
  apply lingo_solution_Some in Hs
    as (m0 & rest & type & config & -> & Et & Ety & Ec & Es & Hp).
  rewrite lingo_str_passes in Hp.
  apply andb_true_iff in Hp as [Hp _]. apply andb_true_iff in Hp as [Hlen Hletters].
  unfold check_lingo, lingo_config_missing, bind, lift.
  cbn [py.getindex lookup list_lookup py.getitem obind].
  rewrite Et, Ety. cbn [negb]. rewrite contains_obj. cbn [obind].
  rewrite bool_decide_eq_true_2 by eauto. cbn [negb].
  rewrite Ec. cbn [obind]. rewrite contains_obj.
  rewrite bool_decide_eq_true_2 by eauto. cbn [negb py.getitem].
  rewrite Es. unfold is_valid_lingo_solution.
  cbn [py.len py.on_str py.in_set obind]. rewrite Hlen, Hletters.
  cbn [negb]. rewrite bool_decide_eq_true_2 by exact Hin.
  reflexivity.
Qed.

(** One date: the set of solutions only grows, and it holds the
    solution of the date afterwards. *)
Lemma check_date_solutions members games ds t out t' out' :
  py.dict_get "games" members = Some (JObj games) ->
  check_date (JObj members) ds t out = (Returned t', out') ->
  all_lingo_solutions t ⊆ all_lingo_solutions t'
  /\ forall s, solution_on games ds s -> s ∈ all_lingo_solutions t'.
Proof.
  intros Hg H. unfold check_date in H.
  step H as games' Eg. cbn [py.getitem] in Eg. rewrite Hg in Eg.
  injection Eg as <-.
  step H as present Ep. rewrite contains_obj in Ep. injection Ep as <-.
  destruct (py.dict_get ds games) as [game|] eqn:Hd.
  2:{ rewrite bool_decide_eq_false_2 in H by (intros [? ?]; discriminate).
      cbn [negb] in H. step H as u Eu. finish H. split; [reflexivity|].
      intros s (g0 & g1 & rest & Hd' & _). congruence. }
  rewrite bool_decide_eq_true_2 in H by eauto. cbn [negb] in H.
  step H as game' Egame. cbn [py.getitem obind] in Egame.
  rewrite Hg in Egame. cbn [obind py.getitem] in Egame. rewrite Hd in Egame.
  injection Egame as <-.
  step H as n En. destruct (Nat.ltb_spec n 2) as [Hlt|Hge].
  { step H as u Eu. finish H. split; [reflexivity|].
    intros s (g0 & g1 & rest & Hd' & _).
    assert (game = JArr (g0 :: g1 :: rest)) by congruence. subst game.
    cbn in En. injection En as <-. cbn in Hlt. lia. }
  step H as t1 E1 in o1.
  apply check_lingo_spec in E1.
  apply check_scryptogram_spec in H as (Hsame & _). rewrite Hsame.
  destruct (lingo_solution game) as [s'|] eqn:Hs'.
  - destruct (bool_decide_reflect (s' ∈ all_lingo_solutions t)) as [Hin|Hin].
    + subst t1. split; [reflexivity|].
      intros s (g0 & g1 & rest & Hd' & Hs).
      assert (game = JArr (g0 :: g1 :: rest)) by congruence. subst game.
      assert (s = s') by congruence. subst s'. exact Hin.
    + destruct E1 as [-> _]. cbn [all_lingo_solutions]. split.
      * apply union_subseteq_r.
      * intros s (g0 & g1 & rest & Hd' & Hs).
        assert (game = JArr (g0 :: g1 :: rest)) by congruence. subst game.
        assert (s = s') by congruence. subst s'.
        apply elem_of_union. left. now apply elem_of_singleton.
  - subst t1. split; [reflexivity|].
    intros s (g0 & g1 & rest & Hd' & Hs).
    assert (game = JArr (g0 :: g1 :: rest)) by congruence. subst game.
    congruence.
Qed.

(** One date with a solution that is already in the set: the line that
    names it as not unique is among the lines printed for the date. *)
Lemma check_date_repeat members games ds t out t' out' s :
  py.dict_get "games" members = Some (JObj games) ->
  check_date (JObj members) ds t out = (Returned t', out') ->
  solution_on games ds s -> s ∈ all_lingo_solutions t ->
  exists lines, out' = (out ++ lines)%list
    /\ In [Lit "Error on "; Lit ds; Lit ": "; Lit "Lingo solution '";
           Val (JStr s); Lit "' is not unique."] lines.
Proof.
  intros Hg H (g0 & g1 & rest & Hd & Hs) Hin. unfold check_date in H.
  step H as games' Eg. cbn [py.getitem] in Eg. rewrite Hg in Eg.
  injection Eg as <-.
  step H as present Ep. rewrite contains_obj in Ep. injection Ep as <-.
  rewrite bool_decide_eq_true_2 in H by eauto. cbn [negb] in H.
  step H as game' Egame. cbn [py.getitem obind] in Egame.
  rewrite Hg in Egame. cbn [obind py.getitem] in Egame. rewrite Hd in Egame.
  injection Egame as <-.
  step H as n En. cbn in En. injection En as <-. cbn [Nat.ltb Nat.leb] in H.
  step H as t1 E1 in o1.
  rewrite (check_lingo_repeat _ _ _ s _ Hs Hin) in E1. injection E1 as <- <-.
  apply games_lines.check_scryptogram_lines in H as (lines & -> & _).
  eexists. rewrite <- app_assoc. split; [reflexivity|]. now left.
Qed.

(** The loop over a list of dates in which a date comes after another
    one with the same solution. *)
Lemma fold_days_repeat members games s d2 later : forall earlier t out t' out',
  py.dict_get "games" members = Some (JObj games) ->
  datetime.fold_days (fun d => check_date (JObj members) (datetime.strftime d))
    (earlier ++ d2 :: later)%list t out = (Returned t', out') ->
  solution_on games (datetime.strftime d2) s ->
  (s ∈ all_lingo_solutions t
   \/ exists d1, In d1 earlier /\ solution_on games (datetime.strftime d1) s) ->
  exists lines, out' = (out ++ lines)%list
    /\ In [Lit "Error on "; Lit (datetime.strftime d2); Lit ": ";
           Lit "Lingo solution '"; Val (JStr s); Lit "' is not unique."] lines.
Proof.
  induction earlier as [|d earlier IH]; intros t out t' out' Hg H Hs2 Hbefore.
  - cbn [app datetime.fold_days] in H. step H as t1 E1 in o1.
    destruct Hbefore as [Hin|(d1 & [] & _)].
    destruct (check_date_repeat _ _ _ _ _ _ _ _ Hg E1 Hs2 Hin)
      as (l1 & -> & Hline).
    apply games_lines.fold_days_lines in H as (l2 & -> & _).
    exists (l1 ++ l2)%list. rewrite <- app_assoc. split; [reflexivity|].
    apply in_or_app. now left.
  - cbn [app datetime.fold_days] in H. step H as t1 E1 in o1.
    destruct (check_date_solutions _ _ _ _ _ _ _ Hg E1) as [Hsub Hnew].
    apply games_lines.check_date_lines in E1 as (l1 & -> & _).
    destruct (IH _ _ _ _ Hg H Hs2) as (l2 & -> & Hline).
    { destruct Hbefore as [Hin|(d1 & [<-|Hd1] & Hs1)]; eauto. }
    exists (l1 ++ l2)%list. rewrite <- app_assoc. split; [reflexivity|].
    apply in_or_app. now right.
Qed.

(** The dates of the loop come in the order of the calendar: what
    follows a date in the list is later. *)
Lemma days_later last fuel : forall cur earlier d later x,
  datetime.valid cur = true ->
  datetime.days fuel cur last = (earlier ++ d :: later)%list ->
  In x later -> datetime.le d x = true /\ x <> d.
Proof.
  induction fuel as [|fuel IH]; intros cur earlier d later x Hv E Hx.
  - cbn [datetime.days] in E. destruct (datetime.le cur last);
      destruct earlier; discriminate.
  - cbn [datetime.days] in E. destruct (datetime.le cur last) eqn:Hle.
    2:{ destruct earlier; discriminate. }
    destruct (datetime_facts.add_one_day_spec cur Hv)
      as [[_ Ea]|(next & Ea & Hvn & Hcn & Hne & _)]; rewrite Ea in E.
    { destruct earlier as [|? [|? ?]]; try discriminate.
      injection E as _ <-. destruct Hx. }
    destruct earlier as [|c earlier]; cbn [app] in E.
    + injection E as <- <-.
      apply list_elem_of_In in Hx.
      apply (each_day_facts.days_sound last) in Hx as (_ & Hnx & _);
        [|exact Hvn].
      split; [eauto using datetime_facts.le_trans|].
      intros ->. apply Hne. now apply datetime_facts.le_antisym.
    + injection E as _ E. eapply IH; eauto.
Qed.

End games_repeats.

Module games_repeats_contract.
Import validate_games games_repeats.

(** A solution that is used on two dates of the range is reported on
    the later one: when the games validator returns, it has printed for
    the later date the line that names the solution as not unique, and
    its answer is False. *)
Theorem repeated_solution_is_reported_on_the_later_date
    (fs : filesystem) (e : string) (out : console) (b : bool) (out' : console)
    (members games : list (string * json)) (end_date d1 d2 : datetime.date)
    (s : string) :
  validate_json fs e out = (Returned b, out') ->
  fs "prompts.json" = Json (JObj members) ->
  py.dict_get "games" members = Some (JObj games) ->
  datetime.parse_date e = Some end_date ->
  datetime.valid d1 = true -> datetime.valid d2 = true ->
  datetime.le first_date d1 = true -> datetime.le d1 d2 = true -> d1 <> d2 ->
  datetime.le d2 end_date = true ->
  solution_on games (datetime.strftime d1) s ->
  solution_on games (datetime.strftime d2) s ->
  b = false
  /\ exists printed,
       out' = (out ++ printed)%list
       /\ In [Lit "Error on "; Lit (datetime.strftime d2); Lit ": ";
              Lit "Lingo solution '"; Val (JStr s); Lit "' is not unique."]
            printed.
Proof.
  intros H Hf Hg Ee Hv1 Hv2 H01 H12 Hne H2e Hs1 Hs2.
  pose proof (validate_games_json.parse_date_valid _ _ Ee) as Hve.
  rewrite (validators_facts.games_validate_json_loop fs e (JObj members) end_date out
             Hf Ee) in H.
  2:{ rewrite py_facts.contains_obj. now rewrite bool_decide_eq_true_2 by eauto. }
  destruct (datetime.each_day _ _ _ _ _ out) as [[t| |] out1] eqn:El;
    try discriminate.
  injection H as <- <-.
  apply each_day_facts.each_day_Returned in El as [Ef _];
    [|exact validate_games_json.games_first_date_valid].
  assert (Hin2 : d2 ∈ datetime.days (datetime.days_between first_date end_date)
                        first_date end_date).
  { apply days_facts.days_range; auto using validate_games_json.games_first_date_valid.
    eauto using datetime_facts.le_trans. }
  assert (Hin1 : d1 ∈ datetime.days (datetime.days_between first_date end_date)
                        first_date end_date).
  { apply days_facts.days_range; auto using validate_games_json.games_first_date_valid.
    eauto using datetime_facts.le_trans. }
  apply list_elem_of_split in Hin2 as (earlier & later & Edays).
  rewrite Edays in Ef, Hin1.
  assert (Hd1 : In d1 earlier).
  { apply elem_of_app in Hin1 as [Hin1|Hin1]; [now apply list_elem_of_In|].
    apply elem_of_cons in Hin1 as [->|Hin1]; [contradiction|].
    apply list_elem_of_In in Hin1.
    destruct (days_later _ _ _ _ _ _ _
                validate_games_json.games_first_date_valid Edays Hin1) as [Hle Hx].
    exfalso. apply Hx. now apply datetime_facts.le_antisym. }
  destruct (fold_days_repeat members games s d2 later earlier _ _ _ _ Hg Ef Hs2
              ltac:(right; eauto)) as (lines & Eout & Hline).
  apply games_lines.fold_days_lines in Ef as (lines' & Eout' & _ & Hfor & Hflag).
  assert (lines' = lines) by (apply (app_inv_head out); congruence).
  subst lines' out1.
  cbn [valid] in Hflag. split.
  - destruct Hflag as [[-> _]|[_ ->]]; [destruct Hline | reflexivity].
  - exists (lines ++ [report t end_date])%list. rewrite <- app_assoc.
    split; [reflexivity|]. apply in_or_app. now left.
Qed.

(** The solution apple on 5 and on 6 March 2025. *)
Lemma repeated_solution_is_reported_on_the_later_date_witness :
  false = false
  /\ exists printed,
       snd (validate_json
              (samples.only (Json (JObj [("games", JObj examples.repeated_games)])))
              "2025-03-06" [])
       = ([] ++ printed)%list
       /\ In [Lit "Error on "; Lit "2025-03-06"; Lit ": ";
              Lit "Lingo solution '"; Val (JStr "apple"); Lit "' is not unique."]
            printed.
Proof.
  apply (repeated_solution_is_reported_on_the_later_date
           (samples.only (Json (JObj [("games", JObj examples.repeated_games)])))
           "2025-03-06" [] false
           (snd (validate_json
                   (samples.only
                      (Json (JObj [("games", JObj examples.repeated_games)])))
                   "2025-03-06" []))
           [("games", JObj examples.repeated_games)] examples.repeated_games
           (datetime.Date 2025 3 6) (datetime.Date 2025 3 5)
           (datetime.Date 2025 3 6) "apple");
    try reflexivity; try discriminate;
    do 3 eexists; split; reflexivity.
Defined.

End games_repeats_contract.

(** ** validate_prompts.py: prompts that are passed over, and prompts
    that stop the run *)

Module prompts_skipped.
Import validate_prompts py_facts.

(** The loop over the prompts at a prompt whose date cannot be used.  A
    dict without a Date, and one whose Date is a string that is no date,
    is passed over without a word: the run goes on as if the prompt were
    not in the list.  A Date that is not a string raises TypeError, which
    the handler for ValueError lets through, and so does a prompt that is
    None, a boolean or a number. *)
Theorem prompts_without_a_usable_date
    (prompt : json) (items : list json) (start_date end_date : datetime.date)
    (json_dates : gset string) (out : console) :
  (forall members,
     prompt = JObj members ->
     (py.dict_get "Date" members = None
      \/ exists s, py.dict_get "Date" members = Some (JStr s)
                   /\ datetime.parse_date s = None) ->
     each_prompt (prompt :: items) start_date end_date json_dates out
     = each_prompt items start_date end_date json_dates out)
  /\ (forall members v,
        prompt = JObj members -> py.dict_get "Date" members = Some v ->
        (forall s, v <> JStr s) ->
        each_prompt (prompt :: items) start_date end_date json_dates out
        = (Raised TypeError, out))
  /\ (scalar prompt = true ->
      each_prompt (prompt :: items) start_date end_date json_dates out
      = (Raised TypeError, out)).
Proof.
  split; [|split].
  - intros members -> [Hd|(s & Hd & Hs)]; cbn [each_prompt];
      rewrite contains_obj; unfold bind at 1, lift.
    + rewrite bool_decide_eq_false_2; [reflexivity|].
      rewrite Hd. intros [? ?]. discriminate.
    + rewrite bool_decide_eq_true_2 by eauto.
      unfold bind at 1, try_except, bind, lift. cbn [py.getitem].
      rewrite Hd. cbn [obind datetime.strptime]. rewrite Hs. reflexivity.
  - intros members v -> Hd Hv. cbn [each_prompt].
    rewrite contains_obj. unfold bind at 1, lift.
    rewrite bool_decide_eq_true_2 by eauto.
    unfold bind at 1, try_except, bind, lift. cbn [py.getitem].
    rewrite Hd. cbn [obind].
    destruct v as [| | |s| |]; try reflexivity. now contradiction (Hv s).
  - intros Hs. destruct prompt; try discriminate; reflexivity.
Qed.

(** A prompt dated 31 February, a prompt dated with a number, and a
    prompt that is a number. *)
Lemma prompts_without_a_usable_date_witness :
  each_prompt [JObj [("Date", JStr "2025-02-31")]; samples.forbidden_prompt]
    first_date (datetime.Date 2025 3 4) ∅ []
  = each_prompt [samples.forbidden_prompt] first_date (datetime.Date 2025 3 4) ∅ []
  /\ each_prompt [JObj [("Date", JNumber "20250303")]]
       first_date (datetime.Date 2025 3 4) ∅ []
     = (Raised TypeError, [])
  /\ each_prompt [JNumber "7"] first_date (datetime.Date 2025 3 4) ∅ []
     = (Raised TypeError, []).
Proof.
  split; [|split].
  - apply (proj1 (prompts_without_a_usable_date
                    (JObj [("Date", JStr "2025-02-31")]) [samples.forbidden_prompt]
                    first_date (datetime.Date 2025 3 4) ∅ [])
             [("Date", JStr "2025-02-31")] eq_refl).
    right. exists "2025-02-31". split; reflexivity.
  - apply (proj1 (proj2 (prompts_without_a_usable_date
                           (JObj [("Date", JNumber "20250303")]) []
                           first_date (datetime.Date 2025 3 4) ∅ []))
             [("Date", JNumber "20250303")] (JNumber "20250303") eq_refl eq_refl).
    intros s. discriminate.
  - exact (proj2 (proj2 (prompts_without_a_usable_date (JNumber "7") []
                           first_date (datetime.Date 2025 3 4) ∅ [])) eq_refl).
Defined.

End prompts_skipped.
